(** * modem-monitor: a shallow embedding of the connection supervisor

    The development follows the layout of the C sources:

    - [Dms]     : src/dms.c  (operation-mode table, GetPower / SetPower)
    - [Wds]     : src/wds.c  (runtime settings, packet-service indications)
    - [Netlink] : src/netlink.c (address enumeration and reconciliation)
    - [Main]    : src/main.c together with mm_start_session of
                  src/run_helpers.c (the supervisor loops)
    - [NetlinkMore]  : src/netlink.c (cache reload, address flush) and
                       mm_apply_ipv4_runtime_settings of src/run_helpers.c
    - [Qmi]          : service objects of src/dms.c and src/wds.c, with
                       mm_configure_autoconnect_and_roaming and
                       mm_exec_wireguard_setconf of src/run_helpers.c
    - [NetlinkSetup] : src/netlink.c (allocators, initialise, shutdown)
    - [Program]      : src/main.c (main)

    C integers are kept as [Z]; the vendor QMI library, libnl, sd-bus and
    the kernel are collaborators whose answers are supplied by the
    environment (section variables), never invented by the model. *)

From Stdlib Require Import ZArith List String Bool Lia.
Import ListNotations.
Open Scope string_scope.
Open Scope list_scope.
Open Scope Z_scope.

(** ** Shared vocabulary *)

(** qmerrno.h: the code tests statuses both with [== eQCWWAN_ERR_NONE] and
    with plain truthiness, so success is the integer zero. *)
Definition eQCWWAN_ERR_NONE : Z := 0.

(** <sys/socket.h> and <linux/rtnetlink.h> on the Linux target. *)
Definition AF_INET : Z := 2.
Definition AF_INET6 : Z := 10.
Definition RT_SCOPE_UNIVERSE : Z := 0.
Definition RT_SCOPE_LINK : Z := 253.

(** [swi_uint256_get_bit (mask, n)]: the presence mask is a 256-bit
    integer, one bit per TLV type. *)
Definition swi_uint256_get_bit (mask : Z) (n : Z) : bool := Z.testbit mask n.

(** [ntohs] / [ntohl] on the little-endian x86_64 target. *)
Definition ntohs (x : Z) : Z :=
  Z.lor (Z.shiftl (Z.land x 255) 8) (Z.land (Z.shiftr x 8) 255).

Definition ntohl (x : Z) : Z :=
  Z.lor (Z.lor (Z.shiftl (Z.land x 255) 24)
               (Z.shiftl (Z.land (Z.shiftr x 8) 255) 16))
        (Z.lor (Z.shiftl (Z.land (Z.shiftr x 16) 255) 8)
               (Z.land (Z.shiftr x 24) 255)).

(** What [MM_LOG] prints: the format (abridged, without the leading
    prefix slot) and its arguments. *)
Inductive log_arg : Type :=
| arg_int (v : Z)
| arg_str (s : string)
| arg_ptr (non_null : bool).

Inductive log_entry : Type :=
| MM_LOG (fmt : string) (args : list log_arg).

(** A C truth test. *)
Definition nonzero (v : Z) : bool := negb (v =? 0).

(** ** src/dms.c *)

Module Dms.

(** enum mm_dms_operation_mode (inc/mm_dms.h). *)
Definition MM_DMS_OPERATION_MODE_ONLINE : Z := 0.
Definition MM_DMS_OPERATION_MODE_LOW_POWER : Z := 1.
Definition MM_DMS_OPERATION_MODE_FACTORY_TEST : Z := 2.
Definition MM_DMS_OPERATION_MODE_OFFLINE : Z := 3.
Definition MM_DMS_OPERATION_MODE_RESETTING : Z := 4.
Definition MM_DMS_OPERATION_MODE_POWER_OFF : Z := 5.
Definition MM_DMS_OPERATION_MODE_PERSISTENT_LOW_POWER : Z := 6.
Definition MM_DMS_OPERATION_MODE_ONLY_LOW_POWER : Z := 7.
Definition MM_DMS_OPERATION_MODE_MAX : Z := 8.
Definition MM_DMS_OPERATION_MODE_INVALID : Z := 255.

Definition mm_dms_operation_modes : list string :=
  [ "Online";
    "Low power (airplane) mode";
    "Factory test mode";
    "Offline";
    "Resetting";
    "Power off";
    "Persistent low power (airplane) mode";
    "Mode-only low power" ].

(** [sizeof (table) / sizeof ( *table)]. *)
Definition entries : Z := Z.of_nat (List.length mm_dms_operation_modes).

(** The comparison [mode >= entries] is carried out in [size_t]: the
    enumeration value is converted to a 64-bit unsigned integer first. *)
Definition to_size_t (v : Z) : Z := v mod 2 ^ 64.

(** [mm_dms_get_operation_mode_string].  The array read is a list lookup;
    [None] would be a read outside the table. *)
Definition mm_dms_get_operation_mode_string (mode : Z) : option string :=
  if entries <=? to_size_t mode then Some "Invalid"
  else nth_error mm_dms_operation_modes (Z.to_nat mode).

(** *** mm_dms_get_power_sync and mm_dms_set_power_sync *)

Inductive dms_request : Type :=
| pack_dms_GetPower
| pack_dms_SetPower (mode : Z).

Record unpack_dms_GetPower_t : Type := {
  gp_Tlvresult : Z;
  gp_ParamPresenceMask : Z;
  OperationMode : Z;
  HardwareControlledMode : Z
}.

Record unpack_dms_SetPower_t : Type := {
  sp_Tlvresult : Z
}.

(** The modem behind the DMS service handle: for each request, the status
    of QmiService_SendSyncRequest and the unpacked response. *)
Class DmsModem (M : Type) : Type := {
  answer_GetPower : M -> Z * unpack_dms_GetPower_t * M;
  answer_SetPower : Z -> M -> Z * unpack_dms_SetPower_t * M
}.

(** The modem together with the requests sent to it so far. *)
Record dms_service (M : Type) : Type := {
  modem : M;
  sent : list dms_request
}.
Arguments modem {M} _.
Arguments sent {M} _.

Section Power.

Context {M : Type} `{DmsModem M}.

(** qmerrno.h gives the value; only its being an error matters. *)
Variable eQCWWAN_ERR_GENERAL : Z.

Definition send_GetPower (dms : dms_service M)
  : Z * unpack_dms_GetPower_t * dms_service M :=
  let '(status, resp, m) := answer_GetPower (modem dms) in
  (status, resp, {| modem := m; sent := sent dms ++ [pack_dms_GetPower] |}).

Definition send_SetPower (mode : Z) (dms : dms_service M)
  : Z * unpack_dms_SetPower_t * dms_service M :=
  let '(status, resp, m) := answer_SetPower mode (modem dms) in
  (status, resp,
   {| modem := m; sent := sent dms ++ [pack_dms_SetPower mode] |}).

(** Returns [(status, *mode, *hardware_controlled_mode)]. *)
Definition mm_dms_get_power_sync (dms : dms_service M)
  : Z * Z * bool * dms_service M :=
  let '(status, resp, dms1) := send_GetPower dms in
  if status =? eQCWWAN_ERR_NONE then
    if negb (gp_Tlvresult resp =? eQCWWAN_ERR_NONE) then
      (gp_Tlvresult resp, MM_DMS_OPERATION_MODE_INVALID, false, dms1)
    else
      let mode :=
        if swi_uint256_get_bit (gp_ParamPresenceMask resp) 1
        then OperationMode resp else MM_DMS_OPERATION_MODE_INVALID in
      let hardware_controlled_mode :=
        if swi_uint256_get_bit (gp_ParamPresenceMask resp) 16
        then nonzero (HardwareControlledMode resp) else false in
      (status, mode, hardware_controlled_mode, dms1)
  else (status, MM_DMS_OPERATION_MODE_INVALID, false, dms1).

(** Returns [(status, *resulting_mode)]. *)
Definition mm_dms_set_power_sync (requested_mode : Z) (dms : dms_service M)
  : Z * Z * dms_service M :=
  let '(status, current_mode, hardware_controlled_mode, dms1) :=
    mm_dms_get_power_sync dms in
  if negb (status =? eQCWWAN_ERR_NONE) then
    (status, MM_DMS_OPERATION_MODE_INVALID, dms1)
  else if (current_mode =? requested_mode) || hardware_controlled_mode then
    (eQCWWAN_ERR_NONE, current_mode, dms1)
  else
    let '(status, resp, dms2) := send_SetPower requested_mode dms1 in
    if status =? eQCWWAN_ERR_NONE then
      if negb (sp_Tlvresult resp =? eQCWWAN_ERR_NONE) then
        (sp_Tlvresult resp, MM_DMS_OPERATION_MODE_INVALID, dms2)
      else
        (* Read the power state back out to see if it really changed. *)
        let '(status, current_mode, _, dms3) := mm_dms_get_power_sync dms2 in
        if negb (status =? eQCWWAN_ERR_NONE) then
          (status, MM_DMS_OPERATION_MODE_INVALID, dms3)
        else if negb (current_mode =? requested_mode) then
          (eQCWWAN_ERR_GENERAL, current_mode, dms3)
        else (status, current_mode, dms3)
    else (status, MM_DMS_OPERATION_MODE_INVALID, dms2).

End Power.

End Dms.

(** ** src/wds.c *)

Module Wds.

(** The [address] and [gateway] unions of struct mm_wds_runtime_settings
    hold an [in_addr] or an [in6_addr]; [addr_zero] is the union as
    [memset] leaves it. *)
Inductive ip_address : Type :=
| addr_zero
| addr_in (s_addr : Z)
| addr_in6 (u6_addr16 : list Z).

Record mm_wds_runtime_settings : Type := {
  address : ip_address;
  gateway : ip_address;
  prefix_length : Z
}.

(** struct mm_wds_session without the opaque QmiService handle. *)
Record mm_wds_session : Type := {
  last_runtime_settings : mm_wds_runtime_settings;
  session_id : Z;
  profile : Z;
  family : Z;
  teardown_requested : bool
}.

Definition zero_settings : mm_wds_runtime_settings :=
  {| address := addr_zero; gateway := addr_zero; prefix_length := 0 |}.

Definition set_address (a : ip_address) (s : mm_wds_runtime_settings) :=
  {| address := a; gateway := gateway s; prefix_length := prefix_length s |}.

Definition set_gateway (g : ip_address) (s : mm_wds_runtime_settings) :=
  {| address := address s; gateway := g; prefix_length := prefix_length s |}.

Definition set_prefix_length (p : Z) (s : mm_wds_runtime_settings) :=
  {| address := address s; gateway := gateway s; prefix_length := p |}.

(** *** mm_wds_get_runtime_settings *)

(** The fields of unpack_wds_SLQSGetRuntimeSettings_t the function reads. *)
Record unpack_wds_SLQSGetRuntimeSettings_t : Type := {
  rs_Tlvresult : Z;
  rs_ParamPresenceMask : Z;
  IPv4 : Z;
  GWAddressV4 : Z;
  SubnetMaskV4 : Z;
  IPAddressV6 : list Z;
  IPV6PrefixLen : Z;
  gwAddressV6 : list Z;
  gwV6PrefixLen : Z
}.

(** [while (!(resp.SubnetMaskV4 & 0x1)) { mask >>= 1; prefix_length--; }]
    One unit of fuel pays for one turn of the body; [None] is a loop that
    is still running when the fuel is gone.  [prefix_length] is a C [int];
    it is kept as an integer because on every terminating run it stays
    within 1..32. *)
Fixpoint subnet_mask_loop (fuel : nat) (mask prefix : Z) : option Z :=
  if Z.land mask 1 =? 0 then
    match fuel with
    | O => None
    | S fuel' => subnet_mask_loop fuel' (Z.shiftr mask 1) (prefix - 1)
    end
  else Some prefix.

Record runtime_settings_result : Type := {
  rr_status : Z;
  rr_settings : mm_wds_runtime_settings;
  rr_address_present : bool;
  rr_gateway_present : bool;
  rr_log : list log_entry
}.

(** [send_status] and [resp] are what QmiService_SendSyncRequest returned
    and unpacked.  The four presence tests run in source order, each one
    updating [settings] in place. *)
Definition mm_wds_get_runtime_settings (fuel : nat) (session_family : Z)
    (send_status : Z) (resp : unpack_wds_SLQSGetRuntimeSettings_t)
  : option runtime_settings_result :=
  let mask := rs_ParamPresenceMask resp in
  if negb (send_status =? eQCWWAN_ERR_NONE) then
    Some {| rr_status := send_status; rr_settings := zero_settings;
            rr_address_present := false; rr_gateway_present := false;
            rr_log := [] |}
  else if negb (rs_Tlvresult resp =? eQCWWAN_ERR_NONE) then
    Some {| rr_status := rs_Tlvresult resp; rr_settings := zero_settings;
            rr_address_present := false; rr_gateway_present := false;
            rr_log := [] |}
  else
    (* TLV 30: IPv4 address *)
    let '(s1, ap1) :=
      if swi_uint256_get_bit mask 30 && (session_family =? AF_INET)
      then (set_address (addr_in (ntohl (IPv4 resp))) zero_settings, true)
      else (zero_settings, false) in
    (* TLVs 32 and 33: IPv4 gateway and subnet mask *)
    let after_v4_gateway :=
      if swi_uint256_get_bit mask 32 && swi_uint256_get_bit mask 33
         && (session_family =? AF_INET)
      then
        match subnet_mask_loop fuel (SubnetMaskV4 resp) 32 with
        | Some p =>
            Some (set_prefix_length p
                    (set_gateway (addr_in (ntohl (GWAddressV4 resp))) s1),
                  true)
        | None => None
        end
      else Some (s1, false) in
    match after_v4_gateway with
    | None => None
    | Some (s2, gp2) =>
      (* TLV 37: IPv6 address and its prefix length *)
      let '(s3, ap3) :=
        if swi_uint256_get_bit mask 37 && (session_family =? AF_INET6)
        then (set_prefix_length (IPV6PrefixLen resp)
                (set_address
                   (addr_in6 (map ntohs (firstn 8 (IPAddressV6 resp)))) s2),
              true)
        else (s2, ap1) in
      (* TLV 38: IPv6 gateway and its prefix length *)
      let '(s4, gp4, log) :=
        if swi_uint256_get_bit mask 38 && (session_family =? AF_INET6)
        then
          let gw_prefix_length := gwV6PrefixLen resp in
          let s :=
            set_gateway
              (addr_in6 (map ntohs (firstn 8 (gwAddressV6 resp)))) s3 in
          if nonzero (prefix_length s)
             && negb (prefix_length s =? gw_prefix_length)
          then (s, true,
                [MM_LOG "IPv6 prefix length for address and gateway differ? (/%d /%d)"
                        [arg_int (prefix_length s); arg_int gw_prefix_length]])
          else (set_prefix_length gw_prefix_length s, true, [])
        else (s3, gp2, []) in
      Some {| rr_status := send_status; rr_settings := s4;
              rr_address_present := ap3; rr_gateway_present := gp4;
              rr_log := log |}
    end.

(** *** wds_indication_callback *)

Definition get_connection_status_string (connection_status : Z) : string :=
  let statuses := ["DISCONNECTED"; "CONNECTED"; "SUSPENDED"; "AUTHENTICATING"] in
  if (connection_status =? 0)
     || (Z.of_nat (List.length statuses) <? connection_status)
  then "INVALID"
  else nth (Z.to_nat (connection_status - 1)) statuses "INVALID".

Definition get_reconfiguration_string (reconfiguration_required : Z) : string :=
  if nonzero reconfiguration_required then "YES" else "NO".

(** [resp_context.msgid] as the switch sees it. *)
Inductive wds_msgid : Type :=
| eQMI_WDS_PKT_SRVC_STATUS_IND
| unhandled_msgid (id : Z).

(** The fields of unpack_wds_SLQSSetPacketSrvStatusCallback_t that are read. *)
Record unpack_wds_SLQSSetPacketSrvStatusCallback_t : Type := {
  ps_Tlvresult : Z;
  ps_ParamPresenceMask : Z;
  conn_status : Z;
  reconfigReqd : Z;
  sessionEndReason : Z;
  verboseSessnEndReasonType : Z;
  verboseSessnEndReason : Z
}.

(** One indication as delivered by the transport thread: the message id,
    the status of the unpack call and the unpacked structure. *)
Record wds_indication : Type := {
  msgid : wds_msgid;
  unpack_status : Z;
  packet_srv_status : unpack_wds_SLQSSetPacketSrvStatusCallback_t
}.

(** The callback either returns, leaving the object behind [context]
    (if any) in a new state, or reads [session->session_id] through a
    null [context]. *)
Inductive callback_outcome : Type :=
| cb_null_dereference
| cb_return (context : option mm_wds_session) (log : list log_entry).

Definition set_teardown_requested (s : mm_wds_session) : mm_wds_session :=
  {| last_runtime_settings := last_runtime_settings s;
     session_id := session_id s;
     profile := profile s;
     family := family s;
     teardown_requested := true |}.

(** The locals the callback fills from the unpacked structure. *)
Record indication_locals : Type := {
  reason_present : bool;
  verbose_reason_present : bool;
  connection_status : Z;
  host_reconfiguration_required : Z;
  session_end_reason : Z;
  verbose_session_end_reason_type : Z;
  verbose_session_end_reason : Z
}.

Definition read_indication (p : unpack_wds_SLQSSetPacketSrvStatusCallback_t)
  : indication_locals :=
  let has16 := swi_uint256_get_bit (ps_ParamPresenceMask p) 16 in
  let has17 := swi_uint256_get_bit (ps_ParamPresenceMask p) 17 in
  {| reason_present := has16;
     verbose_reason_present := has17;
     connection_status := conn_status p;
     host_reconfiguration_required := reconfigReqd p;
     session_end_reason := if has16 then sessionEndReason p else 0;
     verbose_session_end_reason_type :=
       if has17 then verboseSessnEndReasonType p else 0;
     verbose_session_end_reason :=
       if has17 then verboseSessnEndReason p else 0 |}.

(** The four-way report.  Three of the four messages print
    [session->session_id]; the last one prints the pointer itself. *)
Definition report_indication (l : indication_locals)
    (session : option mm_wds_session) : option (list log_entry) :=
  let status := arg_str (get_connection_status_string (connection_status l)) in
  let reconf :=
    arg_str (get_reconfiguration_string (host_reconfiguration_required l)) in
  if verbose_reason_present l then
    match session with
    | None => None
    | Some s =>
      if reason_present l then
        Some [MM_LOG "Packet service signaled session teardown: Session, ConnectionStatus, HostReconfigurationRequired, VerboseSessionEndReasonType, VerboseSessionEndReason, SessionEndReason"
                [arg_int (session_id s); status; reconf;
                 arg_int (verbose_session_end_reason_type l);
                 arg_int (verbose_session_end_reason l);
                 arg_int (session_end_reason l)]]
      else
        Some [MM_LOG "Packet service signaled session teardown: Session, ConnectionStatus, HostReconfigurationRequired, VerboseFailureReasonType, VerboseFailureReason"
                [arg_int (session_id s); status; reconf;
                 arg_int (verbose_session_end_reason_type l);
                 arg_int (verbose_session_end_reason l)]]
    end
  else if reason_present l then
    match session with
    | None => None
    | Some s =>
        Some [MM_LOG "Packet service signaled session teardown: Session, ConnectionStatus, HostReconfigurationRequired, SessionEndReason"
                [arg_int (session_id s); status; reconf;
                 arg_int (session_end_reason l)]]
    end
  else
    Some [MM_LOG "Packet service indication received: Session, ConnectionStatus, HostReconfigurationRequired"
            [arg_ptr (match session with Some _ => true | None => false end);
             status; reconf]].

(** The guard of the final [if]: [session && session->session_id &&
    connection_status == 1 && !(...)]. *)
Definition teardown_guard (l : indication_locals)
    (session : option mm_wds_session) : bool :=
  match session with
  | None => false
  | Some s =>
      nonzero (session_id s)
      && (connection_status l =? 1)
      && negb ((reason_present l && (session_end_reason l =? 2))
               || (verbose_reason_present l
                   && (verbose_session_end_reason_type l =? 3)
                   && (verbose_session_end_reason l =? 2000)))
  end.

Definition wds_indication_callback (ind : wds_indication)
    (context : option mm_wds_session) : callback_outcome :=
  let session := context in
  match msgid ind with
  | eQMI_WDS_PKT_SRVC_STATUS_IND =>
    let p := packet_srv_status ind in
    if negb (unpack_status ind =? eQCWWAN_ERR_NONE) then
      cb_return session [MM_LOG "Failed to process packet service indication" []]
    else if nonzero (ps_Tlvresult p) then
      cb_return session [MM_LOG "Packet service indication signaled an error" []]
    else if negb (swi_uint256_get_bit (ps_ParamPresenceMask p) 1) then
      cb_return session [MM_LOG "Missing context in packet service indication" []]
    else
      let l := read_indication p in
      match report_indication l session with
      | None => cb_null_dereference
      | Some log =>
        if teardown_guard l session then
          cb_return (option_map set_teardown_requested session)
            (log ++ [MM_LOG "Requesting main thread to teardown the session" []])
        else cb_return session log
      end
  | unhandled_msgid id =>
      cb_return session
        [MM_LOG "Unhandled WDS indication: MessageID" [arg_int id]]
  end.

(** The teardown flag of the session after the callback has run; a
    callback that did not return has set nothing. *)
Definition teardown_after (o : callback_outcome) (before : bool) : bool :=
  match o with
  | cb_return (Some s) _ => teardown_requested s
  | _ => before
  end.

(** The condition of the specification's indication filter, word for
    word: [connection_status == DISCONNECTED] and not
    [(session_end_reason == 2 or (verbose_session_end_reason_type == 3 and
    verbose_session_end_reason == 2000))], the optional fields being the
    ones the indication carries. *)
Definition spec_teardown_condition
    (p : unpack_wds_SLQSSetPacketSrvStatusCallback_t) : bool :=
  let session_end_reason :=
    if swi_uint256_get_bit (ps_ParamPresenceMask p) 16
    then Some (sessionEndReason p) else None in
  let verbose :=
    if swi_uint256_get_bit (ps_ParamPresenceMask p) 17
    then Some (verboseSessnEndReasonType p, verboseSessnEndReason p)
    else None in
  (conn_status p =? 1)
  && negb (match session_end_reason with
           | Some r => r =? 2
           | None => false
           end
           || match verbose with
              | Some (t, r) => (t =? 3) && (r =? 2000)
              | None => false
              end).

(** The three early [break]s passed: the message is a packet-service
    status indication that unpacked without error, reports no TLV error
    and carries the connection-status TLV. *)
Definition unpacked_ok (ind : wds_indication) : bool :=
  match msgid ind with
  | eQMI_WDS_PKT_SRVC_STATUS_IND =>
      (unpack_status ind =? eQCWWAN_ERR_NONE)
      && negb (nonzero (ps_Tlvresult (packet_srv_status ind)))
      && swi_uint256_get_bit (ps_ParamPresenceMask (packet_srv_status ind)) 1
  | unhandled_msgid _ => false
  end.

(** The 32-bit population count, for comparison with the derived prefix. *)
Fixpoint popcount_bits (n : nat) (m : Z) : Z :=
  match n with
  | O => 0
  | S n' => Z.b2z (Z.testbit m (Z.of_nat n')) + popcount_bits n' m
  end.

Definition popcount32 (m : Z) : Z := popcount_bits 32 m.

(** The mask with [k] leading ones: 0xFFFFFFFF << (32 - k), cut to 32 bits. *)
Definition contiguous_mask (k : Z) : Z := 2 ^ 32 - 2 ^ (32 - k).

End Wds.

(** ** src/netlink.c *)

Module Netlink.

Definition MAX_NETLINK_ADDRS : Z := 126.

(** What the code reads of a cached [struct rtnl_addr]: family, interface
    index, scope, prefix length and the bytes of the local address. *)
Record rtnl_addr : Type := {
  a_family : Z;
  a_ifindex : Z;
  a_scope : Z;
  a_prefixlen : Z;
  a_local : list Z
}.

(** struct mm_netlink_addrs.  The slots of [list] below [allocated] are
    the initialised ones, so the array is the list of its first
    [allocated] entries and [list[allocated++] = addr] appends. *)
Record mm_netlink_addrs : Type := {
  addrs_list : list rtnl_addr;
  count : Z;
  allocated : Z
}.

Definition collect_nonlink_addrs (addr : rtnl_addr)
    (addrs : mm_netlink_addrs) : mm_netlink_addrs :=
  if a_scope addr =? RT_SCOPE_LINK then addrs
  else
    let addrs1 :=
      if allocated addrs <? MAX_NETLINK_ADDRS
      then {| addrs_list := addrs_list addrs ++ [addr];
              count := count addrs;
              allocated := allocated addrs + 1 |}
      else addrs in
    {| addrs_list := addrs_list addrs1;
       count := count addrs1 + 1;
       allocated := allocated addrs1 |}.

(** The part of struct mm_netlink the reconciliation reads: the content
    of the address cache and the interface index pinned on the filter. *)
Record mm_netlink : Type := {
  addr_cache : list rtnl_addr;
  wwan_ifindex : Z
}.

(** [nl_cache_foreach_filter]: the callback runs, in cache order, on the
    objects that agree with the filter on the attributes set on it (the
    interface index and the family). *)
Definition nl_cache_foreach_filter (cache : list rtnl_addr)
    (filter_family filter_ifindex : Z)
    (cb : rtnl_addr -> mm_netlink_addrs -> mm_netlink_addrs)
    (data : mm_netlink_addrs) : mm_netlink_addrs :=
  fold_left (fun d a => cb a d)
    (filter (fun a => (a_family a =? filter_family)
                      && (a_ifindex a =? filter_ifindex)) cache)
    data.

(** [addrs.count = addrs.allocated = 0; rtnl_addr_set_family (filter,
    family); nl_cache_foreach_filter (..., collect_nonlink_addrs, &addrs)] *)
Definition dump_wwan_addrs (mm_nl : mm_netlink) (family : Z)
  : mm_netlink_addrs :=
  nl_cache_foreach_filter (addr_cache mm_nl) family (wwan_ifindex mm_nl)
    collect_nonlink_addrs
    {| addrs_list := []; count := 0; allocated := 0 |}.

(** [memcpy (&binary_address, bytes, 4)] on the little-endian target. *)
Definition binary_address (bytes : list Z) : Z :=
  nth 0 bytes 0 + 2 ^ 8 * nth 1 bytes 0
  + 2 ^ 16 * nth 2 bytes 0 + 2 ^ 24 * nth 3 bytes 0.

(** The test of the reconciliation loop: same prefix length, a four-byte
    local address, and the same binary value as the target. *)
Definition is_target (address prefix_length : Z) (a : rtnl_addr) : bool :=
  (a_prefixlen a =? prefix_length)
  && (Z.of_nat (List.length (a_local a)) =? 4)
  && (binary_address (a_local a) =? address).

(** The kernel behind the route socket: the status of each submit. *)
Class Rtnl (K : Type) : Type := {
  rtnl_addr_delete : rtnl_addr -> K -> Z * K;
  rtnl_addr_add : Z -> Z -> K -> Z * K;
  rtnl_route_add : Z -> Z -> K -> Z * K
}.

Section Reconcile.

Context {K : Type} `{Rtnl K}.

Definition mm_netlink_add_v4_address (s_addr prefix_length : Z) (k : K)
  : Z * list log_entry * K :=
  let '(status, k1) := rtnl_addr_add s_addr prefix_length k in
  (status,
   if nonzero status then [MM_LOG "rtnl_addr_add" [arg_int status]] else [],
   k1).

Definition mm_netlink_change_v4_default_gateway (wwan_addr gateway_addr : Z)
    (k : K) : Z * list log_entry * K :=
  let '(status, k1) := rtnl_route_add wwan_addr gateway_addr k in
  (status,
   if nonzero status then [MM_LOG "rtnl_route_add" [arg_int status]] else [],
   k1).

(** The loop state: [status], [found_address], the log and the kernel. *)
Definition remove_stale (address prefix_length : Z)
    (st : Z * bool * list log_entry * K) (a : rtnl_addr)
  : Z * bool * list log_entry * K :=
  let '(status, found_address, log, k) := st in
  if is_target address prefix_length a
  then (status, true, log, k)
  else
    let '(status1, k1) := rtnl_addr_delete a k in
    (status1, found_address,
     log ++ (if nonzero status1
             then [MM_LOG "rtnl_addr_delete" [arg_int status1]] else []),
     k1).

Definition mm_netlink_ensure_v4_configuration_is_applied (mm_nl : mm_netlink)
    (address prefix_length gateway_address : Z) (k : K)
  : Z * list log_entry * K :=
  (* Dump a list of addresses on the WWAN interface. *)
  let addrs := dump_wwan_addrs mm_nl AF_INET in
  let '(status0, log0) :=
    if allocated addrs <? count addrs
    then (-1, [MM_LOG "mm_netlink_ensure_v4_confiuration_is_applied: >%u addresses returned?"
                      [arg_int MAX_NETLINK_ADDRS]])
    else (0, []) in
  (* Remove any addresses which should no longer be present. *)
  let '(status1, found_address, log1, k1) :=
    fold_left (remove_stale address prefix_length)
      (firstn (Z.to_nat (allocated addrs)) (addrs_list addrs))
      (status0, false, log0, k) in
  (* Add the address if missing and provision the default route. *)
  let '(status2, log2, k2) :=
    if negb found_address
    then let '(s, l, k') := mm_netlink_add_v4_address address prefix_length k1
         in (s, log1 ++ l, k')
    else (status1, log1, k1) in
  if negb (nonzero status2) then
    let '(s, l, k') :=
      mm_netlink_change_v4_default_gateway address gateway_address k2 in
    (s, log2 ++ l, k')
  else (status2, log2, k2).

End Reconcile.

End Netlink.

(** ** src/main.c, with mm_start_session of src/run_helpers.c *)

Module Main.

Definition PROFILE_3GPP_VZWINTERNET : Z := 3.

(** enum mm_wds_ip_family_preference; also used to tell the two session
    objects ([session_v4], [session_v6]) apart. *)
Inductive ip_family : Type := IPV4 | IPV6.

(** The calls that leave main.c.  Each returns an [int] status. *)
Inductive call : Type :=
| mm_netlink_ensure_wg0_interface_state (request_up : bool)
| mm_configure_autoconnect_and_roaming
| mm_netlink_reload_link_cache
| mm_sdbus_manage_service (method service : string)
| mm_netlink_ensure_wwan_interface_state (request_up : bool)
| mm_netlink_addr_flush
| mm_dms_initialize
| mm_dms_set_power_sync (requested_mode : Z)
| mm_dms_shutdown (deallocate_cached_fields : bool)
| mm_wds_initialize (session : ip_family)
| mm_wds_set_ip_family_preference (session preference : ip_family)
| mm_wds_start_data_session (session : ip_family) (profile family : Z)
| mm_wds_get_runtime_settings (session : ip_family)
| mm_apply_ipv4_runtime_settings (refresh : bool)
| mm_apply_ipv6_runtime_settings (refresh : bool)
| mm_exec_wireguard_setconf
| mm_netlink_ensure_wg0_routes_are_applied
| mm_wds_stop_data_session (session : ip_family)
| mm_wds_shutdown (session : ip_family)
| sleep (seconds : Z).

(** Everything outside the main thread: the modem, the kernel, the
    service bus, and the memory written by the signal handler and by the
    indication threads.  [answer] gives the status a call returns; the
    other fields read what a call left behind its out-parameters, and the
    flags the other contexts have raised so far. *)
Class Host (W : Type) : Type := {
  answer : call -> W -> Z * W;
  resulting_mode : W -> Z;
  address_present : W -> bool;
  gateway_present : W -> bool;
  reason_present : W -> bool;
  verbose_reason_present : W -> bool;
  sigint_handled : W -> bool;
  teardown_requested : ip_family -> W -> bool
}.

Inductive event : Type :=
| called (c : call) (status : Z)
| logged (msg : string).

(** The main thread's state: the environment, the writes the main thread
    itself made to [exit_requested], and what it has done so far. *)
Record state (W : Type) : Type := {
  world : W;
  exit_requested : bool;
  trace : list event
}.
Arguments world {W} _.
Arguments exit_requested {W} _.
Arguments trace {W} _.

(** Result of one turn of the outer [while]: left by [break], or run to
    the closing brace; either way with the current [status]. *)
Inductive loop_exit : Type :=
| loop_break (status : Z)
| loop_next (status : Z).

Section Supervisor.

Context {W : Type} `{Host W}.

(** qmerrno.h gives the value. *)
Variable eQCWWAN_ERR_QMI_NO_EFFECT : Z.

(** Computations of the main thread; [None] is a loop still running when
    the fuel is gone. *)
Definition run (A : Type) : Type := state W -> option (A * state W).

Definition ret {A : Type} (a : A) : run A := fun st => Some (a, st).

Definition bind {A B : Type} (c : run A) (k : A -> run B) : run B :=
  fun st =>
    match c st with
    | Some (a, st1) => k a st1
    | None => None
    end.

Notation "x <- c ;; k" := (bind c (fun x => k))
  (at level 61, c at next level, right associativity).
Notation "c ;; k" := (bind c (fun _ => k))
  (at level 61, right associativity).

Definition still_running {A : Type} : run A := fun _ => None.

Definition invoke (c : call) : run Z :=
  fun st =>
    let '(status, w) := answer c (world st) in
    Some (status, {| world := w;
                     exit_requested := exit_requested st;
                     trace := trace st ++ [called c status] |}).

Definition observe {A : Type} (f : W -> A) : run A :=
  fun st => Some (f (world st), st).

Definition log (msg : string) : run unit :=
  fun st => Some (tt, {| world := world st;
                         exit_requested := exit_requested st;
                         trace := trace st ++ [logged msg] |}).

(** [exit_requested = true;] in the main thread. *)
Definition request_exit : run unit :=
  fun st => Some (tt, {| world := world st;
                         exit_requested := true;
                         trace := trace st |}).

(** Reading the global: true once the main thread or [handle_signal]
    has set it. *)
Definition read_exit_requested : run bool :=
  fun st => Some (exit_requested st || sigint_handled (world st), st).

(** *** mm_start_session (src/run_helpers.c) *)

Definition mm_start_session (session : ip_family) (profile_id : Z)
    (preference : ip_family) : run Z :=
  status <- invoke (mm_wds_set_ip_family_preference session preference) ;;
  if nonzero status then
    log "Failed to set IP family preference" ;; ret status
  else
    let family := match preference with
                  | IPV4 => AF_INET
                  | IPV6 => AF_INET6
                  end in
    status <- invoke (mm_wds_start_data_session session profile_id family) ;;
    if nonzero status then
      verbose <- observe verbose_reason_present ;;
      reason <- observe reason_present ;;
      (if verbose then
         if reason
         then log "Failed to start a data session: VerboseFailureReasonType, VerboseFailureReason, FailureReason"
         else log "Failed to start a data session: VerboseFailureReasonType, VerboseFailureReason"
       else if reason
         then log "Failed to start a data session: FailureReason"
         else ret tt) ;;
      ret status
    else ret eQCWWAN_ERR_NONE.

(** *** run_sessions_up: the monitoring loop *)

Fixpoint run_sessions_up (fuel : nat) : run Z :=
  stop <- read_exit_requested ;;
  down_v4 <- observe (teardown_requested IPV4) ;;
  down_v6 <- observe (teardown_requested IPV6) ;;
  if negb stop && negb down_v4 && negb down_v6 then
    match fuel with
    | O => still_running
    | S fuel' => invoke (sleep 1) ;; run_sessions_up fuel'
    end
  else
    log "Stopping the modem-monitor due to external request" ;; ret 0.

(** *** run_up_ipv4 *)

(** Lines after a successful start and before the stop: settings,
    services, tunnel, monitor. *)
Definition run_up_ipv4_connected (fuel : nat) : run Z :=
  log "Started IPv4 data session" ;;
  status <- invoke (mm_wds_get_runtime_settings IPV4) ;;
  present_a <- observe address_present ;;
  present_g <- observe gateway_present ;;
  if negb (status =? eQCWWAN_ERR_NONE) then
    log "Failed to get initial IPv4 runtime settings" ;; ret status
  else if negb present_a || negb present_g then
    log "Missing IPv4 address/gateway in settings?" ;; ret (-1)
  else
    status <- invoke (mm_apply_ipv4_runtime_settings false) ;;
    if status =? eQCWWAN_ERR_NONE then
      (* Start DNS/NTP daemons and enter the run (monitoring) loop. *)
      status <- invoke (mm_sdbus_manage_service "StartUnit" "unbound.service") ;;
      if nonzero status then
        log "Failed to start unbound after modem up" ;;
        request_exit ;; ret status
      else
        status <- invoke mm_exec_wireguard_setconf ;;
        if nonzero status then
          log "Failed to bring up the Wireguard interface" ;; ret status
        else
          status <- invoke (mm_netlink_ensure_wg0_interface_state true) ;;
          if nonzero status then
            log "Failed to bring up the Wireguard interface" ;; ret status
          else
            routes <- invoke mm_netlink_ensure_wg0_routes_are_applied ;;
            if nonzero routes then
              (* the result of the third operand is not kept in status *)
              log "Failed to bring up the Wireguard interface" ;; ret status
            else
              status <- invoke (mm_sdbus_manage_service "StartUnit" "chrony.service") ;;
              if nonzero status then
                log "Failed to start chrony after modem up" ;;
                request_exit ;; ret status
              else run_sessions_up fuel
    else
      log "Failed to apply IPv4 configuration to the host" ;;
      request_exit ;; ret status.

(** [if ((check = mm_wds_stop_data_session (&session_v4)) !=
    eQCWWAN_ERR_NONE && check != eQCWWAN_ERR_QMI_NO_EFFECT) ...] *)
Definition run_up_ipv4_stop (status : Z) : run Z :=
  check <- invoke (mm_wds_stop_data_session IPV4) ;;
  if negb (check =? eQCWWAN_ERR_NONE)
     && negb (check =? eQCWWAN_ERR_QMI_NO_EFFECT)
  then
    log "Failed to stop the IPv4 data session" ;;
    request_exit ;; ret check
  else ret status.

Definition run_up_ipv4 (fuel : nat) : run Z :=
  status <- invoke (mm_wds_initialize IPV4) ;;
  if nonzero status then
    log "Failed to initialize the IPv4 WDS service object" ;;
    request_exit ;; ret status
  else
    status <- mm_start_session IPV4 PROFILE_3GPP_VZWINTERNET IPV4 ;;
    status <-
      (if status =? eQCWWAN_ERR_NONE then
         status <- run_up_ipv4_connected fuel ;;
         run_up_ipv4_stop status
       else
         (* Do not request an exit: the signal is likely too weak. *)
         log "Failed to start the IPv4 data session" ;; ret status) ;;
    check <- invoke (mm_wds_shutdown IPV4) ;;
    if nonzero check then
      log "Failed to shutdown the IPv4 WDS service object" ;;
      request_exit ;; ret check
    else ret status.

(** *** run_up_ipv6 *)

Definition run_up_ipv6_connected (fuel : nat) : run Z :=
  log "Started IPv6 data session" ;;
  status <- invoke (mm_wds_get_runtime_settings IPV6) ;;
  present_a <- observe address_present ;;
  present_g <- observe gateway_present ;;
  if negb (status =? eQCWWAN_ERR_NONE) then
    log "Failed to get initial IPv6 runtime settings" ;; ret status
  else if negb present_a || negb present_g then
    log "Missing IPv6 address/gateway in settings?" ;; ret (-1)
  else
    status <- invoke (mm_apply_ipv6_runtime_settings false) ;;
    if status =? eQCWWAN_ERR_NONE then run_up_ipv4 fuel
    else
      log "Failed to apply IPv6 configuration to the host" ;;
      request_exit ;; ret status.

Definition run_up_ipv6_stop (status : Z) : run Z :=
  check <- invoke (mm_wds_stop_data_session IPV6) ;;
  if negb (check =? eQCWWAN_ERR_NONE)
     && negb (check =? eQCWWAN_ERR_QMI_NO_EFFECT)
  then
    log "Failed to stop the IPv6 data session" ;;
    request_exit ;; ret check
  else ret status.

Definition run_up_ipv6 (fuel : nat) : run Z :=
  status <- invoke (mm_wds_initialize IPV6) ;;
  if nonzero status then
    log "Failed to initialize the IPv6 WDS service object" ;;
    request_exit ;; ret status
  else
    status <- mm_start_session IPV6 PROFILE_3GPP_VZWINTERNET IPV6 ;;
    status <-
      (if status =? eQCWWAN_ERR_NONE then
         status <- run_up_ipv6_connected fuel ;;
         run_up_ipv6_stop status
       else
         (* Do not request an exit: the signal is likely too weak. *)
         log "Failed to start the IPv6 data session" ;; ret status) ;;
    check <- invoke (mm_wds_shutdown IPV6) ;;
    if nonzero check then
      log "Failed to shutdown the IPv6 WDS service object" ;;
      request_exit ;; ret check
    else ret status.

(** *** initialize: the outer loop *)

(** [if ((status = c)) { MM_LOG (msg); break; }] followed by [k]. *)
Definition or_break (c : run Z) (msg : string) (k : run loop_exit)
  : run loop_exit :=
  status <- c ;;
  if nonzero status then log msg ;; ret (loop_break status) else k.

(** Stop chrony/unbound now that we have no internet. *)
Definition initialize_stop_services (status : Z) : run Z :=
  check <- invoke (mm_sdbus_manage_service "StopUnit" "chrony.service") ;;
  status <-
    (if nonzero check then
       log "Failed to stop chrony when shutting down" ;;
       request_exit ;; ret check
     else ret status) ;;
  check <- invoke (mm_sdbus_manage_service "StopUnit" "unbound.service") ;;
  if nonzero check then
    log "Failed to stop unbound when shutting down" ;;
    request_exit ;; ret check
  else ret status.

(** From the return of run_up_ipv6 to the closing brace of the loop. *)
Definition initialize_cleanup (status : Z) : run loop_exit :=
  deallocate <- read_exit_requested ;;
  or_break (invoke (mm_dms_shutdown deallocate))
    "Failed to shutdown the DMS service object"
  (or_break (invoke mm_netlink_reload_link_cache)
    "Failed to reload the netlink link cache"
  (or_break (invoke (mm_netlink_ensure_wwan_interface_state false))
    "Failed to put down the WWAN host interface"
  (or_break (invoke (mm_netlink_ensure_wg0_interface_state false))
    "Failed to put down the Wireguard interface"
  (status <- initialize_stop_services status ;;
   stop <- read_exit_requested ;;
   (if negb stop then invoke (sleep 10) ;; ret tt else ret tt) ;;
   ret (loop_next status))))).

(** One turn of [while (!exit_requested)]. *)
Definition initialize_iteration (fuel : nat) : run loop_exit :=
  or_break (invoke mm_netlink_reload_link_cache)
    "Failed to reload the netlink link cache"
  (or_break (invoke (mm_sdbus_manage_service "StopUnit" "chrony.service"))
    "Failed to stop chrony before starting up"
  (or_break (invoke (mm_sdbus_manage_service "StopUnit" "unbound.service"))
    "Failed to stop unbound before starting up"
  (or_break (invoke (mm_netlink_ensure_wwan_interface_state true))
    "Failed to bring up the WWAN host interface"
  (or_break (invoke mm_netlink_addr_flush)
    "Failed to flush WWAN host interface addresses"
  (or_break (invoke mm_dms_initialize)
    "Failed to initialize the DMS service object"
  (or_break (invoke (mm_dms_set_power_sync Dms.MM_DMS_OPERATION_MODE_ONLINE))
    "Failed to query/adjust modem operating state"
  (mode <- observe resulting_mode ;;
   if negb (mode =? Dms.MM_DMS_OPERATION_MODE_ONLINE) then
     log "Modem operating mode cannot be set to online" ;;
     ret (loop_break (-1))
   else
     (* Successfully initialized; proceed to bring up data sessions. *)
     status <- run_up_ipv6 fuel ;;
     initialize_cleanup status))))))).

Fixpoint initialize_loop (fuel : nat) (status : Z) : run Z :=
  stop <- read_exit_requested ;;
  if stop then ret status
  else
    match fuel with
    | O => still_running
    | S fuel' =>
        exit <- initialize_iteration fuel' ;;
        match exit with
        | loop_break status' => ret status'
        | loop_next status' => initialize_loop fuel' status'
        end
    end.

Definition initialize (fuel : nat) : run Z :=
  status <- invoke (mm_netlink_ensure_wg0_interface_state false) ;;
  if nonzero status then
    log "Failed to put down the Wireguard interface" ;; ret status
  else
    status <- invoke mm_configure_autoconnect_and_roaming ;;
    if nonzero status then ret status
    else initialize_loop fuel status.

End Supervisor.

End Main.

(** ** Inputs and collaborators used in the examples below *)

Module Examples.

Import Wds.

(** A v6 response whose address TLV announces prefix length 0 while the
    gateway TLV announces 64. *)
Definition resp_v6_address_prefix_zero : unpack_wds_SLQSGetRuntimeSettings_t :=
  {| rs_Tlvresult := 0;
     rs_ParamPresenceMask := 2 ^ 37 + 2 ^ 38;
     IPv4 := 0; GWAddressV4 := 0; SubnetMaskV4 := 0;
     IPAddressV6 := [0x0120; 0xb80d; 0; 0; 0; 0; 0; 0x0200];
     IPV6PrefixLen := 0;
     gwAddressV6 := [0x0120; 0xb80d; 0; 0; 0; 0; 0; 0x0100];
     gwV6PrefixLen := 64 |}.

(** A v6 response whose two prefix lengths are 64 and 56. *)
Definition resp_v6_prefix_64_56 : unpack_wds_SLQSGetRuntimeSettings_t :=
  {| rs_Tlvresult := 0;
     rs_ParamPresenceMask := 2 ^ 37 + 2 ^ 38;
     IPv4 := 0; GWAddressV4 := 0; SubnetMaskV4 := 0;
     IPAddressV6 := [0x0120; 0xb80d; 0; 0; 0; 0; 0; 0x0200];
     IPV6PrefixLen := 64;
     gwAddressV6 := [0x0120; 0xb80d; 0; 0; 0; 0; 0; 0x0100];
     gwV6PrefixLen := 56 |}.

(** A v4 response carrying address, gateway and the all-zero mask. *)
Definition resp_v4_mask_zero : unpack_wds_SLQSGetRuntimeSettings_t :=
  {| rs_Tlvresult := 0;
     rs_ParamPresenceMask := 2 ^ 30 + 2 ^ 32 + 2 ^ 33;
     IPv4 := 0x0a000002; GWAddressV4 := 0x0a000001; SubnetMaskV4 := 0;
     IPAddressV6 := []; IPV6PrefixLen := 0;
     gwAddressV6 := []; gwV6PrefixLen := 0 |}.

(** A session that has not been started ([session_id] still 0). *)
Definition session_not_started : mm_wds_session :=
  {| last_runtime_settings := zero_settings;
     session_id := 0; profile := 3; family := AF_INET;
     teardown_requested := false |}.

(** A started session. *)
Definition session_started : mm_wds_session :=
  {| last_runtime_settings := zero_settings;
     session_id := 0x2a; profile := 3; family := AF_INET;
     teardown_requested := false |}.

(** DISCONNECTED, no end reason attached. *)
Definition ind_disconnected : wds_indication :=
  {| msgid := eQMI_WDS_PKT_SRVC_STATUS_IND;
     unpack_status := 0;
     packet_srv_status :=
       {| ps_Tlvresult := 0; ps_ParamPresenceMask := 2 ^ 1;
          conn_status := 1; reconfigReqd := 0;
          sessionEndReason := 0;
          verboseSessnEndReasonType := 0; verboseSessnEndReason := 0 |} |}.

(** DISCONNECTED with [session_end_reason = r]. *)
Definition ind_disconnected_reason (r : Z) : wds_indication :=
  {| msgid := eQMI_WDS_PKT_SRVC_STATUS_IND;
     unpack_status := 0;
     packet_srv_status :=
       {| ps_Tlvresult := 0; ps_ParamPresenceMask := 2 ^ 1 + 2 ^ 16;
          conn_status := 1; reconfigReqd := 0;
          sessionEndReason := r;
          verboseSessnEndReasonType := 0; verboseSessnEndReason := 0 |} |}.

(** DISCONNECTED whose structure holds the value 2 in [sessionEndReason]
    although the end-reason TLV is absent from the presence mask. *)
Definition ind_disconnected_stale_reason : wds_indication :=
  {| msgid := eQMI_WDS_PKT_SRVC_STATUS_IND;
     unpack_status := 0;
     packet_srv_status :=
       {| ps_Tlvresult := 0; ps_ParamPresenceMask := 2 ^ 1;
          conn_status := 1; reconfigReqd := 0;
          sessionEndReason := 2;
          verboseSessnEndReasonType := 3; verboseSessnEndReason := 2000 |} |}.

(** A modem that reports its mode and hardware lock, accepts every
    SetPower request, and changes mode only if it [obeys]. *)
Record toy_modem : Type := {
  tm_mode : Z;
  tm_hardware_controlled : bool;
  tm_obeys : bool
}.

#[global] Instance toy_modem_dms : Dms.DmsModem toy_modem := {|
  Dms.answer_GetPower m :=
    (0,
     {| Dms.gp_Tlvresult := 0;
        Dms.gp_ParamPresenceMask := 2 ^ 1 + 2 ^ 16;
        Dms.OperationMode := tm_mode m;
        Dms.HardwareControlledMode :=
          if tm_hardware_controlled m then 1 else 0 |},
     m);
  Dms.answer_SetPower mode m :=
    (0,
     {| Dms.sp_Tlvresult := 0 |},
     if tm_obeys m
     then {| tm_mode := mode;
             tm_hardware_controlled := tm_hardware_controlled m;
             tm_obeys := true |}
     else m)
|}.

Definition toy_dms (mode : Z) (locked obeys : bool) : Dms.dms_service toy_modem :=
  {| Dms.modem := {| tm_mode := mode;
                     tm_hardware_controlled := locked;
                     tm_obeys := obeys |};
     Dms.sent := [] |}.

(** A kernel that accepts every submit. *)
#[global] Instance obliging_kernel : Netlink.Rtnl unit := {|
  Netlink.rtnl_addr_delete _ k := (0, k);
  Netlink.rtnl_addr_add _ _ k := (0, k);
  Netlink.rtnl_route_add _ _ k := (0, k)
|}.

(** 10.0.0.i/24 with universe scope on interface 4. *)
Definition wwan_addr (i : Z) : Netlink.rtnl_addr :=
  {| Netlink.a_family := AF_INET;
     Netlink.a_ifindex := 4;
     Netlink.a_scope := RT_SCOPE_UNIVERSE;
     Netlink.a_prefixlen := 24;
     Netlink.a_local := [10; 0; 0; i] |}.

(** An address cache holding 127 such addresses, 10.0.0.1 to 10.0.0.127. *)
Definition crowded_netlink : Netlink.mm_netlink :=
  {| Netlink.addr_cache := map (fun n => wwan_addr (Z.of_nat n)) (seq 1 127);
     Netlink.wwan_ifindex := 4 |}.

(** 192.168.1.2 and 192.168.1.1 as [s_addr] values. *)
Definition target_address : Z := Netlink.binary_address [192; 168; 1; 2].
Definition target_gateway : Z := Netlink.binary_address [192; 168; 1; 1].

(** A host that answers the calls of the main thread from a script, in
    order, and with 0 once the script is used up.  The out-parameters
    always announce mode [mode_out] and settings that are [present];
    the session flags are [down]; SIGINT is delivered when the script
    has run out and [interrupt_at_end] is set. *)
Record scripted : Type := {
  replies : list Z;
  mode_out : Z;
  present : bool;
  down : bool;
  interrupt_at_end : bool
}.

Definition next_reply (w : scripted) : Z * scripted :=
  match replies w with
  | [] => (0, w)
  | r :: rest =>
      (r, {| replies := rest; mode_out := mode_out w; present := present w;
             down := down w; interrupt_at_end := interrupt_at_end w |})
  end.

#[global] Instance scripted_host : Main.Host scripted := {|
  Main.answer _ w := next_reply w;
  Main.resulting_mode w := mode_out w;
  Main.address_present w := present w;
  Main.gateway_present w := present w;
  Main.reason_present _ := false;
  Main.verbose_reason_present _ := false;
  Main.sigint_handled w :=
    match replies w with
    | [] => interrupt_at_end w
    | _ :: _ => false
    end;
  Main.teardown_requested _ w := down w
|}.

Definition script (l : list Z) (torn_down interrupt : bool)
  : Main.state scripted :=
  {| Main.world := {| replies := l; mode_out := 0; present := true;
                      down := torn_down; interrupt_at_end := interrupt |};
     Main.exit_requested := false;
     Main.trace := [] |}.

(** The calls of a trace, in order, with their statuses. *)
Definition calls (t : list Main.event) : list (Main.call * Z) :=
  flat_map (fun e => match e with
                     | Main.called c r => [(c, r)]
                     | Main.logged _ => []
                     end) t.

(** The vendor's "no effect" code as used in the examples. *)
Definition no_effect : Z := 1026.

(** What a run returned, whether the main thread requested an exit, and
    the calls it made. *)
Definition summary {A : Type} (r : option (A * Main.state scripted))
  : option (A * bool * list (Main.call * Z)) :=
  option_map (fun r => (fst r, Main.exit_requested (snd r),
                        calls (Main.trace (snd r)))) r.

End Examples.

(** ** src/netlink.c, continued: flushing the addresses *)

Module NetlinkMore.

Import Netlink.

(** The non-link-scope addresses of one family on the wwan interface, in
    cache order: what the enumeration callback is run on and keeps. *)
Definition on_wwan (mm_nl : mm_netlink) (family : Z) : list rtnl_addr :=
  filter (fun a => negb (a_scope a =? RT_SCOPE_LINK))
    (filter (fun a => (a_family a =? family)
                      && (a_ifindex a =? wwan_ifindex mm_nl))
       (addr_cache mm_nl)).

(** [addrs] is the enumeration buffer after the callback has seen the
    addresses [seen]. *)
Definition holds (seen : list rtnl_addr) (addrs : mm_netlink_addrs) : Prop :=
  count addrs = Z.of_nat (List.length seen)
  /\ addrs_list addrs = firstn (Z.to_nat MAX_NETLINK_ADDRS) seen
  /\ allocated addrs = Z.of_nat (List.length (addrs_list addrs)).

(** [nl_cache_refill] on the address cache: the status and the content
    of the cache afterwards. *)
Class RtnlCache (K : Type) : Type := {
  nl_cache_refill : K -> Z * list rtnl_addr * K
}.

Section Flush.

Context {K : Type} `{Rtnl K} `{RtnlCache K}.

Definition mm_netlink_reload_address_cache (mm_nl : mm_netlink) (k : K)
  : Z * list log_entry * mm_netlink * K :=
  let '(status, cache, k1) := nl_cache_refill k in
  (status,
   if nonzero status then [MM_LOG "nl_cache_refill" [arg_int status]] else [],
   {| addr_cache := cache; wwan_ifindex := wwan_ifindex mm_nl |},
   k1).

(** The body of the delete loop: [status], the log and the kernel. *)
Definition delete_each (st : Z * list log_entry * K) (a : rtnl_addr)
  : Z * list log_entry * K :=
  let '(_, log, k) := st in
  let '(status1, k1) := rtnl_addr_delete a k in
  (status1,
   log ++ (if nonzero status1
           then [MM_LOG "rtnl_addr_delete" [arg_int status1]] else []),
   k1).

Definition mm_netlink_addr_flush (mm_nl : mm_netlink) (k : K)
  : Z * list log_entry * mm_netlink * K :=
  let '(status, log, mm_nl1, k1) := mm_netlink_reload_address_cache mm_nl k in
  if nonzero status then (status, log, mm_nl1, k1)
  else
    (* Collect IPv4 and IPv6 addresses to delete *)
    let addrs4 := dump_wwan_addrs mm_nl1 AF_INET in
    let addrs :=
      nl_cache_foreach_filter (addr_cache mm_nl1) AF_INET6
        (wwan_ifindex mm_nl1) collect_nonlink_addrs addrs4 in
    let '(status0, log0) :=
      if allocated addrs <? count addrs
      then (-1, log ++ [MM_LOG "mm_netlink_flush: >%u addresses returned?"
                               [arg_int MAX_NETLINK_ADDRS]])
      else (status, log) in
    let '(status1, log1, k2) :=
      fold_left delete_each
        (firstn (Z.to_nat (allocated addrs)) (addrs_list addrs))
        (status0, log0, k1) in
    (status1, log1, mm_nl1, k2).

(** *** mm_apply_ipv4_runtime_settings (src/run_helpers.c) *)

Definition mm_apply_ipv4_runtime_settings (mm_nl : mm_netlink)
    (address gateway prefix_length : Z) (refresh : bool) (k : K)
  : Z * mm_netlink * K :=
  let '(status, mm_nl1, k1) :=
    if refresh
    then let '(s, _, m, k') := mm_netlink_reload_address_cache mm_nl k
         in (s, m, k')
    else (eQCWWAN_ERR_NONE, mm_nl, k) in
  if negb (status =? eQCWWAN_ERR_NONE) then (status, mm_nl1, k1)
  else
    let '(status, _, k2) := mm_netlink_add_v4_address address prefix_length k1 in
    if negb (status =? eQCWWAN_ERR_NONE) then (status, mm_nl1, k2)
    else
      let '(status, _, k3) :=
        mm_netlink_change_v4_default_gateway address gateway k2 in
      if negb (status =? eQCWWAN_ERR_NONE) then (status, mm_nl1, k3)
      else (eQCWWAN_ERR_NONE, mm_nl1, k3).

End Flush.

(** *** A kernel that records what is submitted to it *)

Inductive rtnl_request : Type :=
| req_cache_refill
| req_addr_delete (a : rtnl_addr)
| req_addr_add (s_addr prefix_length : Z)
| req_route_add (pref_src gateway : Z).

(** The status of a submit and the content of a refilled cache may
    depend on everything submitted before. *)
Record recording_kernel : Type := {
  verdict : list rtnl_request -> rtnl_request -> Z;
  refilled : list rtnl_request -> list rtnl_addr;
  submitted : list rtnl_request
}.

Definition submit (r : rtnl_request) (k : recording_kernel)
  : Z * recording_kernel :=
  (verdict k (submitted k) r,
   {| verdict := verdict k;
      refilled := refilled k;
      submitted := submitted k ++ [r] |}).

#[global] Instance recording_rtnl : Rtnl recording_kernel := {|
  rtnl_addr_delete a k := submit (req_addr_delete a) k;
  rtnl_addr_add s p k := submit (req_addr_add s p) k;
  rtnl_route_add s g k := submit (req_route_add s g) k
|}.

#[global] Instance recording_cache : RtnlCache recording_kernel := {|
  nl_cache_refill k :=
    let '(status, k1) := submit req_cache_refill k in
    (status, refilled k (submitted k), k1)
|}.

End NetlinkMore.

(** ** src/main.c, continued: vocabulary for the monitoring loop *)

Module MainMore.

Import Main.

Section Monitor.

Context {W : Type} `{Host W}.

(** One of the three flags polled by [run_sessions_up] is up. *)
Definition flag_up (exit_requested : bool) (w : W) : bool :=
  exit_requested || sigint_handled w
  || teardown_requested IPV4 w || teardown_requested IPV6 w.

(** The environment after [n] calls of [sleep (1)]. *)
Fixpoint after_sleeps (n : nat) (w : W) : W :=
  match n with
  | O => w
  | S n' => after_sleeps n' (snd (answer (sleep 1) w))
  end.

(** The environment answers the calls of [script], made in this order,
    with the statuses listed; [Some w'] is the environment afterwards. *)
Fixpoint replies (w : W) (script : list (call * Z)) : option W :=
  match script with
  | [] => Some w
  | (c, r) :: rest =>
      let '(r', w') := answer c w in
      if r' =? r then replies w' rest else None
  end.

End Monitor.

(** The calls of a trace, in order, with their statuses. *)
Definition calls_of (t : list event) : list (call * Z) :=
  flat_map (fun e => match e with
                     | called c r => [(c, r)]
                     | logged _ => []
                     end) t.

(** The calls that open a turn of the loop of [initialize], up to the
    power request, all answered with 0. *)
Definition prelude_calls : list (call * Z) :=
  [(mm_netlink_reload_link_cache, 0);
   (mm_sdbus_manage_service "StopUnit" "chrony.service", 0);
   (mm_sdbus_manage_service "StopUnit" "unbound.service", 0);
   (mm_netlink_ensure_wwan_interface_state true, 0);
   (mm_netlink_addr_flush, 0);
   (mm_dms_initialize, 0);
   (mm_dms_set_power_sync Dms.MM_DMS_OPERATION_MODE_ONLINE, 0)].

(** The calls that close a turn after [run_up_ipv6], before the sleep,
    all answered with 0 and with no exit pending. *)
Definition cleanup_calls : list (call * Z) :=
  [(mm_dms_shutdown false, 0);
   (mm_netlink_reload_link_cache, 0);
   (mm_netlink_ensure_wwan_interface_state false, 0);
   (mm_netlink_ensure_wg0_interface_state false, 0);
   (mm_sdbus_manage_service "StopUnit" "chrony.service", 0);
   (mm_sdbus_manage_service "StopUnit" "unbound.service", 0)].

(** The calls of mm_start_session when the family preference is answered
    with [p] and, if it is reached, the start request with [s]. *)
Definition start_attempt (session : ip_family) (p s : Z)
  : list (call * Z) :=
  if nonzero p
  then [(mm_wds_set_ip_family_preference session session, p)]
  else [(mm_wds_set_ip_family_preference session session, 0);
        (mm_wds_start_data_session session PROFILE_3GPP_VZWINTERNET
           match session with IPV4 => AF_INET | IPV6 => AF_INET6 end, s)].

Definition same_family (a b : ip_family) : bool :=
  match a, b with
  | IPV4, IPV4 | IPV6, IPV6 => true
  | _, _ => false
  end.

(** The four calls that take a WDS session object through its life:
    mm_wds_initialize, mm_wds_start_data_session, mm_wds_stop_data_session
    and mm_wds_shutdown on [session]. *)
Definition lifecycle (session : ip_family) (c : call) : bool :=
  match c with
  | mm_wds_initialize s
  | mm_wds_start_data_session s _ _
  | mm_wds_stop_data_session s
  | mm_wds_shutdown s => same_family session s
  | _ => false
  end.

End MainMore.

(** ** Service objects: src/dms.c and src/wds.c, continued, with
    mm_configure_autoconnect_and_roaming and mm_exec_wireguard_setconf of
    src/run_helpers.c *)

Module Qmi.

(** The service types handed to the control service. *)
Inductive service_type : Type := eDMS | eSWIDMS | eWDS.

(** What is asked of the vendor library and of the allocator. *)
Inductive request : Type :=
| InitializeRegularServiceEx (svc : service_type)
| ShutDownRegularService (svc : service_type)
| pack_dms_GetModelID
| malloc (size : Z)
| pack_wds_GetAutoconnect
| pack_wds_SetAutoconnect (acsetting acroamsetting : Z)
| pack_wds_SLQSStartDataSession (profileid3gpp : Z)
| pack_wds_SLQSStopDataSession (sid : Z).

Record unpack_dms_GetModelID_t : Type := {
  gm_Tlvresult : Z;
  gm_ParamPresenceMask : Z;
  modelid : string
}.

(** [pAutoconnect_roam_setting] is a pointer: [None] is NULL. *)
Record unpack_wds_GetAutoconnectSetting_t : Type := {
  ga_Tlvresult : Z;
  ga_ParamPresenceMask : Z;
  autoconnect_setting : Z;
  pAutoconnect_roam_setting : option Z
}.

(** The four pointer fields are set by the caller; each entry here is
    what the unpack function stored through the pointer, [None] when it
    stored nothing. *)
Record unpack_wds_SLQSStartDataSession_t : Type := {
  sd_Tlvresult : Z;
  sd_ParamPresenceMask : Z;
  psid : option Z;
  pFailureReason : option Z;
  pVerboseFailReasonType : option Z;
  pVerboseFailureReason : option Z
}.

(** The vendor library with the modem behind it, and the allocator: for
    each request, the returned status and what was unpacked. *)
Class QmiStack (M : Type) : Type := {
  CtlService_InitializeRegularServiceEx : service_type -> M -> Z * M;
  CtlService_ShutDownRegularService : service_type -> M -> Z * M;
  send_GetModelID : M -> Z * unpack_dms_GetModelID_t * M;
  malloc_succeeds : Z -> M -> bool * M;
  send_GetAutoconnect : M -> Z * unpack_wds_GetAutoconnectSetting_t * M;
  send_SetAutoconnect : Z -> Z -> M -> Z * Z * M;
  send_SLQSStartDataSession :
    Z -> M -> Z * unpack_wds_SLQSStartDataSession_t * M;
  send_SLQSStopDataSession : Z -> M -> Z * Z * M
}.

(** enum mm_wds_autoconnect_setting, enum mm_wds_autoconnect_roam_setting
    (inc/mm_wds.h). *)
Definition MM_WDS_AUTOCONNECT_SETTING_DISABLED : Z := 0.
Definition MM_WDS_AUTOCONNECT_SETTING_INVALID : Z := 255.
Definition MM_WDS_AUTOCONNECT_ROAM_SETTING_HOME_ONLY : Z := 1.
Definition MM_WDS_AUTOCONNECT_ROAM_SETTING_INVALID : Z := 255.

(** struct mm_dms_service without the two opaque handles; [None] is a
    NULL [model_id]. *)
Record mm_dms_service : Type := {
  model_id : option string
}.


(** <bits/waitstatus.h> *)
Definition WEXITSTATUS (status : Z) : Z := Z.shiftr (Z.land status 0xff00) 8.
Definition WTERMSIG (status : Z) : Z := Z.land status 0x7f.
Definition WIFEXITED (status : Z) : bool := WTERMSIG status =? 0.

(** How a call ends for the process that made it. *)
Inductive ending : Type :=
| returns (value : Z)
| exits (code : Z)
| runs_wg.

(** [mm_exec_wireguard_setconf].  [child] is what [fork] returned to the
    process at hand, [execl_returned] whether [execl] came back,
    [waited] and [status] what [waitpid] returned and stored. *)
Definition mm_exec_wireguard_setconf (child : Z) (execl_returned : bool)
    (waited status : Z) : ending :=
  if child =? 0 then
    if execl_returned then exits 255 else runs_wg
  else if child <? 0 then returns 1
  else if waited <? 0 then returns (-1)
  else if negb (WIFEXITED status) then returns (-1)
  else returns (WEXITSTATUS status).

Section Services.

Context {M : Type} `{QmiStack M}.

(** qmerrno.h gives the value. *)
Variable eQCWWAN_ERR_QMI_NO_MEMORY : Z.

(** *** src/dms.c *)

(** Returns [(status, *model_id)]. *)
Definition dms_get_model_sync (m : M) : Z * option string * M :=
  let '(status, resp, m1) := send_GetModelID m in
  if status =? eQCWWAN_ERR_NONE then
    if negb (gm_Tlvresult resp =? eQCWWAN_ERR_NONE) then
      (gm_Tlvresult resp, None, m1)
    else if swi_uint256_get_bit (gm_ParamPresenceMask resp) 1 then
      let '(allocated, m2) :=
        malloc_succeeds (Z.of_nat (String.length (modelid resp)) + 1) m1 in
      if allocated then (status, Some (modelid resp), m2)
      else (eQCWWAN_ERR_QMI_NO_MEMORY, None, m2)
    else (status, None, m1)
  else (status, None, m1).

Definition mm_dms_initialize (dms : mm_dms_service) (m : M)
  : Z * mm_dms_service * M :=
  (* There is no SWI DMS notification from firmware. *)
  let '(status, m1) := CtlService_InitializeRegularServiceEx eSWIDMS m in
  if negb (status =? eQCWWAN_ERR_NONE) then (status, dms, m1)
  else
    let '(check, m2) := CtlService_InitializeRegularServiceEx eDMS m1 in
    let '(status3, dms3, m3, attached) :=
      if negb (check =? eQCWWAN_ERR_NONE) then (check, dms, m2, false)
      else
        (* Cache any values which will not change at runtime. *)
        let '(status', dms', m') :=
          match model_id dms with
          | None =>
              let '(check, id, m') := dms_get_model_sync m2 in
              (if negb (check =? eQCWWAN_ERR_NONE) then check else status,
               {| model_id := id |}, m')
          | Some _ => (status, dms, m2)
          end in
        if status' =? eQCWWAN_ERR_NONE then (status', dms', m', true)
        else
          let '(check, m'') := CtlService_ShutDownRegularService eDMS m' in
          (if negb (check =? eQCWWAN_ERR_NONE) then check else status',
           dms', m'', false) in
    if attached then (status3, dms3, m3)
    else
      let '(check, m4) := CtlService_ShutDownRegularService eSWIDMS m3 in
      (if negb (check =? eQCWWAN_ERR_NONE) then check else status3,
       dms3, m4).

Definition mm_dms_shutdown (dms : mm_dms_service)
    (deallocate_cached_fields : bool) (m : M) : Z * mm_dms_service * M :=
  let dms1 := if deallocate_cached_fields then {| model_id := None |}
              else dms in
  (* If either DMS service shutdown raises an error, return it. *)
  let '(status, m1) := CtlService_ShutDownRegularService eSWIDMS m in
  let '(check, m2) := CtlService_ShutDownRegularService eDMS m1 in
  (if negb (check =? eQCWWAN_ERR_NONE) then check else status, dms1, m2).

(** *** src/wds.c *)

Definition mm_wds_initialize (m : M) : Z * M :=
  CtlService_InitializeRegularServiceEx eWDS m.

Definition mm_wds_shutdown (m : M) : Z * M :=
  CtlService_ShutDownRegularService eWDS m.

(** Returns [(status, *autoconnect_setting, *autoconnect_roam_setting)]. *)
Definition mm_wds_get_autoconnect_settings (m : M) : Z * Z * Z * M :=
  let '(status, resp, m1) := send_GetAutoconnect m in
  if status =? eQCWWAN_ERR_NONE then
    if negb (ga_Tlvresult resp =? eQCWWAN_ERR_NONE) then
      (ga_Tlvresult resp, MM_WDS_AUTOCONNECT_SETTING_INVALID,
       MM_WDS_AUTOCONNECT_ROAM_SETTING_INVALID, m1)
    else
      (status,
       if swi_uint256_get_bit (ga_ParamPresenceMask resp) 1
       then autoconnect_setting resp
       else MM_WDS_AUTOCONNECT_SETTING_INVALID,
       match pAutoconnect_roam_setting resp with
       | Some roam => roam
       | None => MM_WDS_AUTOCONNECT_ROAM_SETTING_INVALID
       end,
       m1)
  else (status, MM_WDS_AUTOCONNECT_SETTING_INVALID,
        MM_WDS_AUTOCONNECT_ROAM_SETTING_INVALID, m1).

Definition mm_wds_set_autoconnect_settings
    (autoconnect_setting autoconnect_roam_setting : Z) (m : M) : Z * M :=
  let '(status, current_autoconnect_setting,
        current_autoconnect_roam_setting, m1) :=
    mm_wds_get_autoconnect_settings m in
  if negb (status =? eQCWWAN_ERR_NONE) then (status, m1)
  else if (current_autoconnect_setting =? autoconnect_setting)
          && (current_autoconnect_roam_setting =? autoconnect_roam_setting)
  then (eQCWWAN_ERR_NONE, m1)
  else
    let '(status, Tlvresult, m2) :=
      send_SetAutoconnect autoconnect_setting autoconnect_roam_setting m1 in
    if status =? eQCWWAN_ERR_NONE then
      if negb (Tlvresult =? eQCWWAN_ERR_NONE) then (Tlvresult, m2)
      else (status, m2)
    else (status, m2).

(** The out-parameters of mm_wds_start_data_session next to its status
    and the session object it leaves. *)
Record start_result : Type := {
  st_status : Z;
  st_session : Wds.mm_wds_session;
  failure_reason : Z;
  verbose_failure_reason_type : Z;
  verbose_failure_reason : Z;
  reason_present : bool;
  verbose_reason_present : bool
}.

Definition stored (p : option Z) : Z :=
  match p with
  | Some v => v
  | None => 0
  end.

Definition mm_wds_start_data_session (session : Wds.mm_wds_session)
    (profile family : Z) (m : M) : start_result * M :=
  let '(status, resp, m1) := send_SLQSStartDataSession profile m in
  let session1 :=
    {| Wds.last_runtime_settings := Wds.last_runtime_settings session;
       Wds.session_id := stored (psid resp);
       Wds.profile := profile;
       Wds.family := family;
       Wds.teardown_requested := Wds.teardown_requested session |} in
  let result (status : Z) (reason verbose : bool) :=
    {| st_status := status;
       st_session := session1;
       failure_reason := stored (pFailureReason resp);
       verbose_failure_reason_type := stored (pVerboseFailReasonType resp);
       verbose_failure_reason := stored (pVerboseFailureReason resp);
       reason_present := reason;
       verbose_reason_present := verbose |} in
  if status =? eQCWWAN_ERR_NONE then
    if negb (sd_Tlvresult resp =? eQCWWAN_ERR_NONE) then
      (result (sd_Tlvresult resp) false false, m1)
    else if negb (swi_uint256_get_bit (sd_ParamPresenceMask resp) 1) then
      (result (-1) false false, m1)
    else
      (result status
         (swi_uint256_get_bit (sd_ParamPresenceMask resp) 16)
         (swi_uint256_get_bit (sd_ParamPresenceMask resp) 17), m1)
  else (result status false false, m1).

Definition mm_wds_stop_data_session (session : Wds.mm_wds_session) (m : M)
  : Z * M :=
  let '(status, Tlvresult, m1) :=
    send_SLQSStopDataSession (Wds.session_id session) m in
  if status =? eQCWWAN_ERR_NONE then
    if negb (Tlvresult =? eQCWWAN_ERR_NONE) then (Tlvresult, m1)
    else (status, m1)
  else (status, m1).

(** *** src/run_helpers.c *)

Definition mm_configure_autoconnect_and_roaming (m : M)
  : Z * list log_entry * M :=
  let '(status, m1) := mm_wds_initialize m in
  if negb (status =? eQCWWAN_ERR_NONE) then
    (status, [MM_LOG "Failed to initialize the WDS service for setup" []],
     m1)
  else
    let '(status, m2) :=
      mm_wds_set_autoconnect_settings MM_WDS_AUTOCONNECT_SETTING_DISABLED
        MM_WDS_AUTOCONNECT_ROAM_SETTING_HOME_ONLY m1 in
    let log :=
      if negb (status =? eQCWWAN_ERR_NONE)
      then [MM_LOG "Failed to set WDS autoconnect settings" []] else [] in
    let '(check, m3) := mm_wds_shutdown m2 in
    if negb (check =? eQCWWAN_ERR_NONE) then
      (check,
       log ++ [MM_LOG "Failed to shutdown the WDS service after setup" []],
       m3)
    else (status, log, m3).

End Services.

(** *** The same stack, with every request written down *)

Definition traced (M : Type) : Type := (M * list request)%type.

Definition noted {M A : Type} (r : request) (f : M -> A * M) (t : traced M)
  : A * traced M :=
  let '(a, m) := f (fst t) in (a, (m, snd t ++ [r])).

#[global] Instance traced_stack {M : Type} `{QmiStack M}
  : QmiStack (traced M) := {|
  CtlService_InitializeRegularServiceEx svc :=
    noted (InitializeRegularServiceEx svc)
      (CtlService_InitializeRegularServiceEx svc);
  CtlService_ShutDownRegularService svc :=
    noted (ShutDownRegularService svc)
      (CtlService_ShutDownRegularService svc);
  send_GetModelID := noted pack_dms_GetModelID send_GetModelID;
  malloc_succeeds size := noted (malloc size) (malloc_succeeds size);
  send_GetAutoconnect := noted pack_wds_GetAutoconnect send_GetAutoconnect;
  send_SetAutoconnect s r :=
    noted (pack_wds_SetAutoconnect s r) (send_SetAutoconnect s r);
  send_SLQSStartDataSession p :=
    noted (pack_wds_SLQSStartDataSession p) (send_SLQSStartDataSession p);
  send_SLQSStopDataSession sid :=
    noted (pack_wds_SLQSStopDataSession sid) (send_SLQSStopDataSession sid)
|}.

End Qmi.


(** ** A vendor stack used in the examples below *)

Module QmiExamples.

Import Qmi.

(** The stack answers its requests from a script of statuses, in order,
    and with 0 once the script is used up; the allocator succeeds when
    its entry is 0.  Every answer that unpacks carries result 0 and TLV 1:
    the model is "EM7565", autoconnect is enabled with no roam setting
    reported, and a started session gets the id 7. *)
Definition next_status (m : list Z) : Z * list Z :=
  match m with
  | [] => (0, [])
  | r :: rest => (r, rest)
  end.

#[global] Instance scripted_stack : QmiStack (list Z) := {|
  CtlService_InitializeRegularServiceEx _ m := next_status m;
  CtlService_ShutDownRegularService _ m := next_status m;
  send_GetModelID m :=
    let '(s, m') := next_status m in
    (s, {| gm_Tlvresult := 0; gm_ParamPresenceMask := 2;
           modelid := "EM7565" |}, m');
  malloc_succeeds _ m :=
    let '(s, m') := next_status m in (s =? 0, m');
  send_GetAutoconnect m :=
    let '(s, m') := next_status m in
    (s, {| ga_Tlvresult := 0; ga_ParamPresenceMask := 2;
           autoconnect_setting := 1;
           pAutoconnect_roam_setting := None |}, m');
  send_SetAutoconnect _ _ m :=
    let '(s, m') := next_status m in (s, 0, m');
  send_SLQSStartDataSession _ m :=
    let '(s, m') := next_status m in
    (s, {| sd_Tlvresult := 0; sd_ParamPresenceMask := 2;
           psid := Some 7; pFailureReason := None;
           pVerboseFailReasonType := None;
           pVerboseFailureReason := None |}, m');
  send_SLQSStopDataSession _ m :=
    let '(s, m') := next_status m in (s, 0, m')
|}.

(** The stack with the statuses [l] to come and nothing requested yet. *)
Definition fresh (l : list Z) : traced (list Z) := (l, []).

(** A session object as [memset] leaves it. *)
Definition blank_session : Wds.mm_wds_session :=
  {| Wds.last_runtime_settings := Wds.zero_settings;
     Wds.session_id := 0;
     Wds.profile := 0;
     Wds.family := 0;
     Wds.teardown_requested := false |}.

(** The value used for the vendor's out-of-memory code. *)
Definition no_memory : Z := 1002.

End QmiExamples.


(** ** src/netlink.c, continued: the objects behind struct mm_netlink *)

Module NetlinkSetup.

(** The pointer fields of struct mm_netlink (inc/mm_netlink.h). *)
Inductive field : Type :=
| nl | link_cache_v4 | link_cache_v6
| wwan_link_v4 | wwan_link_v6 | wg0_link
| addr_cache | addr_filter | wwan_nexthop
| default_route4 | default_route_addr4 | gateway_addr4 | nl_wwan_addr4
| wwan_addr4
| default_route6 | default_route_addr6 | gateway_addr6 | nl_wwan_addr6
| wwan_addr6
| wg0_gateway_address | wg0_self_address | wg0_tgt_address
| wg0_tgt_route | wg0_tgt_nexthop.

Definition field_eq_dec (a b : field) : {a = b} + {a <> b}.
Proof. decide equality. Defined.

(** A field receives a fresh object, or the object of a field is handed
    back ([nl_socket_free], [nl_cache_free], [rtnl_link_put],
    [rtnl_addr_put], [rtnl_route_put], [rtnl_route_nh_free],
    [nl_addr_put]). *)
Inductive event : Type :=
| stored (f : field)
| released (f : field).

(** The fields whose object has been stored and not handed back since. *)
Definition outstanding (events : list event) : list field :=
  fold_left (fun held e =>
               match e with
               | stored f => held ++ [f]
               | released f => remove field_eq_dec f held
               end) events [].

(** libnl: [false] is a NULL result, an integer a status, and a link is
    known by its interface index. *)
Class Libnl (L : Type) : Type := {
  nl_socket_alloc : L -> bool * L;
  nl_connect : L -> Z * L;
  rtnl_link_alloc_cache : Z -> L -> Z * L;
  rtnl_link_get_by_name : field -> string -> L -> option Z;
  rtnl_addr_alloc_cache : L -> Z * L;
  rtnl_addr_alloc : L -> bool * L;
  rtnl_route_nh_alloc : L -> bool * L;
  rtnl_route_alloc : L -> bool * L;
  nl_addr_build : L -> bool * L;
  rtnl_addr_set_local : L -> Z * L
}.

Definition WWAN_INTERFACE_NAME : string := "mhi_hwip0".

Section Setup.

Context {L : Type} `{Libnl L}.

(** A nested block either left the function by [return 0] or ran to its
    closing brace; the events are those of the block. *)
Definition block : Type := (bool * list event * L)%type.

(** The statement after a nested block: skipped when the block
    returned. *)
Definition then_release (f : field) (b : block) : block :=
  let '(returned, events, l) := b in
  if returned then b else (false, events ++ [released f], l).

Definition allocate_ipv4_addrs (l : L) : Z * list event * L :=
  let '(built, l1) := nl_addr_build l in
  if negb built then (-1, [], l1)
  else
    let '(returned, events, l') :=
      then_release default_route_addr4
        (let '(built, l2) := nl_addr_build l1 in
         if negb built then (false, [stored default_route_addr4], l2)
         else
           then_release gateway_addr4
             (let '(built, l3) := nl_addr_build l2 in
              if negb built
              then (false, [stored default_route_addr4;
                            stored gateway_addr4], l3)
              else
                then_release nl_wwan_addr4
                  (let '(allocated, l4) := rtnl_route_alloc l3 in
                   let events :=
                     [stored default_route_addr4; stored gateway_addr4;
                      stored nl_wwan_addr4] in
                   if negb allocated then (false, events, l4)
                   else
                     then_release default_route4
                       (let events := events ++ [stored default_route4] in
                        let '(allocated, l5) := rtnl_addr_alloc l4 in
                        if negb allocated then (false, events, l5)
                        else
                          let '(status, l6) := rtnl_addr_set_local l5 in
                          if nonzero status
                          then (false, events ++ [stored wwan_addr4], l6)
                          else (true, events ++ [stored wwan_addr4],
                                l6))))) in
    (if returned then 0 else -1, events, l').

Definition allocate_ipv6_addrs (l : L) : Z * list event * L :=
  let '(built, l1) := nl_addr_build l in
  if negb built then (-1, [], l1)
  else
    let '(returned, events, l') :=
      then_release default_route_addr6
        (let '(built, l2) := nl_addr_build l1 in
         if negb built then (false, [stored default_route_addr6], l2)
         else
           then_release gateway_addr6
             (let '(built, l3) := nl_addr_build l2 in
              if negb built
              then (false, [stored default_route_addr6;
                            stored gateway_addr6], l3)
              else
                then_release nl_wwan_addr6
                  (let '(allocated, l4) := rtnl_route_alloc l3 in
                   let events :=
                     [stored default_route_addr6; stored gateway_addr6;
                      stored nl_wwan_addr6] in
                   if negb allocated then (false, events, l4)
                   else
                     then_release default_route6
                       (let events := events ++ [stored default_route6] in
                        let '(allocated, l5) := rtnl_addr_alloc l4 in
                        if negb allocated then (false, events, l5)
                        else
                          let '(status, l6) := rtnl_addr_set_local l5 in
                          if nonzero status
                          then (false, events ++ [stored wwan_addr6], l6)
                          else (true, events ++ [stored wwan_addr6],
                                l6))))) in
    (if returned then 0 else -1, events, l').

(** The second and the third failure leave by [return -1] on the spot,
    before any of the releases at the end of the function. *)
Definition allocate_wg0_resources (l : L) : Z * list event * L :=
  let '(built, l1) := nl_addr_build l in
  if negb built then (-1, [], l1)
  else
    let '(built, l2) := nl_addr_build l1 in
    if negb built then (-1, [stored wg0_gateway_address], l2)
    else
      let '(built, l3) := nl_addr_build l2 in
      let events := [stored wg0_gateway_address; stored wg0_self_address] in
      if negb built then (-1, events, l3)
      else
        let '(returned, events, l') :=
          then_release wg0_gateway_address
            (then_release wg0_self_address
               (then_release wg0_tgt_address
                  (let events := events ++ [stored wg0_tgt_address] in
                   let '(allocated, l4) := rtnl_route_alloc l3 in
                   if negb allocated then (false, events, l4)
                   else
                     then_release wg0_tgt_route
                       (let events := events ++ [stored wg0_tgt_route] in
                        let '(allocated, l5) := rtnl_route_nh_alloc l4 in
                        if negb allocated then (false, events, l5)
                        else (true, events ++ [stored wg0_tgt_nexthop],
                              l5))))) in
        (if returned then 0 else -1, events, l').

(** Each nested part hands on whether the function left by [return 0],
    the current [status] and the events so far. *)
Definition mm_netlink_initialize (l : L) : Z * list event * L :=
  let '(allocated, l) := nl_socket_alloc l in
  if negb allocated then (-1, [], l)
  else
    let '(status, l) := nl_connect l in
    if nonzero status then (status, [stored nl; released nl], l)
    else
      let '(status, l) := rtnl_link_alloc_cache AF_INET l in
      if nonzero status then (status, [stored nl; released nl], l)
      else
        let '(status, l) := rtnl_link_alloc_cache AF_INET6 l in
        if nonzero status
        then (status, [stored nl; stored link_cache_v4;
                       released link_cache_v4; released nl], l)
        else
          let caches := [stored nl; stored link_cache_v4;
                         stored link_cache_v6] in
          match rtnl_link_get_by_name link_cache_v4 WWAN_INTERFACE_NAME l with
          | None =>
              (-1, caches ++ [released link_cache_v6; released link_cache_v4;
                              released nl], l)
          | Some ifindex_v4 =>
          match rtnl_link_get_by_name link_cache_v6 WWAN_INTERFACE_NAME l with
          | None =>
              (-1, caches ++ [stored wwan_link_v4; released wwan_link_v4;
                              released link_cache_v6; released link_cache_v4;
                              released nl], l)
          | Some ifindex_v6 =>
          match rtnl_link_get_by_name link_cache_v4 "wg0" l with
          | None =>
              (-1, caches ++ [stored wwan_link_v4; stored wwan_link_v6;
                              released wwan_link_v6; released wwan_link_v4;
                              released link_cache_v6; released link_cache_v4;
                              released nl], l)
          | Some _ =>
              let links := caches ++ [stored wwan_link_v4; stored wwan_link_v6;
                                      stored wg0_link] in
              let '(returned, status, events, l) :=
                if negb (ifindex_v4 =? ifindex_v6) then (false, -1, links, l)
                else
                  let '(status, l) := rtnl_addr_alloc_cache l in
                  if nonzero status then (false, status, links, l)
                  else
                    (* Save some repeated free statements with a bit of
                       if/else nesting... *)
                    let events := links ++ [stored addr_cache] in
                    let '(returned, status, events, l) :=
                      let '(allocated, l) := rtnl_addr_alloc l in
                      if negb allocated then (false, -1, events, l)
                      else
                        let events := events ++ [stored addr_filter] in
                        let '(returned, status, events, l) :=
                          let '(allocated, l) := rtnl_route_nh_alloc l in
                          if negb allocated then (false, -1, events, l)
                          else
                            let events := events ++ [stored wwan_nexthop] in
                            let '(returned, status, events, l) :=
                              let '(status, events4, l) :=
                                allocate_ipv4_addrs l in
                              let events := events ++ events4 in
                              if nonzero status
                              then (false, status, events, l)
                              else
                                let '(returned, status, events, l) :=
                                  let '(status, events6, l) :=
                                    allocate_ipv6_addrs l in
                                  let events := events ++ events6 in
                                  if nonzero status
                                  then (false, status, events, l)
                                  else
                                    let '(status, events0, l) :=
                                      allocate_wg0_resources l in
                                    let events := events ++ events0 in
                                    if nonzero status
                                    then (false, status,
                                          events
                                          ++ [released wwan_addr6;
                                              released default_route6;
                                              released nl_wwan_addr6;
                                              released gateway_addr6;
                                              released default_route_addr6],
                                          l)
                                    else (true, 0, events, l) in
                                if returned then (true, status, events, l)
                                else (false, status,
                                      events
                                      ++ [released wwan_addr4;
                                          released default_route4;
                                          released nl_wwan_addr4;
                                          released gateway_addr4;
                                          released default_route_addr4], l) in
                            if returned then (true, status, events, l)
                            else (false, status,
                                  events ++ [released wwan_nexthop], l) in
                        if returned then (true, status, events, l)
                        else (false, status,
                              events ++ [released addr_filter], l) in
                    if returned then (true, status, events, l)
                    else (false, status, events ++ [released addr_cache], l)
              in
              if returned then (0, events, l)
              else (status,
                    events ++ [released wwan_link_v6; released wwan_link_v4;
                               released link_cache_v6; released link_cache_v4;
                               released nl], l)
          end end end.

End Setup.

(** [mm_netlink_shutdown] calls nothing that can fail: it is the list of
    its releases. *)
Definition mm_netlink_shutdown : list event :=
  [released wg0_tgt_nexthop; released wg0_tgt_route;
   released wg0_tgt_address; released wg0_self_address;
   released wg0_gateway_address;
   released wwan_addr6; released default_route6; released nl_wwan_addr6;
   released gateway_addr6; released default_route_addr6;
   released wwan_addr4; released default_route4; released nl_wwan_addr4;
   released gateway_addr4; released default_route_addr4;
   released wwan_nexthop; released addr_filter; released addr_cache;
   released wg0_link; released wwan_link_v6; released wwan_link_v4;
   released link_cache_v6; released link_cache_v4; released nl].

End NetlinkSetup.


(** ** src/main.c: main *)

Module Program.


(** What [main] calls, in the order of the source. *)
Inductive step : Type :=
| sigaction_SIGINT
| mm_qmux_transport_initialize
| mm_ctl_initialize
| mm_netlink_initialize
| sd_bus_open_system
| initialize
| sd_bus_close
| sd_bus_unref
| mm_netlink_addr_flush
| mm_netlink_reload_link_cache
| mm_netlink_ensure_wwan_interface_state (request_up : bool)
| mm_netlink_shutdown
| mm_ctl_shutdown
| mm_qmux_transport_shutdown.

(** The rest of the program and the system under it: the value each
    call returns (of no use for the [void] ones). *)
Class Machine (S : Type) : Type := {
  perform : step -> S -> Z * S
}.

(** The program state: the machine, the calls made so far with what they
    returned, and the log. *)
Record process (S : Type) : Type := {
  machine : S;
  made : list (step * Z);
  printed : list log_entry
}.
Arguments machine {S} _.
Arguments made {S} _.
Arguments printed {S} _.

Section Main.

Context {S : Type} `{Machine S}.

Definition do (c : step) (p : process S) : Z * process S :=
  let '(r, m) := perform c (machine p) in
  (r, {| machine := m; made := made p ++ [(c, r)]; printed := printed p |}).




End Main.

End Program.

(** ** Collaborators for the examples on setup and on [main] *)

Module SetupExamples.

(** libnl answering from a script of statuses, in order, and with 0
    once the script is used up; an allocation succeeds when its entry is
    0, and every interface is found, with index 4. *)
Definition next_status (m : list Z) : Z * list Z :=
  match m with
  | [] => (0, [])
  | r :: rest => (r, rest)
  end.

Definition next_ok (m : list Z) : bool * list Z :=
  let '(r, m') := next_status m in (r =? 0, m').

#[global] Instance scripted_libnl : NetlinkSetup.Libnl (list Z) := {|
  NetlinkSetup.nl_socket_alloc := next_ok;
  NetlinkSetup.nl_connect := next_status;
  NetlinkSetup.rtnl_link_alloc_cache _ := next_status;
  NetlinkSetup.rtnl_link_get_by_name _ _ _ := Some 4;
  NetlinkSetup.rtnl_addr_alloc_cache := next_status;
  NetlinkSetup.rtnl_addr_alloc := next_ok;
  NetlinkSetup.rtnl_route_nh_alloc := next_ok;
  NetlinkSetup.rtnl_route_alloc := next_ok;
  NetlinkSetup.nl_addr_build := next_ok;
  NetlinkSetup.rtnl_addr_set_local := next_status
|}.

(** The same for what [main] calls. *)
#[global] Instance scripted_machine : Program.Machine (list Z) := {|
  Program.perform _ := next_status
|}.


End SetupExamples.


(** * Properties *)

Lemma nonzero_true (v : Z) : nonzero v = true <-> v <> 0.
Proof.
  unfold nonzero. rewrite negb_true_iff, Z.eqb_neq. tauto.
Qed.

Lemma nonzero_false (v : Z) : nonzero v = false <-> v = 0.
Proof.
  unfold nonzero. rewrite negb_false_iff, Z.eqb_eq. tauto.
Qed.

(** ** The operation-mode table *)

Section DmsModeString.

Import Dms.

Lemma entries_is_8 : entries = 8.
Proof. reflexivity. Qed.

Lemma mode_in_table (mode : Z) :
  0 <= mode < 8 ->
  exists s, nth_error mm_dms_operation_modes (Z.to_nat mode) = Some s.
Proof.
  intros Hm.
  assert (Hlt : (Z.to_nat mode < List.length mm_dms_operation_modes)%nat)
    by (simpl; lia).
  destruct (nth_error mm_dms_operation_modes (Z.to_nat mode)) as [s|] eqn:E.
  - now exists s.
  - apply nth_error_None in E. lia.
Qed.

(** C10.  For every value the enumeration's underlying type can hold
    (signed or unsigned 32 bits), mm_dms_get_operation_mode_string returns
    a string and never reads outside the table: the table entry for the
    modes 0 to 7, and "Invalid" for every other value, in particular for
    every value from 8 up. *)
Theorem operation_mode_string_valid (mode : Z) :
  - 2 ^ 31 <= mode < 2 ^ 32 ->
  exists s,
    mm_dms_get_operation_mode_string mode = Some s
    /\ (0 <= mode < 8 ->
        nth_error mm_dms_operation_modes (Z.to_nat mode) = Some s)
    /\ (8 <= mode \/ mode < 0 -> s = "Invalid").
Proof.
  intros Hrange. unfold mm_dms_get_operation_mode_string.
  rewrite entries_is_8. unfold to_size_t.
  destruct (Z_lt_dec mode 0) as [Hneg | Hpos].
  - exists "Invalid".
    replace (mode mod 2 ^ 64) with (mode + 2 ^ 64)
      by (apply Z.mod_unique with (q := -1); lia).
    destruct (Z.leb_spec 8 (mode + 2 ^ 64)); [ | lia ].
    repeat split; intros; try reflexivity; lia.
  - rewrite Z.mod_small by lia.
    destruct (Z.leb_spec 8 mode) as [Hbig | Hsmall].
    + exists "Invalid". repeat split; intros; try reflexivity; lia.
    + destruct (mode_in_table mode) as [s Hs]; [ lia | ].
      exists s. rewrite Hs. repeat split; intros; try reflexivity; lia.
Qed.

Lemma operation_mode_string_valid_witness :
  exists s,
    mm_dms_get_operation_mode_string MM_DMS_OPERATION_MODE_INVALID = Some s
    /\ (0 <= MM_DMS_OPERATION_MODE_INVALID < 8 ->
        nth_error mm_dms_operation_modes
          (Z.to_nat MM_DMS_OPERATION_MODE_INVALID) = Some s)
    /\ (8 <= MM_DMS_OPERATION_MODE_INVALID
        \/ MM_DMS_OPERATION_MODE_INVALID < 0 -> s = "Invalid").
Proof.
  apply (operation_mode_string_valid MM_DMS_OPERATION_MODE_INVALID).
  unfold MM_DMS_OPERATION_MODE_INVALID. lia.
Defined.

Example operation_mode_string_online :
  mm_dms_get_operation_mode_string MM_DMS_OPERATION_MODE_ONLINE = Some "Online".
Proof. reflexivity. Qed.

Example operation_mode_string_last :
  mm_dms_get_operation_mode_string MM_DMS_OPERATION_MODE_ONLY_LOW_POWER
  = Some "Mode-only low power".
Proof. reflexivity. Qed.

Example operation_mode_string_max :
  mm_dms_get_operation_mode_string MM_DMS_OPERATION_MODE_MAX = Some "Invalid".
Proof. reflexivity. Qed.

End DmsModeString.

(** ** Runtime settings *)

Section WdsRuntimeSettings.

Import Wds.

(** More fuel never changes the outcome of a loop that has finished. *)
Lemma subnet_mask_loop_more_fuel (fuel : nat) :
  forall mask prefix r,
    subnet_mask_loop fuel mask prefix = Some r ->
    forall extra, subnet_mask_loop (fuel + extra) mask prefix = Some r.
Proof.
  induction fuel as [| fuel IH]; intros mask prefix r Hrun extra; simpl in *.
  - destruct (Z.land mask 1 =? 0) eqn:Hbit; [ discriminate | ].
    destruct extra; simpl; rewrite Hbit; exact Hrun.
  - destruct (Z.land mask 1 =? 0); [ now apply IH | exact Hrun ].
Qed.

(** On the all-zero mask the guard [!(mask & 0x1)] holds again after each
    turn of the body: the loop is still running whatever the fuel. *)
Lemma subnet_mask_loop_zero (fuel : nat) :
  forall prefix, subnet_mask_loop fuel 0 prefix = None.
Proof.
  induction fuel as [| fuel IH]; intros prefix; simpl.
  - reflexivity.
  - apply IH.
Qed.

Lemma in_one_to_32 (k : Z) :
  1 <= k <= 32 -> In k (map Z.of_nat (seq 1 32)).
Proof.
  intros Hk. apply in_map_iff. exists (Z.to_nat k). split.
  - lia.
  - apply in_seq. lia.
Qed.

(** The 32 masks with at least one bit set: the loop ends within 32
    turns with the population count. *)
Lemma subnet_mask_loop_contiguous (k : Z) :
  1 <= k <= 32 ->
  subnet_mask_loop 32 (contiguous_mask k) 32 = Some k
  /\ popcount32 (contiguous_mask k) = k.
Proof.
  intros Hk.
  assert (Hall :
    forallb (fun k =>
      match subnet_mask_loop 32 (contiguous_mask k) 32 with
      | Some p => (p =? k) && (popcount32 (contiguous_mask k) =? k)
      | None => false
      end) (map Z.of_nat (seq 1 32)) = true) by (vm_compute; reflexivity).
  rewrite forallb_forall in Hall.
  specialize (Hall k (in_one_to_32 k Hk)).
  destruct (subnet_mask_loop 32 (contiguous_mask k) 32) as [p |];
    [ | discriminate ].
  apply andb_true_iff in Hall. destruct Hall as [Hp Hc].
  apply Z.eqb_eq in Hp. apply Z.eqb_eq in Hc. now subst p.
Qed.

(** At the level of the call: for a v4 session and each of the 32
    non-zero contiguous masks, 32 units of fuel or more give a result
    whose prefix length is the population count of the mask. *)
Lemma v4_prefix_is_popcount (extra : nat) (k : Z)
    (resp : unpack_wds_SLQSGetRuntimeSettings_t) :
  1 <= k <= 32 ->
  rs_Tlvresult resp = eQCWWAN_ERR_NONE ->
  swi_uint256_get_bit (rs_ParamPresenceMask resp) 32 = true ->
  swi_uint256_get_bit (rs_ParamPresenceMask resp) 33 = true ->
  SubnetMaskV4 resp = contiguous_mask k ->
  exists r,
    mm_wds_get_runtime_settings (32 + extra) AF_INET eQCWWAN_ERR_NONE resp
    = Some r
    /\ rr_gateway_present r = true
    /\ prefix_length (rr_settings r) = popcount32 (SubnetMaskV4 resp).
Proof.
  intros Hk Htlv H32 H33 Hmask.
  destruct (subnet_mask_loop_contiguous k Hk) as [Hloop Hpop].
  apply subnet_mask_loop_more_fuel with (extra := extra) in Hloop.
  unfold mm_wds_get_runtime_settings.
  rewrite Htlv, H32, H33, Hmask, Hloop, Hpop.
  change (AF_INET =? AF_INET6) with false.
  rewrite !andb_false_r.
  destruct (swi_uint256_get_bit (rs_ParamPresenceMask resp) 30);
    eexists; repeat split.
Qed.

Example prefix_of_ffffff00 : subnet_mask_loop 32 0xFFFFFF00 32 = Some 24.
Proof. reflexivity. Qed.

Example prefix_of_fffffffe : subnet_mask_loop 32 0xFFFFFFFE 32 = Some 31.
Proof. reflexivity. Qed.

Example popcount_of_zero_mask :
  contiguous_mask 0 = 0 /\ popcount32 (contiguous_mask 0) = 0.
Proof. split; reflexivity. Qed.

(** C3.  The legal mask 0x00000000 (population count 0) is not handled:
    for a v4 session whose response carries the gateway and subnet-mask
    TLVs with SubnetMaskV4 = 0, mm_wds_get_runtime_settings never leaves
    the mask loop, whatever the fuel, so no prefix length is derived. *)
Theorem v4_zero_mask_never_returns (fuel : nat)
    (resp : unpack_wds_SLQSGetRuntimeSettings_t) :
  rs_Tlvresult resp = eQCWWAN_ERR_NONE ->
  swi_uint256_get_bit (rs_ParamPresenceMask resp) 32 = true ->
  swi_uint256_get_bit (rs_ParamPresenceMask resp) 33 = true ->
  SubnetMaskV4 resp = contiguous_mask 0 ->
  mm_wds_get_runtime_settings fuel AF_INET eQCWWAN_ERR_NONE resp = None.
Proof.
  intros Htlv H32 H33 Hmask. unfold mm_wds_get_runtime_settings.
  rewrite Htlv, H32, H33, Hmask.
  change (contiguous_mask 0) with 0.
  rewrite subnet_mask_loop_zero.
  destruct (swi_uint256_get_bit (rs_ParamPresenceMask resp) 30); reflexivity.
Qed.

Lemma v4_zero_mask_never_returns_witness :
  mm_wds_get_runtime_settings 1000 AF_INET eQCWWAN_ERR_NONE
    Examples.resp_v4_mask_zero = None.
Proof.
  apply (v4_zero_mask_never_returns 1000 Examples.resp_v4_mask_zero);
    reflexivity.
Defined.

(** C8, as the code has it.  For a v6 session and a successful response
    carrying both the address TLV and the gateway TLV, if the address
    TLV's prefix length is not zero and differs from the gateway TLV's,
    the call returns, logs the disagreement once and keeps the address
    TLV's prefix length. *)
Theorem v6_prefix_disagreement_keeps_address (fuel : nat)
    (resp : unpack_wds_SLQSGetRuntimeSettings_t) :
  rs_Tlvresult resp = eQCWWAN_ERR_NONE ->
  swi_uint256_get_bit (rs_ParamPresenceMask resp) 37 = true ->
  swi_uint256_get_bit (rs_ParamPresenceMask resp) 38 = true ->
  IPV6PrefixLen resp <> 0 ->
  IPV6PrefixLen resp <> gwV6PrefixLen resp ->
  exists r,
    mm_wds_get_runtime_settings fuel AF_INET6 eQCWWAN_ERR_NONE resp = Some r
    /\ rr_status r = eQCWWAN_ERR_NONE
    /\ rr_address_present r = true
    /\ rr_gateway_present r = true
    /\ rr_log r =
       [MM_LOG "IPv6 prefix length for address and gateway differ? (/%d /%d)"
               [arg_int (IPV6PrefixLen resp); arg_int (gwV6PrefixLen resp)]]
    /\ prefix_length (rr_settings r) = IPV6PrefixLen resp.
Proof.
  intros Htlv H37 H38 Hnz Hne. unfold mm_wds_get_runtime_settings.
  rewrite Htlv, H37, H38.
  change (AF_INET6 =? AF_INET) with false.
  change (AF_INET6 =? AF_INET6) with true.
  rewrite !andb_false_r. cbn [negb andb Z.eqb eQCWWAN_ERR_NONE].
  cbn [set_gateway set_address set_prefix_length prefix_length].
  apply nonzero_true in Hnz. rewrite Hnz.
  apply Z.eqb_neq in Hne. rewrite Hne. cbn [negb andb].
  eexists. repeat split.
Qed.

Lemma v6_prefix_disagreement_keeps_address_witness :
  exists r,
    mm_wds_get_runtime_settings 0 AF_INET6 eQCWWAN_ERR_NONE
      Examples.resp_v6_prefix_64_56 = Some r
    /\ rr_status r = eQCWWAN_ERR_NONE
    /\ rr_address_present r = true
    /\ rr_gateway_present r = true
    /\ rr_log r =
       [MM_LOG "IPv6 prefix length for address and gateway differ? (/%d /%d)"
               [arg_int 64; arg_int 56]]
    /\ prefix_length (rr_settings r) = 64.
Proof.
  apply (v6_prefix_disagreement_keeps_address 0 Examples.resp_v6_prefix_64_56);
    simpl; try reflexivity; lia.
Defined.

(** C8 as stated fails when the address TLV announces prefix length 0:
    both TLVs are present and disagree (0 against 64), yet nothing is
    logged and the gateway TLV's value is the one kept. *)
Lemma v6_prefix_zero_address_counterexample :
  exists r,
    mm_wds_get_runtime_settings 0 AF_INET6 eQCWWAN_ERR_NONE
      Examples.resp_v6_address_prefix_zero = Some r
    /\ swi_uint256_get_bit
         (rs_ParamPresenceMask Examples.resp_v6_address_prefix_zero) 37 = true
    /\ swi_uint256_get_bit
         (rs_ParamPresenceMask Examples.resp_v6_address_prefix_zero) 38 = true
    /\ IPV6PrefixLen Examples.resp_v6_address_prefix_zero
       <> gwV6PrefixLen Examples.resp_v6_address_prefix_zero
    /\ rr_log r = []
    /\ prefix_length (rr_settings r)
       <> IPV6PrefixLen Examples.resp_v6_address_prefix_zero
    /\ prefix_length (rr_settings r)
       = gwV6PrefixLen Examples.resp_v6_address_prefix_zero.
Proof.
  eexists. split; [ reflexivity | ].
  repeat split; simpl; discriminate.
Qed.

End WdsRuntimeSettings.

(** ** Packet-service indications *)

Section WdsIndication.

Import Wds.

(** With the presence bits taken into account, the guard of the final
    [if] is the specification's condition together with a started
    session. *)
Lemma teardown_guard_spec (p : unpack_wds_SLQSSetPacketSrvStatusCallback_t)
    (s : mm_wds_session) :
  teardown_guard (read_indication p) (Some s)
  = nonzero (session_id s) && spec_teardown_condition p.
Proof.
  unfold teardown_guard, spec_teardown_condition, read_indication.
  cbn [reason_present verbose_reason_present connection_status
       session_end_reason verbose_session_end_reason_type
       verbose_session_end_reason].
  destruct (swi_uint256_get_bit (ps_ParamPresenceMask p) 16),
           (swi_uint256_get_bit (ps_ParamPresenceMask p) 17);
    cbn [andb orb]; now rewrite <- andb_assoc.
Qed.

Lemma report_with_session (l : indication_locals) (s : mm_wds_session) :
  exists log, report_indication l (Some s) = Some log.
Proof.
  unfold report_indication.
  destruct (verbose_reason_present l), (reason_present l); eexists; reflexivity.
Qed.

(** What the callback does to the session it is given. *)
Lemma callback_with_session (ind : wds_indication) (s : mm_wds_session) :
  exists log,
    wds_indication_callback ind (Some s)
    = cb_return
        (Some (if unpacked_ok ind
                  && teardown_guard (read_indication (packet_srv_status ind))
                       (Some s)
               then set_teardown_requested s else s))
        log.
Proof.
  unfold wds_indication_callback, unpacked_ok.
  destruct (msgid ind); [ | eexists; reflexivity ].
  destruct (unpack_status ind =? eQCWWAN_ERR_NONE); cbn [negb andb];
    [ | eexists; reflexivity ].
  destruct (nonzero (ps_Tlvresult (packet_srv_status ind))); cbn [negb andb];
    [ eexists; reflexivity | ].
  destruct (swi_uint256_get_bit
              (ps_ParamPresenceMask (packet_srv_status ind)) 1);
    cbn [negb andb]; [ | eexists; reflexivity ].
  destruct (report_with_session (read_indication (packet_srv_status ind)) s)
    as [log Hlog].
  rewrite Hlog.
  destruct (teardown_guard (read_indication (packet_srv_status ind)) (Some s));
    eexists; reflexivity.
Qed.

(** Without a session object the callback has nothing to set. *)
Lemma callback_without_session (ind : wds_indication) :
  wds_indication_callback ind None = cb_null_dereference
  \/ exists log, wds_indication_callback ind None = cb_return None log.
Proof.
  unfold wds_indication_callback.
  destruct (msgid ind); [ | right; eexists; reflexivity ].
  destruct (negb (unpack_status ind =? eQCWWAN_ERR_NONE));
    [ right; eexists; reflexivity | ].
  destruct (nonzero (ps_Tlvresult (packet_srv_status ind)));
    [ right; eexists; reflexivity | ].
  destruct (negb (swi_uint256_get_bit
                    (ps_ParamPresenceMask (packet_srv_status ind)) 1));
    [ right; eexists; reflexivity | ].
  destruct (report_indication (read_indication (packet_srv_status ind)) None);
    [ right; eexists; reflexivity | left; reflexivity ].
Qed.

(** C1, as the code has it.  For every indication delivered with a
    session whose flag is still clear, the callback returns and leaves
    teardown_requested set iff the indication is a packet-service status
    indication that unpacked cleanly, the session has been started
    (session_id is not 0), connection_status is 1 and the disconnect is
    not host-attributed (session_end_reason 2, or verbose type 3 with
    verbose reason 2000).  No other field of the session changes. *)
Theorem indication_filter (ind : wds_indication) (s : mm_wds_session) :
  teardown_requested s = false ->
  exists s' log,
    wds_indication_callback ind (Some s) = cb_return (Some s') log
    /\ (teardown_requested s' = true <->
        unpacked_ok ind = true
        /\ session_id s <> 0
        /\ spec_teardown_condition (packet_srv_status ind) = true)
    /\ last_runtime_settings s' = last_runtime_settings s
    /\ session_id s' = session_id s
    /\ profile s' = profile s
    /\ family s' = family s.
Proof.
  intros Hclear.
  destruct (callback_with_session ind s) as [log Hrun].
  rewrite teardown_guard_spec in Hrun.
  eexists. exists log. split; [ exact Hrun | ].
  destruct (unpacked_ok ind); cbn [andb];
    [ destruct (nonzero (session_id s)) eqn:Hsid; cbn [andb];
      [ apply nonzero_true in Hsid;
        destruct (spec_teardown_condition (packet_srv_status ind))
      | apply nonzero_false in Hsid ]
    | ];
    cbn [set_teardown_requested teardown_requested
         last_runtime_settings session_id profile family];
    repeat split; intros; try reflexivity; try assumption;
    intuition congruence.
Qed.

Lemma indication_filter_witness :
  exists s' log,
    wds_indication_callback (Examples.ind_disconnected_reason 7)
      (Some Examples.session_started) = cb_return (Some s') log
    /\ (teardown_requested s' = true <->
        unpacked_ok (Examples.ind_disconnected_reason 7) = true
        /\ session_id Examples.session_started <> 0
        /\ spec_teardown_condition
             (packet_srv_status (Examples.ind_disconnected_reason 7)) = true)
    /\ last_runtime_settings s' = last_runtime_settings Examples.session_started
    /\ session_id s' = session_id Examples.session_started
    /\ profile s' = profile Examples.session_started
    /\ family s' = family Examples.session_started.
Proof.
  apply (indication_filter (Examples.ind_disconnected_reason 7)
           Examples.session_started).
  reflexivity.
Defined.

(** C1 as stated fails on a session that has not been started: the
    indication says DISCONNECTED with no host-attributed reason, so the
    stated condition holds, yet the flag stays clear. *)
Lemma indication_filter_counterexample :
  spec_teardown_condition (packet_srv_status Examples.ind_disconnected) = true
  /\ unpacked_ok Examples.ind_disconnected = true
  /\ teardown_after
       (wds_indication_callback Examples.ind_disconnected
          (Some Examples.session_not_started))
       (teardown_requested Examples.session_not_started) = false.
Proof. repeat split. Qed.

(** C9.  The callback sets teardown_requested only through a non-null
    context whose session_id is not 0; with session_id = 0, or with a null
    context, the flag is left as it was whatever the indication says; and
    on a started session a cleanly unpacked DISCONNECTED indication is
    suppressed exactly by an end reason of 2 whose TLV (16) is present, or
    by a verbose pair (3, 2000) whose TLV (17) is present: values sitting
    in the structure without their presence bit suppress nothing. *)
Theorem teardown_needs_started_session (ind : wds_indication) :
  (forall context s' log,
      wds_indication_callback ind context = cb_return (Some s') log ->
      teardown_requested s' = true ->
      exists s, context = Some s
                /\ (teardown_requested s = false -> session_id s <> 0))
  /\ (forall s,
        session_id s = 0 ->
        teardown_after (wds_indication_callback ind (Some s))
          (teardown_requested s) = teardown_requested s)
  /\ (forall before,
        teardown_after (wds_indication_callback ind None) before = before)
  /\ (forall s,
        unpacked_ok ind = true ->
        session_id s <> 0 ->
        teardown_requested s = false ->
        conn_status (packet_srv_status ind) = 1 ->
        teardown_after (wds_indication_callback ind (Some s)) false
        = negb ((swi_uint256_get_bit
                   (ps_ParamPresenceMask (packet_srv_status ind)) 16
                 && (sessionEndReason (packet_srv_status ind) =? 2))
                || (swi_uint256_get_bit
                      (ps_ParamPresenceMask (packet_srv_status ind)) 17
                    && (verboseSessnEndReasonType (packet_srv_status ind) =? 3)
                    && (verboseSessnEndReason (packet_srv_status ind)
                        =? 2000)))).
Proof.
  repeat split.
  - intros [s |] s' log Hrun Hset.
    + exists s. split; [ reflexivity | intros Hclear ].
      destruct (callback_with_session ind s) as [log' Hrun'].
      rewrite Hrun' in Hrun. injection Hrun as Hs' _. subst s'.
      unfold teardown_guard in Hset.
      destruct (nonzero (session_id s)) eqn:Hsid;
        [ now apply nonzero_true in Hsid | ].
      cbn [andb] in Hset. rewrite andb_false_r in Hset. congruence.
    + destruct (callback_without_session ind) as [Hf | [log' Hn]];
        congruence.
  - intros s Hsid.
    destruct (callback_with_session ind s) as [log Hrun]. rewrite Hrun.
    unfold teardown_guard. rewrite Hsid.
    cbn [nonzero Z.eqb negb andb teardown_after]. now rewrite andb_false_r.
  - intros before.
    destruct (callback_without_session ind) as [Hf | [log Hn]];
      [ rewrite Hf | rewrite Hn ]; reflexivity.
  - intros s Hok Hsid Hclear Hconn.
    destruct (callback_with_session ind s) as [log Hrun]. rewrite Hrun.
    rewrite teardown_guard_spec, Hok.
    apply nonzero_true in Hsid. rewrite Hsid. cbn [andb teardown_after].
    assert (Hflag : forall b : bool,
               teardown_requested (if b then set_teardown_requested s else s)
               = b)
      by (intros []; [ reflexivity | exact Hclear ]).
    rewrite Hflag.
    unfold spec_teardown_condition. rewrite Hconn.
    destruct (swi_uint256_get_bit
                (ps_ParamPresenceMask (packet_srv_status ind)) 16),
             (swi_uint256_get_bit
                (ps_ParamPresenceMask (packet_srv_status ind)) 17);
      reflexivity.
Qed.

(** A started session, DISCONNECTED, the value 2 left in the structure
    but TLV 16 absent: teardown is requested. *)
Lemma teardown_needs_started_session_witness :
  teardown_after
    (wds_indication_callback Examples.ind_disconnected_stale_reason
       (Some Examples.session_started)) false = true.
Proof.
  destruct (teardown_needs_started_session
              Examples.ind_disconnected_stale_reason)
    as (_ & _ & _ & Hpresent).
  rewrite (Hpresent Examples.session_started);
    try reflexivity; discriminate.
Defined.

Example host_ended_disconnect_is_suppressed :
  teardown_after
    (wds_indication_callback (Examples.ind_disconnected_reason 2)
       (Some Examples.session_started)) false = false.
Proof. reflexivity. Qed.

Example peer_ended_disconnect_requests_teardown :
  teardown_after
    (wds_indication_callback (Examples.ind_disconnected_reason 7)
       (Some Examples.session_started)) false = true.
Proof. reflexivity. Qed.

(** With a null context, an indication that carries an end reason makes
    the callback read [session->session_id] through the null pointer. *)
Example null_context_with_reason :
  wds_indication_callback (Examples.ind_disconnected_reason 7) None
  = cb_null_dereference.
Proof. reflexivity. Qed.

End WdsIndication.

(** ** Operating mode *)

Section DmsPower.

Import Dms.

Context {M : Type} `{DmsModem M}.

Variable eQCWWAN_ERR_GENERAL : Z.

Lemma get_power_sends_one (dms dms1 : dms_service M) (status mode : Z)
    (hw : bool) :
  mm_dms_get_power_sync dms = (status, mode, hw, dms1) ->
  sent dms1 = sent dms ++ [pack_dms_GetPower].
Proof.
  unfold mm_dms_get_power_sync, send_GetPower.
  destruct (answer_GetPower (modem dms)) as [[st resp] m].
  destruct (st =? eQCWWAN_ERR_NONE);
    [ destruct (negb (gp_Tlvresult resp =? eQCWWAN_ERR_NONE)) | ];
    intros Heq; injection Heq as _ _ _ <-; reflexivity.
Qed.

Lemma set_power_sends_one (mode : Z) (dms dms1 : dms_service M) (status : Z)
    (resp : unpack_dms_SetPower_t) :
  send_SetPower mode dms = (status, resp, dms1) ->
  sent dms1 = sent dms ++ [pack_dms_SetPower mode].
Proof.
  unfold send_SetPower.
  destruct (answer_SetPower mode (modem dms)) as [[st r] m].
  intros Heq; injection Heq as _ _ <-; reflexivity.
Qed.

(** C4.  SetPower starts with a GetPower.  When that read succeeds and
    reports the requested mode or a hardware-controlled mode, SetPower
    returns success with resulting_mode = current mode, having sent
    nothing else.  Otherwise it sends the set; when the set and the
    read-back succeed, resulting_mode is the read-back value and the
    status is GENERAL exactly when the read-back differs from the request
    (success otherwise). *)
Theorem set_power_sync_behaviour (requested_mode current_mode : Z)
    (hardware_controlled_mode : bool) (dms dms1 : dms_service M) :
  eQCWWAN_ERR_GENERAL <> eQCWWAN_ERR_NONE ->
  mm_dms_get_power_sync dms
  = (eQCWWAN_ERR_NONE, current_mode, hardware_controlled_mode, dms1) ->
  (current_mode = requested_mode \/ hardware_controlled_mode = true ->
   mm_dms_set_power_sync eQCWWAN_ERR_GENERAL requested_mode dms
   = (eQCWWAN_ERR_NONE, current_mode, dms1)
   /\ sent dms1 = sent dms ++ [pack_dms_GetPower])
  /\ (current_mode <> requested_mode ->
      hardware_controlled_mode = false ->
      forall resp dms2 read_back hw dms3,
        send_SetPower requested_mode dms1 = (eQCWWAN_ERR_NONE, resp, dms2) ->
        sp_Tlvresult resp = eQCWWAN_ERR_NONE ->
        mm_dms_get_power_sync dms2 = (eQCWWAN_ERR_NONE, read_back, hw, dms3) ->
        exists status,
          mm_dms_set_power_sync eQCWWAN_ERR_GENERAL requested_mode dms
          = (status, read_back, dms3)
          /\ (status = eQCWWAN_ERR_GENERAL <-> read_back <> requested_mode)
          /\ (status = eQCWWAN_ERR_NONE <-> read_back = requested_mode)
          /\ sent dms3
             = sent dms ++ [pack_dms_GetPower;
                            pack_dms_SetPower requested_mode;
                            pack_dms_GetPower]).
Proof.
  intros Hgeneral Hread. split.
  - intros Hskip. split; [ | exact (get_power_sends_one _ _ _ _ _ Hread) ].
    unfold mm_dms_set_power_sync. rewrite Hread.
    change (negb (eQCWWAN_ERR_NONE =? eQCWWAN_ERR_NONE)) with false.
    cbv iota.
    destruct Hskip as [-> | ->];
      [ now rewrite Z.eqb_refl | now rewrite orb_true_r ].
  - intros Hdiffer Hfree resp dms2 read_back hw dms3 Hset Htlv Hback.
    apply Z.eqb_neq in Hdiffer.
    assert (Hsent : sent dms3
                    = sent dms ++ [pack_dms_GetPower;
                                   pack_dms_SetPower requested_mode;
                                   pack_dms_GetPower]).
    { rewrite (get_power_sends_one _ _ _ _ _ Hback),
              (set_power_sends_one _ _ _ _ _ Hset),
              (get_power_sends_one _ _ _ _ _ Hread).
      now rewrite <- !app_assoc. }
    unfold mm_dms_set_power_sync. rewrite Hread.
    change (negb (eQCWWAN_ERR_NONE =? eQCWWAN_ERR_NONE)) with false.
    cbv iota. rewrite Hdiffer, Hfree. cbn [orb].
    rewrite Hset.
    change (eQCWWAN_ERR_NONE =? eQCWWAN_ERR_NONE) with true. cbv iota.
    rewrite Htlv.
    change (negb (eQCWWAN_ERR_NONE =? eQCWWAN_ERR_NONE)) with false.
    cbv iota. rewrite Hback.
    change (negb (eQCWWAN_ERR_NONE =? eQCWWAN_ERR_NONE)) with false.
    cbv iota.
    destruct (Z.eqb_spec read_back requested_mode) as [Hsame | Hchanged];
      cbn [negb]; eexists; (split; [ reflexivity | ]);
      repeat split; intros; try assumption; try reflexivity; congruence.
Qed.

(** A failing first read is returned as it is, resulting_mode stays
    INVALID and nothing is written. *)
Lemma set_power_sync_first_read_fails (requested_mode status mode : Z)
    (hw : bool) (dms dms1 : dms_service M) :
  mm_dms_get_power_sync dms = (status, mode, hw, dms1) ->
  status <> eQCWWAN_ERR_NONE ->
  mm_dms_set_power_sync eQCWWAN_ERR_GENERAL requested_mode dms
  = (status, MM_DMS_OPERATION_MODE_INVALID, dms1)
  /\ sent dms1 = sent dms ++ [pack_dms_GetPower].
Proof.
  intros Hread Hfail. split; [ | exact (get_power_sends_one _ _ _ _ _ Hread) ].
  unfold mm_dms_set_power_sync. rewrite Hread.
  apply Z.eqb_neq in Hfail. now rewrite Hfail.
Qed.

End DmsPower.

(** The modem is offline and obeys: the set is sent, the read-back is
    the requested mode and the call succeeds. *)
Lemma set_power_sync_behaviour_witness :
  exists status,
    Dms.mm_dms_set_power_sync 1 Dms.MM_DMS_OPERATION_MODE_ONLINE
      (Examples.toy_dms Dms.MM_DMS_OPERATION_MODE_OFFLINE false true)
    = (status, Dms.MM_DMS_OPERATION_MODE_ONLINE,
       {| Dms.modem := {| Examples.tm_mode := Dms.MM_DMS_OPERATION_MODE_ONLINE;
                          Examples.tm_hardware_controlled := false;
                          Examples.tm_obeys := true |};
          Dms.sent := [Dms.pack_dms_GetPower;
                       Dms.pack_dms_SetPower Dms.MM_DMS_OPERATION_MODE_ONLINE;
                       Dms.pack_dms_GetPower] |})
    /\ status = eQCWWAN_ERR_NONE.
Proof.
  destruct (set_power_sync_behaviour 1
              Dms.MM_DMS_OPERATION_MODE_ONLINE
              Dms.MM_DMS_OPERATION_MODE_OFFLINE false
              (Examples.toy_dms Dms.MM_DMS_OPERATION_MODE_OFFLINE false true)
              {| Dms.modem := Dms.modem
                   (Examples.toy_dms Dms.MM_DMS_OPERATION_MODE_OFFLINE false true);
                 Dms.sent := [Dms.pack_dms_GetPower] |})
    as [_ Hwrite]; [ discriminate | reflexivity | ].
  destruct (Hwrite ltac:(discriminate) eq_refl
              {| Dms.sp_Tlvresult := 0 |}
              {| Dms.modem := {| Examples.tm_mode := Dms.MM_DMS_OPERATION_MODE_ONLINE;
                                 Examples.tm_hardware_controlled := false;
                                 Examples.tm_obeys := true |};
                 Dms.sent := [Dms.pack_dms_GetPower;
                              Dms.pack_dms_SetPower
                                Dms.MM_DMS_OPERATION_MODE_ONLINE] |}
              Dms.MM_DMS_OPERATION_MODE_ONLINE false
              {| Dms.modem := {| Examples.tm_mode := Dms.MM_DMS_OPERATION_MODE_ONLINE;
                                 Examples.tm_hardware_controlled := false;
                                 Examples.tm_obeys := true |};
                 Dms.sent := [Dms.pack_dms_GetPower;
                              Dms.pack_dms_SetPower
                                Dms.MM_DMS_OPERATION_MODE_ONLINE;
                              Dms.pack_dms_GetPower] |}
              eq_refl eq_refl eq_refl)
    as [status [Hrun [_ [Hok _]]]].
  exists status. split; [ exact Hrun | now apply Hok ].
Defined.

(** Scenario S4 at the level of SetPower: the modem is in low power and
    hardware controlled; nothing is written and the mode is unchanged. *)
Example set_power_hardware_locked :
  Dms.mm_dms_set_power_sync 1 Dms.MM_DMS_OPERATION_MODE_ONLINE
    (Examples.toy_dms Dms.MM_DMS_OPERATION_MODE_LOW_POWER true true)
  = (eQCWWAN_ERR_NONE, Dms.MM_DMS_OPERATION_MODE_LOW_POWER,
     {| Dms.modem := {| Examples.tm_mode := Dms.MM_DMS_OPERATION_MODE_LOW_POWER;
                        Examples.tm_hardware_controlled := true;
                        Examples.tm_obeys := true |};
        Dms.sent := [Dms.pack_dms_GetPower] |}).
Proof. reflexivity. Qed.

(** The modem acknowledges the set but stays offline: GENERAL. *)
Example set_power_not_obeyed :
  Dms.mm_dms_set_power_sync 1 Dms.MM_DMS_OPERATION_MODE_ONLINE
    (Examples.toy_dms Dms.MM_DMS_OPERATION_MODE_OFFLINE false false)
  = (1, Dms.MM_DMS_OPERATION_MODE_OFFLINE,
     {| Dms.modem := {| Examples.tm_mode := Dms.MM_DMS_OPERATION_MODE_OFFLINE;
                        Examples.tm_hardware_controlled := false;
                        Examples.tm_obeys := false |};
        Dms.sent := [Dms.pack_dms_GetPower;
                     Dms.pack_dms_SetPower Dms.MM_DMS_OPERATION_MODE_ONLINE;
                     Dms.pack_dms_GetPower] |}).
Proof. reflexivity. Qed.

(** ** Address reconciliation *)

Section NetlinkReconcile.

Import Netlink.

Context {K : Type} `{Rtnl K}.

(** When every delete succeeds, the loop leaves [status] at 0 as soon as
    one stale address was met, and untouched otherwise. *)
Lemma remove_stale_fold (address prefix_length : Z) (l : list rtnl_addr) :
  (forall a k, fst (rtnl_addr_delete a k) = 0) ->
  forall status found log k,
    fst (fst (fst (fold_left (remove_stale address prefix_length) l
                     (status, found, log, k))))
    = if existsb (fun a => negb (is_target address prefix_length a)) l
      then 0 else status.
Proof.
  intros Hdelete.
  induction l as [| a l IH]; intros status found log k; cbn [fold_left existsb].
  - reflexivity.
  - unfold remove_stale at 2.
    destruct (is_target address prefix_length a); cbn [negb orb].
    + apply IH.
    + specialize (Hdelete a k).
      destruct (rtnl_addr_delete a k) as [status1 k1]. cbn [fst] in Hdelete.
      subst status1. rewrite IH.
      now destruct (existsb _ l).
Qed.

(** C2 fails on the code: the -1 recorded for an overflowing enumeration
    is overwritten.  Whenever more than 126 addresses are enumerated, one
    of the 126 kept is not the target and every later submit succeeds,
    EnsureV4ConfigurationIsApplied returns 0. *)
Theorem overflow_status_is_overwritten (mm_nl : mm_netlink)
    (address prefix_length gateway_address : Z) (k : K) :
  allocated (dump_wwan_addrs mm_nl AF_INET)
  < count (dump_wwan_addrs mm_nl AF_INET) ->
  existsb (fun a => negb (is_target address prefix_length a))
    (firstn (Z.to_nat (allocated (dump_wwan_addrs mm_nl AF_INET)))
       (addrs_list (dump_wwan_addrs mm_nl AF_INET))) = true ->
  (forall a k, fst (rtnl_addr_delete a k) = 0) ->
  (forall a p k, fst (rtnl_addr_add a p k) = 0) ->
  (forall s g k, fst (rtnl_route_add s g k) = 0) ->
  fst (fst (mm_netlink_ensure_v4_configuration_is_applied mm_nl address
              prefix_length gateway_address k)) = 0.
Proof.
  intros Hover Hstale Hdelete Hadd Hroute.
  unfold mm_netlink_ensure_v4_configuration_is_applied.
  apply Z.ltb_lt in Hover. rewrite Hover.
  pose proof (remove_stale_fold address prefix_length
                (firstn (Z.to_nat (allocated (dump_wwan_addrs mm_nl AF_INET)))
                   (addrs_list (dump_wwan_addrs mm_nl AF_INET)))
                Hdelete (-1) false
                [MM_LOG "mm_netlink_ensure_v4_confiuration_is_applied: >%u addresses returned?"
                        [arg_int MAX_NETLINK_ADDRS]] k) as Hloop.
  rewrite Hstale in Hloop.
  destruct (fold_left _ _ _) as [[[status1 found] log1] k1].
  cbn [fst] in Hloop. subst status1.
  unfold mm_netlink_add_v4_address, mm_netlink_change_v4_default_gateway.
  destruct found; cbn [negb].
  - cbn [nonzero Z.eqb negb].
    specialize (Hroute address gateway_address k1).
    destruct (rtnl_route_add address gateway_address k1) as [s k2].
    exact Hroute.
  - specialize (Hadd address prefix_length k1).
    destruct (rtnl_addr_add address prefix_length k1) as [s k2].
    cbn [fst] in Hadd. subst s. cbn [nonzero Z.eqb negb].
    specialize (Hroute address gateway_address k2).
    destruct (rtnl_route_add address gateway_address k2) as [s k3].
    exact Hroute.
Qed.

End NetlinkReconcile.

(** 127 addresses on the wwan interface, none of them the target, and a
    kernel that accepts everything: the enumeration overflows and the
    call still reports success. *)
Lemma overflow_status_is_overwritten_witness :
  Netlink.count (Netlink.dump_wwan_addrs Examples.crowded_netlink AF_INET) = 127
  /\ Netlink.allocated
       (Netlink.dump_wwan_addrs Examples.crowded_netlink AF_INET) = 126
  /\ fst (fst (Netlink.mm_netlink_ensure_v4_configuration_is_applied
                 Examples.crowded_netlink Examples.target_address 24
                 Examples.target_gateway tt)) = 0.
Proof.
  split; [ vm_compute; reflexivity | ].
  split; [ vm_compute; reflexivity | ].
  apply (overflow_status_is_overwritten Examples.crowded_netlink
           Examples.target_address 24 Examples.target_gateway tt).
  - vm_compute. reflexivity.
  - vm_compute. reflexivity.
  - intros; reflexivity.
  - intros; reflexivity.
  - intros; reflexivity.
Defined.

(** ** The supervisor *)

Section SupervisorFacts.

Import Main MainMore.

Context {W : Type} `{Host W}.

Variable eQCWWAN_ERR_QMI_NO_EFFECT : Z.

Lemma invoke_answer (c : call) (st : state W) (status : Z) (w : W) :
  answer c (world st) = (status, w) ->
  invoke c st
  = Some (status, {| world := w;
                     exit_requested := exit_requested st;
                     trace := trace st ++ [called c status] |}).
Proof.
  intros Hanswer. unfold invoke. now rewrite Hanswer.
Qed.

(** C7.  At both stop sites of Phase C, a stop that answers "no effect"
    (or success) leaves the iteration's status and exit_requested as they
    were; any other answer becomes the status and sets exit_requested. *)
Theorem stop_tolerates_no_effect (session : ip_family) (status check : Z)
    (st : state W) (w : W) :
  answer (mm_wds_stop_data_session session) (world st) = (check, w) ->
  exists status' st',
    match session with
    | IPV4 => run_up_ipv4_stop eQCWWAN_ERR_QMI_NO_EFFECT status
    | IPV6 => run_up_ipv6_stop eQCWWAN_ERR_QMI_NO_EFFECT status
    end st = Some (status', st')
    /\ world st' = w
    /\ (check = eQCWWAN_ERR_QMI_NO_EFFECT \/ check = eQCWWAN_ERR_NONE ->
        status' = status /\ exit_requested st' = exit_requested st)
    /\ (check <> eQCWWAN_ERR_QMI_NO_EFFECT ->
        check <> eQCWWAN_ERR_NONE ->
        status' = check /\ exit_requested st' = true).
Proof.
  intros Hstop.
  destruct session; unfold run_up_ipv4_stop, run_up_ipv6_stop, bind;
    rewrite (invoke_answer _ _ _ _ Hstop);
    destruct (Z.eqb_spec check eQCWWAN_ERR_NONE) as [Hnone | Hnone];
    destruct (Z.eqb_spec check eQCWWAN_ERR_QMI_NO_EFFECT) as [Hne | Hne];
    cbn [negb andb]; eexists; eexists;
    (split; [ reflexivity | ]); cbn [world exit_requested];
    repeat split; intros; try reflexivity; try congruence; tauto.
Qed.

(** After a successful attach and start, run_up_ipv4 is its connected
    part followed by the stop site and the detach. *)
Lemma run_up_ipv4_after_start (fuel : nat) (st st1 st2 st3 : state W)
    (status : Z) :
  invoke (mm_wds_initialize IPV4) st = Some (0, st1) ->
  mm_start_session IPV4 PROFILE_3GPP_VZWINTERNET IPV4 st1 = Some (0, st2) ->
  run_up_ipv4_connected fuel st2 = Some (status, st3) ->
  run_up_ipv4 eQCWWAN_ERR_QMI_NO_EFFECT fuel st
  = bind (run_up_ipv4_stop eQCWWAN_ERR_QMI_NO_EFFECT status)
      (fun status =>
         bind (invoke (mm_wds_shutdown IPV4))
           (fun check =>
              if nonzero check then
                bind (log "Failed to shutdown the IPv4 WDS service object")
                  (fun _ => bind request_exit (fun _ => ret check))
              else ret status)) st3.
Proof.
  intros Hinit Hstart Hconnected.
  unfold run_up_ipv4, bind. rewrite Hinit.
  cbn [nonzero Z.eqb negb]. rewrite Hstart.
  unfold eQCWWAN_ERR_NONE. cbn [Z.eqb]. rewrite Hconnected.
  reflexivity.
Qed.

Lemma run_up_ipv6_after_start (fuel : nat) (st st1 st2 st3 : state W)
    (status : Z) :
  invoke (mm_wds_initialize IPV6) st = Some (0, st1) ->
  mm_start_session IPV6 PROFILE_3GPP_VZWINTERNET IPV6 st1 = Some (0, st2) ->
  run_up_ipv6_connected eQCWWAN_ERR_QMI_NO_EFFECT fuel st2
  = Some (status, st3) ->
  run_up_ipv6 eQCWWAN_ERR_QMI_NO_EFFECT fuel st
  = bind (run_up_ipv6_stop eQCWWAN_ERR_QMI_NO_EFFECT status)
      (fun status =>
         bind (invoke (mm_wds_shutdown IPV6))
           (fun check =>
              if nonzero check then
                bind (log "Failed to shutdown the IPv6 WDS service object")
                  (fun _ => bind request_exit (fun _ => ret check))
              else ret status)) st3.
Proof.
  intros Hinit Hstart Hconnected.
  unfold run_up_ipv6, bind. rewrite Hinit.
  cbn [nonzero Z.eqb negb]. rewrite Hstart.
  unfold eQCWWAN_ERR_NONE. cbn [Z.eqb]. rewrite Hconnected.
  reflexivity.
Qed.

(** One call of the main thread whose answer is known. *)
Ltac answered Hanswer :=
  erewrite invoke_answer by (cbn [world]; exact Hanswer);
  cbn [world exit_requested trace].



(** mm_start_session returns the first failing status of its two
    requests and never touches exit_requested. *)
Lemma mm_start_session_run (session preference : ip_family) (profile_id : Z)
    (st : state W) (p s : Z) (w1 w2 : W) :
  answer (mm_wds_set_ip_family_preference session preference) (world st)
  = (p, w1) ->
  answer (mm_wds_start_data_session session profile_id
            match preference with IPV4 => AF_INET | IPV6 => AF_INET6 end) w1
  = (s, w2) ->
  exists st',
    mm_start_session session profile_id preference st
    = Some (if nonzero p then p else s, st')
    /\ exit_requested st' = exit_requested st
    /\ world st' = (if nonzero p then w1 else w2).
Proof.
  intros Hpref Hstart.
  unfold mm_start_session, bind. answered Hpref.
  destruct (nonzero p).
  - unfold log, ret. eexists. repeat split.
  - answered Hstart.
    destruct (nonzero s) eqn:Hs.
    + unfold observe, log, ret. cbn [world exit_requested trace].
      destruct (verbose_reason_present w2), (reason_present w2);
        eexists; repeat split.
    + apply nonzero_false in Hs. subst s.
      unfold ret. eexists. repeat split.
Qed.

(** A failed start inside run_up_ipv4 or run_up_ipv6: the function goes
    straight to the WDS detach. *)
Lemma run_up_start_failure (session : ip_family) (fuel : nat) (st : state W)
    (p s check : Z) (w1 w2 w3 w4 : W) :
  answer (mm_wds_initialize session) (world st) = (0, w1) ->
  answer (mm_wds_set_ip_family_preference session session) w1 = (p, w2) ->
  answer (mm_wds_start_data_session session PROFILE_3GPP_VZWINTERNET
            match session with IPV4 => AF_INET | IPV6 => AF_INET6 end) w2
  = (s, w3) ->
  p <> 0 \/ s <> 0 ->
  answer (mm_wds_shutdown session) (if nonzero p then w2 else w3)
  = (check, w4) ->
  exists status' st',
    match session with
    | IPV4 => run_up_ipv4 eQCWWAN_ERR_QMI_NO_EFFECT fuel
    | IPV6 => run_up_ipv6 eQCWWAN_ERR_QMI_NO_EFFECT fuel
    end st = Some (status', st')
    /\ world st' = w4
    /\ exit_requested st' = exit_requested st || nonzero check
    /\ status' = (if nonzero check then check
                  else if nonzero p then p else s)
    /\ status' <> 0.
Proof.
  intros Hinit Hpref Hstart Hfail Hshutdown.
  destruct (mm_start_session_run session session PROFILE_3GPP_VZWINTERNET
              {| world := w1;
                 exit_requested := exit_requested st;
                 trace := trace st ++ [called (mm_wds_initialize session) 0] |}
              p s w2 w3 Hpref Hstart)
    as (st1 & Hrun & Hexit & Hworld).
  cbn [exit_requested] in Hexit.
  assert (Hstatus : (if nonzero p then p else s) <> 0).
  { destruct (nonzero p) eqn:Hp; [ now apply nonzero_true | ].
    apply nonzero_false in Hp. destruct Hfail; congruence. }
  apply Z.eqb_neq in Hstatus.
  destruct session; unfold run_up_ipv4, run_up_ipv6, bind;
    answered Hinit; cbn [nonzero Z.eqb negb];
    rewrite Hrun; unfold eQCWWAN_ERR_NONE; rewrite Hstatus;
    unfold log, ret; cbn [world exit_requested trace];
    (erewrite invoke_answer
       by (cbn [world]; rewrite Hworld; exact Hshutdown));
    cbn [world exit_requested trace];
    apply Z.eqb_neq in Hstatus;
    destruct (nonzero check) eqn:Hcheck;
    unfold request_exit; cbn [world exit_requested trace];
    eexists; eexists; (split; [ reflexivity | ]);
    cbn [world exit_requested]; rewrite ?Hexit;
    rewrite ?orb_true_r, ?orb_false_r;
    repeat split; try assumption; now apply nonzero_true.
Qed.

(** A script that the environment follows gives the answer to its first
    call, and can be cut in two. *)
Lemma replies_cons (w w' : W) (c : call) (r : Z) (rest : list (call * Z)) :
  replies w ((c, r) :: rest) = Some w' ->
  exists w1, answer c w = (r, w1) /\ replies w1 rest = Some w'.
Proof.
  cbn [replies]. destruct (answer c w) as [r' w1].
  destruct (Z.eqb_spec r' r) as [ -> | ]; [ | discriminate ].
  intros Hrest. now exists w1.
Qed.

Lemma replies_app (l1 l2 : list (call * Z)) (w w' : W) :
  replies w (l1 ++ l2) = Some w' ->
  exists w1, replies w l1 = Some w1 /\ replies w1 l2 = Some w'.
Proof.
  revert w. induction l1 as [ | [c r] l1 IH ]; intros w; cbn [app replies].
  - intros Hrest. now exists w.
  - destruct (answer c w) as [r' w1].
    destruct (r' =? r); [ apply IH | discriminate ].
Qed.

Lemma calls_of_called (t : list event) (c : call) (r : Z) :
  calls_of (t ++ [called c r]) = calls_of t ++ [(c, r)].
Proof. unfold calls_of. now rewrite flat_map_app. Qed.

Lemma calls_of_logged (t : list event) (msg : string) :
  calls_of (t ++ [logged msg]) = calls_of t.
Proof. unfold calls_of. rewrite flat_map_app. apply app_nil_r. Qed.

(** Reading the answers off a script. *)
Ltac script_answers :=
  repeat match goal with
         | Hs : replies _ (_ :: _) = Some _ |- _ =>
             apply replies_cons in Hs; destruct Hs as (? & ? & Hs)
         | Hs : replies _ [] = Some _ |- _ => injection Hs as <-
         end.

(** Running the main thread along known answers. *)
Ltac along_answers :=
  repeat first
    [ match goal with
      | Ha : answer ?c ?w = _ |- context [answer ?c ?w] => rewrite Ha
      | Hn : nonzero ?v = _ |- context [nonzero ?v] => rewrite Hn
      | He : (?v =? 0) = _ |- context [?v =? 0] => rewrite He
      | Hw : world ?s = _ |- context [world ?s] => rewrite Hw
      | Hf : sigint_handled ?w = _ |- context [sigint_handled ?w] =>
          rewrite Hf
      | Hf : resulting_mode ?w = _ |- context [resulting_mode ?w] =>
          rewrite Hf
      | Hf : address_present ?w = _ |- context [address_present ?w] =>
          rewrite Hf
      | Hf : gateway_present ?w = _ |- context [gateway_present ?w] =>
          rewrite Hf
      | Hf : exit_requested ?s = _ |- context [exit_requested ?s] =>
          rewrite Hf
      | Hb : negb (?v =? ?a) && negb (?v =? ?b) = _
        |- context [negb (?v =? ?a) && negb (?v =? ?b)] => rewrite Hb
      end
    | progress cbn [world exit_requested trace nonzero Z.eqb negb orb andb
                    Pos.eqb] ].

(** mm_start_session makes the calls of [start_attempt], returns the
    first failing status and never touches exit_requested. *)
Lemma mm_start_session_attempt (session : ip_family) (st : state W) (p s : Z)
    (w' : W) :
  replies (world st) (start_attempt session p s) = Some w' ->
  exists st',
    mm_start_session session PROFILE_3GPP_VZWINTERNET session st
    = Some (if nonzero p then p else s, st')
    /\ exit_requested st' = exit_requested st
    /\ world st' = w'
    /\ calls_of (trace st') = calls_of (trace st) ++ start_attempt session p s.
Proof.
  unfold start_attempt, mm_start_session, bind, invoke, log, ret, observe.
  destruct (nonzero p) eqn:Hp; intros Hs; script_answers; along_answers.
  - eexists. split; [ reflexivity | ]. cbn [world exit_requested trace].
    rewrite calls_of_logged, calls_of_called. repeat split.
  - destruct (nonzero s) eqn:Hs.
    + match goal with
      | |- context [verbose_reason_present ?w] =>
          destruct (verbose_reason_present w), (reason_present w)
      end;
        (eexists; split; [ reflexivity | ]);
        cbn [world exit_requested trace];
        rewrite ?calls_of_logged, !calls_of_called, <- app_assoc;
        repeat split.
    + apply nonzero_false in Hs. subst s.
      eexists. split; [ reflexivity | ]. cbn [world exit_requested trace].
      rewrite !calls_of_called, <- app_assoc. repeat split.
Qed.

(** After a turn that ends in "next turn" with no exit requested and no
    interrupt, the loop runs initialize_iteration again. *)
Lemma loop_takes_another_turn (st st' : state W) (status : Z) :
  (forall fuel,
     initialize_iteration eQCWWAN_ERR_QMI_NO_EFFECT fuel st
     = Some (loop_next status, st')) ->
  exit_requested st = false ->
  exit_requested st' = false ->
  sigint_handled (world st) = false ->
  sigint_handled (world st') = false ->
  forall fuel status0,
    initialize_loop eQCWWAN_ERR_QMI_NO_EFFECT (S (S fuel)) status0 st
    = bind (initialize_iteration eQCWWAN_ERR_QMI_NO_EFFECT fuel)
        (fun exit =>
           match exit with
           | loop_break status' => ret status'
           | loop_next status' =>
               initialize_loop eQCWWAN_ERR_QMI_NO_EFFECT fuel status'
           end) st'.
Proof.
  intros Hturn Hexit Hexit' Hsig Hsig' fuel status0.
  cbn [initialize_loop]. unfold bind at 1. unfold read_exit_requested at 1.
  rewrite Hexit, Hsig. cbn [orb].
  unfold bind at 1. rewrite (Hturn (S fuel)).
  unfold bind at 1. unfold read_exit_requested at 1.
  rewrite Hexit', Hsig'. reflexivity.
Qed.

(** A turn of the loop, opened up to the calls it makes, the start of a
    session apart. *)
Ltac open_turn :=
  unfold initialize_iteration, initialize_cleanup, initialize_stop_services,
    run_up_ipv6, run_up_ipv6_connected, run_up_ipv6_stop, run_up_ipv4,
    or_break;
  unfold bind, invoke, log, ret, observe, request_exit,
    read_exit_requested, eQCWWAN_ERR_NONE,
    Dms.MM_DMS_OPERATION_MODE_ONLINE in *.

(** The start of a session whose answers are [Hattempt]. *)
Ltac start_answered p s Hattempt :=
  match goal with
  | |- context [mm_start_session ?session _ _ ?st0] =>
      let st1 := fresh "st" in
      let Hrun := fresh "Hrun" in
      let Hexit := fresh "Hexit" in
      let Hworld := fresh "Hworld" in
      let Hcalls := fresh "Hcalls" in
      destruct (mm_start_session_attempt session st0 p s _ Hattempt)
        as (st1 & Hrun & Hexit & Hworld & Hcalls);
      cbn [world exit_requested trace] in Hexit, Hcalls;
      rewrite Hrun
  end.

(** The calls of the final trace, listed. *)
Ltac calls_listed :=
  repeat first
    [ rewrite calls_of_called
    | rewrite calls_of_logged
    | match goal with
      | Hc : calls_of (trace ?s) = _ |- context [calls_of (trace ?s)] =>
          rewrite Hc
      end ];
  rewrite <- ?app_assoc; reflexivity.

(** A whole turn of the loop in which the v6 start fails. *)
Lemma turn_with_v6_start_failure (st : state W) (p s r : Z) (wa wb wc wd : W) :
  exit_requested st = false ->
  replies (world st) prelude_calls = Some wa ->
  resulting_mode wa = Dms.MM_DMS_OPERATION_MODE_ONLINE ->
  p <> 0 \/ s <> 0 ->
  replies wa
    ((mm_wds_initialize IPV6, 0)
     :: start_attempt IPV6 p s ++ [(mm_wds_shutdown IPV6, 0)]) = Some wb ->
  sigint_handled wb = false ->
  replies wb cleanup_calls = Some wc ->
  sigint_handled wc = false ->
  answer (sleep 10) wc = (r, wd) ->
  exists st',
    (forall fuel,
       initialize_iteration eQCWWAN_ERR_QMI_NO_EFFECT fuel st
       = Some (loop_next (if nonzero p then p else s), st'))
    /\ (if nonzero p then p else s) <> 0
    /\ exit_requested st' = false
    /\ world st' = wd
    /\ calls_of (trace st')
       = calls_of (trace st)
         ++ prelude_calls
         ++ (mm_wds_initialize IPV6, 0)
            :: start_attempt IPV6 p s ++ [(mm_wds_shutdown IPV6, 0)]
         ++ cleanup_calls ++ [(sleep 10, r)]
    /\ (sigint_handled (world st) = false ->
        sigint_handled wd = false ->
        forall fuel status0,
          initialize_loop eQCWWAN_ERR_QMI_NO_EFFECT (S (S fuel)) status0 st
          = bind (initialize_iteration eQCWWAN_ERR_QMI_NO_EFFECT fuel)
              (fun exit =>
                 match exit with
                 | loop_break status' => ret status'
                 | loop_next status' =>
                     initialize_loop eQCWWAN_ERR_QMI_NO_EFFECT fuel status'
                 end) st').
Proof.
  intros Hexit Hprelude Hmode Hfail Hsession Hsig Hcleanup Hsig' Hsleep.
  assert (Hstatus : (if nonzero p then p else s) <> 0).
  { destruct (nonzero p) eqn:Hp; [ now apply nonzero_true | ].
    apply nonzero_false in Hp. tauto. }
  pose proof (proj2 (Z.eqb_neq _ _) Hstatus) as Hstatus0.
  apply replies_cons in Hsession. destruct Hsession as (w1 & Hinit & Hsession).
  apply replies_app in Hsession.
  destruct Hsession as (w2 & Hattempt & Hdetach).
  unfold prelude_calls, cleanup_calls in *. script_answers.
  assert (Hturn : exists st',
    (forall fuel,
       initialize_iteration eQCWWAN_ERR_QMI_NO_EFFECT fuel st
       = Some (loop_next (if nonzero p then p else s), st'))
    /\ exit_requested st' = false
    /\ world st' = wd
    /\ calls_of (trace st')
       = calls_of (trace st)
         ++ [(mm_netlink_reload_link_cache, 0);
             (mm_sdbus_manage_service "StopUnit" "chrony.service", 0);
             (mm_sdbus_manage_service "StopUnit" "unbound.service", 0);
             (mm_netlink_ensure_wwan_interface_state true, 0);
             (mm_netlink_addr_flush, 0);
             (mm_dms_initialize, 0);
             (mm_dms_set_power_sync Dms.MM_DMS_OPERATION_MODE_ONLINE, 0)]
         ++ (mm_wds_initialize IPV6, 0)
            :: start_attempt IPV6 p s ++ [(mm_wds_shutdown IPV6, 0)]
         ++ [(mm_dms_shutdown false, 0);
             (mm_netlink_reload_link_cache, 0);
             (mm_netlink_ensure_wwan_interface_state false, 0);
             (mm_netlink_ensure_wg0_interface_state false, 0);
             (mm_sdbus_manage_service "StopUnit" "chrony.service", 0);
             (mm_sdbus_manage_service "StopUnit" "unbound.service", 0)]
         ++ [(sleep 10, r)]).
  { open_turn. along_answers.
    start_answered p s Hattempt.
    along_answers.
    eexists. split; [ intros fuel; reflexivity | ].
    cbn [world exit_requested trace].
    split; [ reflexivity | ]. split; [ reflexivity | ].
    calls_listed. }
  destruct Hturn as (st' & Hturn & Hexit' & Hworld' & Hcalls').
  exists st'.
  split; [ exact Hturn | ]. split; [ exact Hstatus | ].
  split; [ exact Hexit' | ]. split; [ exact Hworld' | ].
  split; [ exact Hcalls' | ].
  intros Hsig0 Hsigd.
  apply (loop_takes_another_turn st st' _ Hturn Hexit Hexit' Hsig0).
  now rewrite Hworld'.
Qed.

(** A whole turn of the loop in which the v6 session is up and the v4
    start fails. *)
Lemma turn_with_v4_start_failure (st : state W) (p s stop6 r : Z) (wa ws wb wc wd : W) :
  exit_requested st = false ->
  replies (world st) prelude_calls = Some wa ->
  resulting_mode wa = Dms.MM_DMS_OPERATION_MODE_ONLINE ->
  replies wa
    [(mm_wds_initialize IPV6, 0);
     (mm_wds_set_ip_family_preference IPV6 IPV6, 0);
     (mm_wds_start_data_session IPV6 PROFILE_3GPP_VZWINTERNET AF_INET6, 0);
     (mm_wds_get_runtime_settings IPV6, 0)] = Some ws ->
  address_present ws = true ->
  gateway_present ws = true ->
  p <> 0 \/ s <> 0 ->
  stop6 = eQCWWAN_ERR_NONE \/ stop6 = eQCWWAN_ERR_QMI_NO_EFFECT ->
  replies ws
    ((mm_apply_ipv6_runtime_settings false, 0)
     :: (mm_wds_initialize IPV4, 0)
     :: start_attempt IPV4 p s
     ++ [(mm_wds_shutdown IPV4, 0);
         (mm_wds_stop_data_session IPV6, stop6);
         (mm_wds_shutdown IPV6, 0)]) = Some wb ->
  sigint_handled wb = false ->
  replies wb cleanup_calls = Some wc ->
  sigint_handled wc = false ->
  answer (sleep 10) wc = (r, wd) ->
  exists st',
    (forall fuel,
       initialize_iteration eQCWWAN_ERR_QMI_NO_EFFECT fuel st
       = Some (loop_next (if nonzero p then p else s), st'))
    /\ (if nonzero p then p else s) <> 0
    /\ exit_requested st' = false
    /\ world st' = wd
    /\ calls_of (trace st')
       = calls_of (trace st)
         ++ prelude_calls
         ++ [(mm_wds_initialize IPV6, 0);
             (mm_wds_set_ip_family_preference IPV6 IPV6, 0);
             (mm_wds_start_data_session IPV6 PROFILE_3GPP_VZWINTERNET
                AF_INET6, 0);
             (mm_wds_get_runtime_settings IPV6, 0);
             (mm_apply_ipv6_runtime_settings false, 0);
             (mm_wds_initialize IPV4, 0)]
         ++ start_attempt IPV4 p s
         ++ [(mm_wds_shutdown IPV4, 0);
             (mm_wds_stop_data_session IPV6, stop6);
             (mm_wds_shutdown IPV6, 0)]
         ++ cleanup_calls ++ [(sleep 10, r)]
    /\ (sigint_handled (world st) = false ->
        sigint_handled wd = false ->
        forall fuel status0,
          initialize_loop eQCWWAN_ERR_QMI_NO_EFFECT (S (S fuel)) status0 st
          = bind (initialize_iteration eQCWWAN_ERR_QMI_NO_EFFECT fuel)
              (fun exit =>
                 match exit with
                 | loop_break status' => ret status'
                 | loop_next status' =>
                     initialize_loop eQCWWAN_ERR_QMI_NO_EFFECT fuel status'
                 end) st').
Proof.
  intros Hexit Hprelude Hmode Hv6 Haddress Hgateway Hfail Hstop Hsession
         Hsig Hcleanup Hsig' Hsleep.
  assert (Hstatus : (if nonzero p then p else s) <> 0).
  { destruct (nonzero p) eqn:Hp; [ now apply nonzero_true | ].
    apply nonzero_false in Hp. tauto. }
  pose proof (proj2 (Z.eqb_neq _ _) Hstatus) as Hstatus0.
  assert (Hstopped :
    negb (stop6 =? 0) && negb (stop6 =? eQCWWAN_ERR_QMI_NO_EFFECT) = false).
  { destruct Hstop as [ -> | -> ];
      [ reflexivity | rewrite Z.eqb_refl; apply andb_false_r ]. }
  apply replies_cons in Hv6. destruct Hv6 as (w1 & Hinit6 & Hv6).
  change (replies w1
            (start_attempt IPV6 0 0
             ++ [(mm_wds_get_runtime_settings IPV6, 0)]) = Some ws) in Hv6.
  apply replies_app in Hv6. destruct Hv6 as (w2 & Hattempt6 & Hsettings).
  apply replies_cons in Hsession.
  destruct Hsession as (w3 & Happly & Hsession).
  apply replies_cons in Hsession.
  destruct Hsession as (w4 & Hinit4 & Hsession).
  apply replies_app in Hsession.
  destruct Hsession as (w5 & Hattempt4 & Hdetach).
  unfold prelude_calls, cleanup_calls in *. script_answers.
  assert (Hturn : exists st',
    (forall fuel,
       initialize_iteration eQCWWAN_ERR_QMI_NO_EFFECT fuel st
       = Some (loop_next (if nonzero p then p else s), st'))
    /\ exit_requested st' = false
    /\ world st' = wd
    /\ calls_of (trace st')
       = calls_of (trace st)
         ++ [(mm_netlink_reload_link_cache, 0);
             (mm_sdbus_manage_service "StopUnit" "chrony.service", 0);
             (mm_sdbus_manage_service "StopUnit" "unbound.service", 0);
             (mm_netlink_ensure_wwan_interface_state true, 0);
             (mm_netlink_addr_flush, 0);
             (mm_dms_initialize, 0);
             (mm_dms_set_power_sync Dms.MM_DMS_OPERATION_MODE_ONLINE, 0)]
         ++ [(mm_wds_initialize IPV6, 0);
             (mm_wds_set_ip_family_preference IPV6 IPV6, 0);
             (mm_wds_start_data_session IPV6 PROFILE_3GPP_VZWINTERNET
                AF_INET6, 0);
             (mm_wds_get_runtime_settings IPV6, 0);
             (mm_apply_ipv6_runtime_settings false, 0);
             (mm_wds_initialize IPV4, 0)]
         ++ start_attempt IPV4 p s
         ++ [(mm_wds_shutdown IPV4, 0);
             (mm_wds_stop_data_session IPV6, stop6);
             (mm_wds_shutdown IPV6, 0)]
         ++ [(mm_dms_shutdown false, 0);
             (mm_netlink_reload_link_cache, 0);
             (mm_netlink_ensure_wwan_interface_state false, 0);
             (mm_netlink_ensure_wg0_interface_state false, 0);
             (mm_sdbus_manage_service "StopUnit" "chrony.service", 0);
             (mm_sdbus_manage_service "StopUnit" "unbound.service", 0)]
         ++ [(sleep 10, r)]).
  { open_turn. along_answers.
    start_answered 0 0 Hattempt6.
    along_answers.
    start_answered p s Hattempt4.
    along_answers.
    eexists. split; [ intros fuel; reflexivity | ].
    cbn [world exit_requested trace].
    split; [ reflexivity | ]. split; [ reflexivity | ].
    calls_listed. }
  destruct Hturn as (st' & Hturn & Hexit' & Hworld' & Hcalls').
  exists st'.
  split; [ exact Hturn | ]. split; [ exact Hstatus | ].
  split; [ exact Hexit' | ]. split; [ exact Hworld' | ].
  split; [ exact Hcalls' | ].
  intros Hsig0 Hsigd.
  apply (loop_takes_another_turn st st' _ Hturn Hexit Hexit' Hsig0).
  now rewrite Hworld'.
Qed.

(** C5.  When the start-session step fails (the family preference or
    the start request, for the v6 or the v4 session), run_up_ipv6 resp.
    run_up_ipv4 goes straight to the WDS detach and returns a nonzero
    status; exit_requested is left as it was unless the detach itself
    fails.  Seen from run_up_ipv6, a failed v4 start is followed by the
    v6 stop and detach, and exit_requested changes only if the v4
    detach, the v6 stop (other than "no effect") or the v6 detach fails.
    A cleanup in which nothing fails, with no exit requested, ends
    the iteration with the 10 second sleep and the loop starts another
    iteration.  And over a whole turn of the loop of initialize, entered
    with no exit requested, in which every other call is answered with 0
    (the v6 stop with 0 or "no effect") and no interrupt arrives: when
    the v6 start fails, resp. the v6 session comes up and the v4 start
    fails, initialize_iteration makes exactly the calls of Phase B, the
    session calls up to the failed request, the detaches (and the v6
    stop), the six cleanup calls and sleep (10); it returns "next turn"
    with the failed request's nonzero status and exit_requested still
    false; and initialize_loop then runs initialize_iteration again
    from the state after the sleep. *)
Theorem start_failure_lets_phase_b_retry :
  (forall (session : ip_family) (fuel : nat) (st : state W)
          (p s check : Z) (w1 w2 w3 w4 : W),
      answer (mm_wds_initialize session) (world st) = (0, w1) ->
      answer (mm_wds_set_ip_family_preference session session) w1 = (p, w2) ->
      answer (mm_wds_start_data_session session PROFILE_3GPP_VZWINTERNET
                match session with IPV4 => AF_INET | IPV6 => AF_INET6 end) w2
      = (s, w3) ->
      p <> 0 \/ s <> 0 ->
      answer (mm_wds_shutdown session) (if nonzero p then w2 else w3)
      = (check, w4) ->
      exists status' st',
        match session with
        | IPV4 => run_up_ipv4 eQCWWAN_ERR_QMI_NO_EFFECT fuel
        | IPV6 => run_up_ipv6 eQCWWAN_ERR_QMI_NO_EFFECT fuel
        end st = Some (status', st')
        /\ world st' = w4
        /\ exit_requested st' = exit_requested st || nonzero check
        /\ status' = (if nonzero check then check
                      else if nonzero p then p else s)
        /\ status' <> 0)
  /\ (forall (fuel : nat) (st : state W) (p s detach4 stop6 detach6 : Z)
             (w1 w2 w3 w4 w5 w6 w7 w8 w9 w10 w11 : W),
        answer (mm_wds_initialize IPV6) (world st) = (0, w1) ->
        answer (mm_wds_set_ip_family_preference IPV6 IPV6) w1 = (0, w2) ->
        answer (mm_wds_start_data_session IPV6 PROFILE_3GPP_VZWINTERNET
                  AF_INET6) w2 = (0, w3) ->
        answer (mm_wds_get_runtime_settings IPV6) w3 = (0, w4) ->
        address_present w4 = true ->
        gateway_present w4 = true ->
        answer (mm_apply_ipv6_runtime_settings false) w4 = (0, w5) ->
        answer (mm_wds_initialize IPV4) w5 = (0, w6) ->
        answer (mm_wds_set_ip_family_preference IPV4 IPV4) w6 = (p, w7) ->
        answer (mm_wds_start_data_session IPV4 PROFILE_3GPP_VZWINTERNET
                  AF_INET) w7 = (s, w8) ->
        p <> 0 \/ s <> 0 ->
        answer (mm_wds_shutdown IPV4) (if nonzero p then w7 else w8)
        = (detach4, w9) ->
        answer (mm_wds_stop_data_session IPV6) w9 = (stop6, w10) ->
        answer (mm_wds_shutdown IPV6) w10 = (detach6, w11) ->
        exists status' st',
          run_up_ipv6 eQCWWAN_ERR_QMI_NO_EFFECT fuel st = Some (status', st')
          /\ world st' = w11
          /\ exit_requested st'
             = exit_requested st
               || nonzero detach4
               || (negb (stop6 =? eQCWWAN_ERR_NONE)
                   && negb (stop6 =? eQCWWAN_ERR_QMI_NO_EFFECT))
               || nonzero detach6
          /\ status' <> 0)
  /\ (forall (status r : Z) (st : state W) (w1 w2 w3 w4 w5 w6 w7 : W),
        exit_requested st = false ->
        sigint_handled (world st) = false ->
        answer (mm_dms_shutdown false) (world st) = (0, w1) ->
        answer mm_netlink_reload_link_cache w1 = (0, w2) ->
        answer (mm_netlink_ensure_wwan_interface_state false) w2 = (0, w3) ->
        answer (mm_netlink_ensure_wg0_interface_state false) w3 = (0, w4) ->
        answer (mm_sdbus_manage_service "StopUnit" "chrony.service") w4
        = (0, w5) ->
        answer (mm_sdbus_manage_service "StopUnit" "unbound.service") w5
        = (0, w6) ->
        sigint_handled w6 = false ->
        answer (sleep 10) w6 = (r, w7) ->
        exists st',
          initialize_cleanup status st = Some (loop_next status, st')
          /\ exit_requested st' = false
          /\ world st' = w7
          /\ trace st'
             = trace st
               ++ [called (mm_dms_shutdown false) 0;
                   called mm_netlink_reload_link_cache 0;
                   called (mm_netlink_ensure_wwan_interface_state false) 0;
                   called (mm_netlink_ensure_wg0_interface_state false) 0;
                   called (mm_sdbus_manage_service "StopUnit" "chrony.service") 0;
                   called (mm_sdbus_manage_service "StopUnit" "unbound.service") 0;
                   called (sleep 10) r]
          /\ (sigint_handled w7 = false ->
              forall fuel,
                initialize_loop eQCWWAN_ERR_QMI_NO_EFFECT (S fuel) status st'
                = bind (initialize_iteration eQCWWAN_ERR_QMI_NO_EFFECT fuel)
                    (fun exit =>
                       match exit with
                       | loop_break status' => ret status'
                       | loop_next status' =>
                           initialize_loop eQCWWAN_ERR_QMI_NO_EFFECT fuel
                             status'
                       end) st'))
  /\ (forall (st : state W) (p s r : Z) (wa wb wc wd : W),
        exit_requested st = false ->
        replies (world st) prelude_calls = Some wa ->
        resulting_mode wa = Dms.MM_DMS_OPERATION_MODE_ONLINE ->
        p <> 0 \/ s <> 0 ->
        replies wa
          ((mm_wds_initialize IPV6, 0)
           :: start_attempt IPV6 p s ++ [(mm_wds_shutdown IPV6, 0)])
        = Some wb ->
        sigint_handled wb = false ->
        replies wb cleanup_calls = Some wc ->
        sigint_handled wc = false ->
        answer (sleep 10) wc = (r, wd) ->
        exists st',
          (forall fuel,
             initialize_iteration eQCWWAN_ERR_QMI_NO_EFFECT fuel st
             = Some (loop_next (if nonzero p then p else s), st'))
          /\ (if nonzero p then p else s) <> 0
          /\ exit_requested st' = false
          /\ world st' = wd
          /\ calls_of (trace st')
             = calls_of (trace st)
               ++ prelude_calls
               ++ (mm_wds_initialize IPV6, 0)
                  :: start_attempt IPV6 p s ++ [(mm_wds_shutdown IPV6, 0)]
               ++ cleanup_calls ++ [(sleep 10, r)]
          /\ (sigint_handled (world st) = false ->
              sigint_handled wd = false ->
              forall fuel status0,
                initialize_loop eQCWWAN_ERR_QMI_NO_EFFECT (S (S fuel))
                  status0 st
                = bind (initialize_iteration eQCWWAN_ERR_QMI_NO_EFFECT fuel)
                    (fun exit =>
                       match exit with
                       | loop_break status' => ret status'
                       | loop_next status' =>
                           initialize_loop eQCWWAN_ERR_QMI_NO_EFFECT fuel
                             status'
                       end) st'))
  /\ (forall (st : state W) (p s stop6 r : Z) (wa ws wb wc wd : W),
        exit_requested st = false ->
        replies (world st) prelude_calls = Some wa ->
        resulting_mode wa = Dms.MM_DMS_OPERATION_MODE_ONLINE ->
        replies wa
          [(mm_wds_initialize IPV6, 0);
           (mm_wds_set_ip_family_preference IPV6 IPV6, 0);
           (mm_wds_start_data_session IPV6 PROFILE_3GPP_VZWINTERNET
              AF_INET6, 0);
           (mm_wds_get_runtime_settings IPV6, 0)] = Some ws ->
        address_present ws = true ->
        gateway_present ws = true ->
        p <> 0 \/ s <> 0 ->
        stop6 = eQCWWAN_ERR_NONE \/ stop6 = eQCWWAN_ERR_QMI_NO_EFFECT ->
        replies ws
          ((mm_apply_ipv6_runtime_settings false, 0)
           :: (mm_wds_initialize IPV4, 0)
           :: start_attempt IPV4 p s
           ++ [(mm_wds_shutdown IPV4, 0);
               (mm_wds_stop_data_session IPV6, stop6);
               (mm_wds_shutdown IPV6, 0)]) = Some wb ->
        sigint_handled wb = false ->
        replies wb cleanup_calls = Some wc ->
        sigint_handled wc = false ->
        answer (sleep 10) wc = (r, wd) ->
        exists st',
          (forall fuel,
             initialize_iteration eQCWWAN_ERR_QMI_NO_EFFECT fuel st
             = Some (loop_next (if nonzero p then p else s), st'))
          /\ (if nonzero p then p else s) <> 0
          /\ exit_requested st' = false
          /\ world st' = wd
          /\ calls_of (trace st')
             = calls_of (trace st)
               ++ prelude_calls
               ++ [(mm_wds_initialize IPV6, 0);
                   (mm_wds_set_ip_family_preference IPV6 IPV6, 0);
                   (mm_wds_start_data_session IPV6 PROFILE_3GPP_VZWINTERNET
                      AF_INET6, 0);
                   (mm_wds_get_runtime_settings IPV6, 0);
                   (mm_apply_ipv6_runtime_settings false, 0);
                   (mm_wds_initialize IPV4, 0)]
               ++ start_attempt IPV4 p s
               ++ [(mm_wds_shutdown IPV4, 0);
                   (mm_wds_stop_data_session IPV6, stop6);
                   (mm_wds_shutdown IPV6, 0)]
               ++ cleanup_calls ++ [(sleep 10, r)]
          /\ (sigint_handled (world st) = false ->
              sigint_handled wd = false ->
              forall fuel status0,
                initialize_loop eQCWWAN_ERR_QMI_NO_EFFECT (S (S fuel))
                  status0 st
                = bind (initialize_iteration eQCWWAN_ERR_QMI_NO_EFFECT fuel)
                    (fun exit =>
                       match exit with
                       | loop_break status' => ret status'
                       | loop_next status' =>
                           initialize_loop eQCWWAN_ERR_QMI_NO_EFFECT fuel
                             status'
                       end) st')).
Proof.
  split; [ exact run_up_start_failure | ].
  split; [ | split; [ | split;
    [ exact turn_with_v6_start_failure
    | exact turn_with_v4_start_failure ] ] ].
  - intros fuel st p s detach4 stop6 detach6
           w1 w2 w3 w4 w5 w6 w7 w8 w9 w10 w11
           Hinit6 Hpref6 Hstart6 Hsettings Haddress Hgateway Happly
           Hinit4 Hpref4 Hstart4 Hfail Hdetach4 Hstop6 Hdetach6.
    destruct (mm_start_session_run IPV6 IPV6 PROFILE_3GPP_VZWINTERNET
                {| world := w1;
                   exit_requested := exit_requested st;
                   trace := trace st ++ [called (mm_wds_initialize IPV6) 0] |}
                0 0 w2 w3 Hpref6 Hstart6)
      as (st1 & Hrun6 & Hexit1 & Hworld1).
    cbn [exit_requested nonzero Z.eqb negb] in Hrun6, Hexit1, Hworld1.
    unfold run_up_ipv6, bind. answered Hinit6. cbn [nonzero Z.eqb negb].
    rewrite Hrun6. unfold eQCWWAN_ERR_NONE at 1. cbn [Z.eqb].
    unfold run_up_ipv6_connected, bind, log, observe.
    cbn [world exit_requested trace].
    (erewrite invoke_answer
       by (cbn [world]; rewrite Hworld1; exact Hsettings)).
    cbn [world exit_requested trace].
    rewrite Haddress, Hgateway.
    unfold eQCWWAN_ERR_NONE at 1. cbn [Z.eqb negb orb].
    answered Happly. unfold eQCWWAN_ERR_NONE at 1. cbn [Z.eqb].
    match goal with
    | |- context [run_up_ipv4 _ fuel ?s4] =>
        destruct (run_up_start_failure IPV4 fuel s4 p s detach4 w6 w7 w8 w9
                    Hinit4 Hpref4 Hstart4 Hfail Hdetach4)
          as (status4 & st4 & Hrun4 & Hworld4 & Hexit4 & _ & Hnonzero4);
        cbn [exit_requested] in Hexit4
    end.
    rewrite Hrun4.
    unfold run_up_ipv6_stop, bind.
    (erewrite invoke_answer
       by (rewrite Hworld4; exact Hstop6)).
    cbn [world exit_requested trace].
    rewrite Hexit4, Hexit1.
    destruct (negb (stop6 =? eQCWWAN_ERR_NONE)
              && negb (stop6 =? eQCWWAN_ERR_QMI_NO_EFFECT)) eqn:Hbad;
      unfold log, request_exit, ret; cbn [world exit_requested trace];
      answered Hdetach6;
      destruct (nonzero detach6) eqn:Hd6;
      cbn [world exit_requested trace];
      eexists; eexists; (split; [ reflexivity | ]);
      cbn [world exit_requested];
      rewrite ?orb_true_r, ?orb_false_r;
      repeat split; try assumption; try (now apply nonzero_true).
    + apply andb_true_iff in Hbad. destruct Hbad as [Hne _].
      apply negb_true_iff, Z.eqb_neq in Hne. exact Hne.
  - intros status r st w1 w2 w3 w4 w5 w6 w7
           Hexit Hsig Hdms Hreload Hwwan Hwg0 Hchrony Hunbound Hsig6 Hsleep.
    unfold initialize_cleanup, or_break, bind, read_exit_requested.
    rewrite Hexit, Hsig. cbn [orb].
    answered Hdms. cbn [nonzero Z.eqb negb].
    answered Hreload. cbn [nonzero Z.eqb negb].
    answered Hwwan. cbn [nonzero Z.eqb negb].
    answered Hwg0. cbn [nonzero Z.eqb negb].
    unfold initialize_stop_services, bind.
    answered Hchrony. cbn [nonzero Z.eqb negb]. unfold ret at 1.
    answered Hunbound. cbn [nonzero Z.eqb negb]. unfold ret at 1.
    cbn [world exit_requested trace]. rewrite Hexit, Hsig6. cbn [orb negb].
    answered Hsleep. unfold ret.
    eexists. split; [ reflexivity | ].
    cbn [world exit_requested trace].
    split; [ reflexivity | ]. split; [ reflexivity | ].
    split; [ now rewrite <- !app_assoc | ].
    intros Hsig7 fuel.
    cbn [initialize_loop]. unfold bind at 1. unfold read_exit_requested.
    cbn [world exit_requested]. rewrite ?Hexit, Hsig7. reflexivity.
Qed.

End SupervisorFacts.

(** The v6 stop answers "no effect" after a failed settings query. *)
Lemma stop_tolerates_no_effect_witness :
  exists status' st',
    Main.run_up_ipv6_stop Examples.no_effect (-1)
      (Examples.script [Examples.no_effect] false false) = Some (status', st')
    /\ status' = -1
    /\ Main.exit_requested st' = false.
Proof.
  assert (Hstop :
    Main.answer (Main.mm_wds_stop_data_session Main.IPV6)
      (Main.world (Examples.script [Examples.no_effect] false false))
    = (Examples.no_effect, Main.world (Examples.script [] false false)))
    by reflexivity.
  destruct (stop_tolerates_no_effect Examples.no_effect Main.IPV6 (-1)
              Examples.no_effect
              (Examples.script [Examples.no_effect] false false)
              (Main.world (Examples.script [] false false)) Hstop)
    as (status' & st' & Hrun & _ & Hkeep & _).
  exists status', st'. split; [ exact Hrun | ].
  apply Hkeep. left. reflexivity.
Defined.


(** A whole turn in which the v6 start request is refused with status
    1014: no exit is requested and the loop takes another turn. *)
Lemma start_failure_lets_phase_b_retry_witness :
  exists st',
    Main.initialize_iteration Examples.no_effect 0
      (Examples.script [0; 0; 0; 0; 0; 0; 0; 0; 0; 1014] false false)
    = Some (Main.loop_next 1014, st')
    /\ Main.exit_requested st' = false
    /\ MainMore.calls_of (Main.trace st')
       = MainMore.prelude_calls
         ++ (Main.mm_wds_initialize Main.IPV6, 0)
            :: MainMore.start_attempt Main.IPV6 0 1014
         ++ [(Main.mm_wds_shutdown Main.IPV6, 0)]
         ++ MainMore.cleanup_calls ++ [(Main.sleep 10, 0)]
    /\ forall fuel,
         Main.initialize_loop Examples.no_effect (S (S fuel)) 0
           (Examples.script [0; 0; 0; 0; 0; 0; 0; 0; 0; 1014] false false)
         = Main.bind (Main.initialize_iteration Examples.no_effect fuel)
             (fun exit =>
                match exit with
                | Main.loop_break status' => Main.ret status'
                | Main.loop_next status' =>
                    Main.initialize_loop Examples.no_effect fuel status'
                end) st'.
Proof.
  destruct (start_failure_lets_phase_b_retry (W := Examples.scripted)
              Examples.no_effect) as (_ & _ & _ & Hv6 & _).
  destruct (Hv6 (Examples.script [0; 0; 0; 0; 0; 0; 0; 0; 0; 1014]
                   false false) 0 1014 0
              (Main.world (Examples.script [0; 0; 1014] false false))
              (Main.world (Examples.script [] false false))
              (Main.world (Examples.script [] false false))
              (Main.world (Examples.script [] false false)))
    as (st' & Hrun & _ & Hexit & _ & Hcalls & Hloop);
    [ reflexivity | reflexivity | reflexivity | right; discriminate
    | reflexivity | reflexivity | reflexivity | reflexivity | reflexivity | ].
  exists st'.
  split; [ exact (Hrun 0%nat) | ].
  split; [ exact Hexit | ].
  split; [ exact Hcalls | ].
  intros fuel. apply Hloop; reflexivity.
Defined.

(** A whole iteration in which the v6 start is refused: cleanup, sleep,
    no exit requested. *)
Example iteration_with_v6_start_failure :
  Examples.summary
    (Main.initialize_iteration Examples.no_effect 0
       (Examples.script [0; 0; 0; 0; 0; 0; 0; 0; 0; 1014] false false))
  = Some
      (Main.loop_next 1014, false,
       [(Main.mm_netlink_reload_link_cache, 0);
        (Main.mm_sdbus_manage_service "StopUnit" "chrony.service", 0);
        (Main.mm_sdbus_manage_service "StopUnit" "unbound.service", 0);
        (Main.mm_netlink_ensure_wwan_interface_state true, 0);
        (Main.mm_netlink_addr_flush, 0);
        (Main.mm_dms_initialize, 0);
        (Main.mm_dms_set_power_sync 0, 0);
        (Main.mm_wds_initialize Main.IPV6, 0);
        (Main.mm_wds_set_ip_family_preference Main.IPV6 Main.IPV6, 0);
        (Main.mm_wds_start_data_session Main.IPV6 3 10, 1014);
        (Main.mm_wds_shutdown Main.IPV6, 0);
        (Main.mm_dms_shutdown false, 0);
        (Main.mm_netlink_reload_link_cache, 0);
        (Main.mm_netlink_ensure_wwan_interface_state false, 0);
        (Main.mm_netlink_ensure_wg0_interface_state false, 0);
        (Main.mm_sdbus_manage_service "StopUnit" "chrony.service", 0);
        (Main.mm_sdbus_manage_service "StopUnit" "unbound.service", 0);
        (Main.sleep 10, 0)]).
Proof. vm_compute. reflexivity. Qed.

(** The same with the v4 start refused: the v6 session is stopped and
    detached on the way out. *)
Example iteration_with_v4_start_failure :
  Examples.summary
    (Main.initialize_iteration Examples.no_effect 0
       (Examples.script
          [0; 0; 0; 0; 0; 0; 0; 0; 0; 0; 0; 0; 0; 0; 1014] false false))
  = Some
      (Main.loop_next 1014, false,
       [(Main.mm_netlink_reload_link_cache, 0);
        (Main.mm_sdbus_manage_service "StopUnit" "chrony.service", 0);
        (Main.mm_sdbus_manage_service "StopUnit" "unbound.service", 0);
        (Main.mm_netlink_ensure_wwan_interface_state true, 0);
        (Main.mm_netlink_addr_flush, 0);
        (Main.mm_dms_initialize, 0);
        (Main.mm_dms_set_power_sync 0, 0);
        (Main.mm_wds_initialize Main.IPV6, 0);
        (Main.mm_wds_set_ip_family_preference Main.IPV6 Main.IPV6, 0);
        (Main.mm_wds_start_data_session Main.IPV6 3 10, 0);
        (Main.mm_wds_get_runtime_settings Main.IPV6, 0);
        (Main.mm_apply_ipv6_runtime_settings false, 0);
        (Main.mm_wds_initialize Main.IPV4, 0);
        (Main.mm_wds_set_ip_family_preference Main.IPV4 Main.IPV4, 0);
        (Main.mm_wds_start_data_session Main.IPV4 3 2, 1014);
        (Main.mm_wds_shutdown Main.IPV4, 0);
        (Main.mm_wds_stop_data_session Main.IPV6, 0);
        (Main.mm_wds_shutdown Main.IPV6, 0);
        (Main.mm_dms_shutdown false, 0);
        (Main.mm_netlink_reload_link_cache, 0);
        (Main.mm_netlink_ensure_wwan_interface_state false, 0);
        (Main.mm_netlink_ensure_wg0_interface_state false, 0);
        (Main.mm_sdbus_manage_service "StopUnit" "chrony.service", 0);
        (Main.mm_sdbus_manage_service "StopUnit" "unbound.service", 0);
        (Main.sleep 10, 0)]).
Proof. vm_compute. reflexivity. Qed.

(** A full bring-up whose sessions are torn down by the peer: both stops
    answer "no effect", the run ends with status 0 and no exit requested
    by the main thread (the interrupt arrives during the final sleep). *)
Example peer_teardown_with_no_effect_stops :
  option_map
    (fun r => (fst (fst r), snd (fst r), List.length (snd r)))
    (Examples.summary
       (Main.initialize Examples.no_effect 1
          (Examples.script
             (repeat 0 24
              ++ [Examples.no_effect; 0; Examples.no_effect; 0]
              ++ repeat 0 7)%list true true)))
  = Some (0, false, 35%nat).
Proof. vm_compute. reflexivity. Qed.

(** The same run with a v4 stop that fails otherwise (status 5): the
    main thread requests the exit and 5 becomes the status. *)
Example peer_teardown_with_failing_stop :
  option_map
    (fun r => (fst (fst r), snd (fst r), List.length (snd r)))
    (Examples.summary
       (Main.initialize Examples.no_effect 1
          (Examples.script (repeat 0 24 ++ [5])%list true false)))
  = Some (5, true, 34%nat).
Proof. vm_compute. reflexivity. Qed.

(** * Further properties of the embedded code *)

(** ** wds.c: the mask loop on arbitrary masks *)

Section WdsMaskLoop.

Import Wds.

Lemma land_1_testbit (m : Z) : (Z.land m 1 =? 0) = negb (Z.testbit m 0).
Proof.
  change 1 with (Z.ones 1). rewrite Z.land_ones by lia.
  change (2 ^ 1) with 2. rewrite <- Z.bit0_mod.
  destruct (Z.testbit m 0); reflexivity.
Qed.

(** On a mask with some bit set below position [n], the loop stops after
    [k] turns, [k] being the position of the lowest set bit. *)
Lemma subnet_mask_loop_lowest_bit (n : nat) :
  forall mask prefix,
    0 < mask < 2 ^ Z.of_nat n ->
    exists k,
      0 <= k < Z.of_nat n
      /\ subnet_mask_loop n mask prefix = Some (prefix - k)
      /\ Z.testbit mask k = true
      /\ (forall i, 0 <= i < k -> Z.testbit mask i = false).
Proof.
  induction n as [| n IH]; intros mask prefix Hmask.
  - change (2 ^ Z.of_nat 0) with 1 in Hmask. lia.
  - cbn [subnet_mask_loop]. rewrite land_1_testbit.
    destruct (Z.testbit mask 0) eqn:Hbit0; cbn [negb].
    + exists 0. repeat split; try lia.
      * now rewrite Z.sub_0_r.
      * exact Hbit0.
    + assert (Heven : mask = 2 * (mask / 2)).
      { pose proof (Z.bit0_mod mask) as Hmod.
        rewrite Hbit0 in Hmod. cbn [Z.b2z] in Hmod.
        pose proof (Z.div_mod mask 2 ltac:(lia)) as Hdm. lia. }
      rewrite Z.shiftr_div_pow2 by lia. change (2 ^ 1) with 2.
      assert (Hhalf : 0 < mask / 2 < 2 ^ Z.of_nat n).
      { rewrite Nat2Z.inj_succ, Z.pow_succ_r in Hmask by lia. lia. }
      destruct (IH (mask / 2) (prefix - 1) Hhalf)
        as (k & Hk & Hrun & Hset & Hclear).
      exists (k + 1). repeat split; try lia.
      * rewrite Hrun. f_equal. lia.
      * rewrite Heven.
        replace (k + 1) with (Z.succ k) by lia.
        rewrite Z.testbit_even_succ by lia. exact Hset.
      * intros i Hi.
        destruct (Z.eq_dec i 0) as [-> | Hnz]; [ exact Hbit0 | ].
        rewrite Heven.
        replace i with (Z.succ (i - 1)) by lia.
        rewrite Z.testbit_even_succ by lia. apply Hclear. lia.
Qed.

(** X1.  For a v4 session and a successful response carrying the
    gateway and subnet-mask TLVs, any non-zero 32-bit mask, contiguous or
    not, gives a result as soon as the loop has 32 turns available: the
    prefix length is 32 minus the number of trailing zero bits, hence
    between 1 and 32, and the gateway is reported present. *)
Theorem v4_prefix_is_32_minus_trailing_zeros (extra : nat)
    (resp : unpack_wds_SLQSGetRuntimeSettings_t) :
  rs_Tlvresult resp = eQCWWAN_ERR_NONE ->
  swi_uint256_get_bit (rs_ParamPresenceMask resp) 32 = true ->
  swi_uint256_get_bit (rs_ParamPresenceMask resp) 33 = true ->
  0 < SubnetMaskV4 resp < 2 ^ 32 ->
  exists r k,
    mm_wds_get_runtime_settings (32 + extra) AF_INET eQCWWAN_ERR_NONE resp
    = Some r
    /\ rr_status r = eQCWWAN_ERR_NONE
    /\ rr_gateway_present r = true
    /\ prefix_length (rr_settings r) = 32 - k
    /\ 1 <= prefix_length (rr_settings r) <= 32
    /\ Z.testbit (SubnetMaskV4 resp) k = true
    /\ (forall i, 0 <= i < k -> Z.testbit (SubnetMaskV4 resp) i = false).
Proof.
  intros Htlv H32 H33 Hmask.
  destruct (subnet_mask_loop_lowest_bit 32 (SubnetMaskV4 resp) 32 Hmask)
    as (k & Hk & Hloop & Hset & Hclear).
  apply subnet_mask_loop_more_fuel with (extra := extra) in Hloop.
  unfold mm_wds_get_runtime_settings.
  rewrite Htlv, H32, H33, Hloop.
  change (AF_INET =? AF_INET6) with false.
  rewrite !andb_false_r.
  change (Z.of_nat 32) with 32 in Hk.
  destruct (swi_uint256_get_bit (rs_ParamPresenceMask resp) 30);
    eexists; exists k;
    cbn [rr_status rr_gateway_present rr_settings prefix_length
         set_prefix_length];
    repeat split; try assumption; try reflexivity;
    cbn [rr_settings prefix_length set_prefix_length]; lia.
Qed.

End WdsMaskLoop.

(** The non-contiguous mask 255.0.255.0: eight trailing zero bits. *)
Lemma v4_prefix_is_32_minus_trailing_zeros_witness :
  exists r,
    Wds.mm_wds_get_runtime_settings 32 AF_INET eQCWWAN_ERR_NONE
      {| Wds.rs_Tlvresult := 0;
         Wds.rs_ParamPresenceMask := 2 ^ 32 + 2 ^ 33;
         Wds.IPv4 := 0; Wds.GWAddressV4 := 0;
         Wds.SubnetMaskV4 := 0xFF00FF00;
         Wds.IPAddressV6 := []; Wds.IPV6PrefixLen := 0;
         Wds.gwAddressV6 := []; Wds.gwV6PrefixLen := 0 |} = Some r
    /\ Wds.prefix_length (Wds.rr_settings r) = 24.
Proof.
  destruct (v4_prefix_is_32_minus_trailing_zeros 0
              {| Wds.rs_Tlvresult := 0;
                 Wds.rs_ParamPresenceMask := 2 ^ 32 + 2 ^ 33;
                 Wds.IPv4 := 0; Wds.GWAddressV4 := 0;
                 Wds.SubnetMaskV4 := 0xFF00FF00;
                 Wds.IPAddressV6 := []; Wds.IPV6PrefixLen := 0;
                 Wds.gwAddressV6 := []; Wds.gwV6PrefixLen := 0 |})
    as (r & k & Hrun & _ & _ & Hprefix & _ & Hset & Hclear);
    [ reflexivity | reflexivity | reflexivity | simpl; lia | ].
  exists r. split; [ exact Hrun | ].
  injection Hrun as <-. reflexivity.
Defined.

(** ** wds.c: the v6 query and the error paths *)

Section WdsRuntimeSettingsMore.

Import Wds.

(** X2.  For a v6 session the query returns whatever the fuel and the
    response.  A failed transport or a TLV error gives that status with
    zeroed settings and nothing present; a successful response gives
    address and gateway exactly as TLVs 37 and 38 are present, as IPv6
    values, whatever the v4 TLVs of the response hold. *)
Theorem v6_query_ignores_v4_fields (fuel : nat) (send_status : Z)
    (resp : unpack_wds_SLQSGetRuntimeSettings_t) :
  exists r,
    mm_wds_get_runtime_settings fuel AF_INET6 send_status resp = Some r
    /\ (send_status <> eQCWWAN_ERR_NONE ->
        r = {| rr_status := send_status; rr_settings := zero_settings;
               rr_address_present := false; rr_gateway_present := false;
               rr_log := [] |})
    /\ (send_status = eQCWWAN_ERR_NONE ->
        rs_Tlvresult resp <> eQCWWAN_ERR_NONE ->
        r = {| rr_status := rs_Tlvresult resp; rr_settings := zero_settings;
               rr_address_present := false; rr_gateway_present := false;
               rr_log := [] |})
    /\ (send_status = eQCWWAN_ERR_NONE ->
        rs_Tlvresult resp = eQCWWAN_ERR_NONE ->
        rr_status r = eQCWWAN_ERR_NONE
        /\ rr_address_present r
           = swi_uint256_get_bit (rs_ParamPresenceMask resp) 37
        /\ rr_gateway_present r
           = swi_uint256_get_bit (rs_ParamPresenceMask resp) 38
        /\ address (rr_settings r)
           = (if swi_uint256_get_bit (rs_ParamPresenceMask resp) 37
              then addr_in6 (map ntohs (firstn 8 (IPAddressV6 resp)))
              else addr_zero)
        /\ gateway (rr_settings r)
           = (if swi_uint256_get_bit (rs_ParamPresenceMask resp) 38
              then addr_in6 (map ntohs (firstn 8 (gwAddressV6 resp)))
              else addr_zero)).
Proof.
  unfold mm_wds_get_runtime_settings.
  change (AF_INET6 =? AF_INET) with false.
  change (AF_INET6 =? AF_INET6) with true.
  rewrite !andb_false_r, !andb_true_r.
  destruct (Z.eqb_spec send_status eQCWWAN_ERR_NONE) as [Hsend | Hsend];
    cbn [negb].
  - destruct (Z.eqb_spec (rs_Tlvresult resp) eQCWWAN_ERR_NONE)
      as [Htlv | Htlv]; cbn [negb].
    + destruct (swi_uint256_get_bit (rs_ParamPresenceMask resp) 37),
               (swi_uint256_get_bit (rs_ParamPresenceMask resp) 38);
        cbn [set_gateway set_address set_prefix_length prefix_length
             address gateway zero_settings];
        match goal with
        | |- context [if ?b then _ else _] => destruct b
        | _ => idtac
        end;
        eexists; (split; [ reflexivity | ]);
        repeat split; intros; try reflexivity; try contradiction;
        try assumption.
    + eexists. split; [ reflexivity | ].
      repeat split; intros; try reflexivity; contradiction.
  - eexists. split; [ reflexivity | ].
    repeat split; intros; try reflexivity; contradiction.
Qed.

End WdsRuntimeSettingsMore.

Lemma v6_query_ignores_v4_fields_witness :
  exists r,
    Wds.mm_wds_get_runtime_settings 0 AF_INET6 eQCWWAN_ERR_NONE
      {| Wds.rs_Tlvresult := 0;
         Wds.rs_ParamPresenceMask := 2 ^ 30 + 2 ^ 32 + 2 ^ 33 + 2 ^ 38;
         Wds.IPv4 := 0x0a000002; Wds.GWAddressV4 := 0x0a000001;
         Wds.SubnetMaskV4 := 0;
         Wds.IPAddressV6 := []; Wds.IPV6PrefixLen := 0;
         Wds.gwAddressV6 := [0x0120; 0xb80d; 0; 0; 0; 0; 0; 0x0100];
         Wds.gwV6PrefixLen := 64 |} = Some r
    /\ Wds.rr_address_present r = false
    /\ Wds.rr_gateway_present r = true
    /\ Wds.address (Wds.rr_settings r) = Wds.addr_zero.
Proof.
  destruct (v6_query_ignores_v4_fields 0 eQCWWAN_ERR_NONE
              {| Wds.rs_Tlvresult := 0;
                 Wds.rs_ParamPresenceMask := 2 ^ 30 + 2 ^ 32 + 2 ^ 33 + 2 ^ 38;
                 Wds.IPv4 := 0x0a000002; Wds.GWAddressV4 := 0x0a000001;
                 Wds.SubnetMaskV4 := 0;
                 Wds.IPAddressV6 := []; Wds.IPV6PrefixLen := 0;
                 Wds.gwAddressV6 := [0x0120; 0xb80d; 0; 0; 0; 0; 0; 0x0100];
                 Wds.gwV6PrefixLen := 64 |})
    as (r & Hrun & _ & _ & Hok).
  destruct (Hok eq_refl eq_refl) as (_ & Ha & Hg & Haddr & _).
  exists r. repeat split; assumption.
Defined.

(** ** wds.c: the indication callback *)

Section WdsIndicationMore.

Import Wds.

(** X3.  The callback never clears teardown_requested: a session whose
    flag is set comes back unchanged from every indication. *)
Theorem callback_keeps_teardown_requested (ind : wds_indication)
    (s : mm_wds_session) :
  teardown_requested s = true ->
  exists log, wds_indication_callback ind (Some s) = cb_return (Some s) log.
Proof.
  intros Hset.
  destruct (callback_with_session ind s) as [log Hrun].
  exists log. rewrite Hrun.
  replace (set_teardown_requested s) with s
    by (destruct s; cbn in Hset; subst; reflexivity).
  now destruct (_ && _).
Qed.

(** X4.  With a null context (the attach made for the autoconnect
    setup), the callback dereferences the null pointer exactly when the
    indication unpacks cleanly and carries an end-reason TLV (16 or 17);
    in every other case it returns with nothing changed. *)
Theorem null_context_dereference (ind : wds_indication) :
  (wds_indication_callback ind None = cb_null_dereference <->
   unpacked_ok ind = true
   /\ (swi_uint256_get_bit (ps_ParamPresenceMask (packet_srv_status ind)) 16
       || swi_uint256_get_bit (ps_ParamPresenceMask (packet_srv_status ind)) 17
       = true))
  /\ (wds_indication_callback ind None <> cb_null_dereference ->
      exists log, wds_indication_callback ind None = cb_return None log).
Proof.
  unfold wds_indication_callback, unpacked_ok.
  destruct (msgid ind).
  - destruct (unpack_status ind =? eQCWWAN_ERR_NONE); cbn [negb andb].
    + destruct (nonzero (ps_Tlvresult (packet_srv_status ind)));
        cbn [negb andb].
      * split; [ split; [ discriminate | intros [? _]; discriminate ] | ].
        intros _; eexists; reflexivity.
      * destruct (swi_uint256_get_bit
                    (ps_ParamPresenceMask (packet_srv_status ind)) 1);
          cbn [negb].
        -- unfold report_indication, read_indication, teardown_guard.
           cbn [reason_present verbose_reason_present].
           destruct (swi_uint256_get_bit
                       (ps_ParamPresenceMask (packet_srv_status ind)) 16),
                    (swi_uint256_get_bit
                       (ps_ParamPresenceMask (packet_srv_status ind)) 17);
             cbn [orb];
             (split;
              [ split; [ try discriminate; intros _; split; reflexivity
                       | try reflexivity; intros [_ ?]; discriminate ]
              | intros Hne; try (exfalso; apply Hne; reflexivity);
                eexists; reflexivity ]).
        -- split; [ split; [ discriminate | intros [? _]; discriminate ] | ].
           intros _; eexists; reflexivity.
    + split; [ split; [ discriminate | intros [? _]; discriminate ] | ].
      intros _; eexists; reflexivity.
  - split; [ split; [ discriminate | intros [? _]; discriminate ] | ].
    intros _; eexists; reflexivity.
Qed.

Lemma status_label_cases (c : Z) :
  0 <= c < 256 ->
  c = 0 \/ c = 1 \/ c = 2 \/ c = 3 \/ c = 4 \/ 4 < c.
Proof. lia. Qed.

(** X5.  For every 8-bit connection status, the label printed is
    "DISCONNECTED" exactly for the value 1, the value the teardown test
    compares against; so an indication that requests teardown is always
    reported as DISCONNECTED. *)
Theorem disconnected_label_matches_filter (l : indication_locals)
    (session : option mm_wds_session) :
  0 <= connection_status l < 256 ->
  (get_connection_status_string (connection_status l) = "DISCONNECTED"
   <-> connection_status l = 1)
  /\ (teardown_guard l session = true ->
      get_connection_status_string (connection_status l) = "DISCONNECTED").
Proof.
  intros Hrange.
  assert (Hlabel :
    get_connection_status_string (connection_status l) = "DISCONNECTED"
    <-> connection_status l = 1).
  { unfold get_connection_status_string.
    destruct (status_label_cases _ Hrange)
      as [H | [H | [H | [H | [H | H]]]]];
      try (rewrite H; cbn; split; [ try discriminate; reflexivity
                                  | try discriminate; reflexivity ]).
    cbv zeta.
    change (Z.of_nat (List.length ["DISCONNECTED"; "CONNECTED"; "SUSPENDED";
                                   "AUTHENTICATING"])) with 4.
    destruct (Z.eqb_spec (connection_status l) 0); [ lia | ].
    apply Z.ltb_lt in H. rewrite H. cbn [orb].
    split; [ discriminate | apply Z.ltb_lt in H; lia ]. }
  split; [ exact Hlabel | ].
  intros Hguard. apply Hlabel.
  unfold teardown_guard in Hguard. destruct session; [ | discriminate ].
  apply andb_true_iff in Hguard. destruct Hguard as [Hguard _].
  apply andb_true_iff in Hguard. destruct Hguard as [_ Hone].
  now apply Z.eqb_eq.
Qed.

End WdsIndicationMore.

Lemma callback_keeps_teardown_requested_witness :
  exists log,
    Wds.wds_indication_callback (Examples.ind_disconnected_reason 2)
      (Some (Wds.set_teardown_requested Examples.session_started))
    = Wds.cb_return
        (Some (Wds.set_teardown_requested Examples.session_started)) log.
Proof.
  apply (callback_keeps_teardown_requested
           (Examples.ind_disconnected_reason 2)
           (Wds.set_teardown_requested Examples.session_started)).
  reflexivity.
Defined.

Lemma disconnected_label_matches_filter_witness :
  Wds.get_connection_status_string 1 = "DISCONNECTED".
Proof.
  apply (disconnected_label_matches_filter
           (Wds.read_indication
              (Wds.packet_srv_status Examples.ind_disconnected))
           (Some Examples.session_started)).
  - cbn. lia.
  - reflexivity.
Defined.

(** ** dms.c: SetPower against an arbitrary modem *)

Section DmsPowerMore.

Import Dms.

Context {M : Type} `{DmsModem M}.

Variable eQCWWAN_ERR_GENERAL : Z.

(** X6.  Whatever the modem answers, SetPower sends GetPower, or
    GetPower and SetPower (requested), or these two and a second
    GetPower, and nothing else.  A success with a resulting mode other
    than the requested one happens only on the path that skips the write
    because the modem reported a hardware-controlled mode; an error comes
    with resulting_mode INVALID, except GENERAL after a read-back that
    differs from the request. *)
Theorem set_power_sync_outcomes (requested_mode : Z) (dms : dms_service M) :
  eQCWWAN_ERR_GENERAL <> eQCWWAN_ERR_NONE ->
  exists status mode dms',
    mm_dms_set_power_sync eQCWWAN_ERR_GENERAL requested_mode dms
    = (status, mode, dms')
    /\ (sent dms' = sent dms ++ [pack_dms_GetPower]
        \/ sent dms'
           = sent dms ++ [pack_dms_GetPower; pack_dms_SetPower requested_mode]
        \/ sent dms'
           = sent dms ++ [pack_dms_GetPower; pack_dms_SetPower requested_mode;
                          pack_dms_GetPower])
    /\ (status = eQCWWAN_ERR_NONE ->
        mode = requested_mode
        \/ (mm_dms_get_power_sync dms = (eQCWWAN_ERR_NONE, mode, true, dms')
            /\ sent dms' = sent dms ++ [pack_dms_GetPower]))
    /\ (status <> eQCWWAN_ERR_NONE ->
        mode = MM_DMS_OPERATION_MODE_INVALID
        \/ (status = eQCWWAN_ERR_GENERAL /\ mode <> requested_mode)).
Proof.
  intros Hgeneral. unfold mm_dms_set_power_sync.
  destruct (mm_dms_get_power_sync dms) as [[[st cur] hw] dms1] eqn:Hread.
  pose proof (get_power_sends_one _ _ _ _ _ Hread) as Hsent1.
  destruct (Z.eqb_spec st eQCWWAN_ERR_NONE) as [Hst | Hst]; cbn [negb].
  - subst st.
    destruct (Z.eqb_spec cur requested_mode) as [Hcur | Hcur]; cbn [orb].
    + do 3 eexists. split; [ reflexivity | ].
      repeat split; intros; auto; contradiction.
    + destruct hw.
      * do 3 eexists. split; [ reflexivity | ].
        repeat split; intros; auto; contradiction.
      * destruct (send_SetPower requested_mode dms1)
          as [[st2 resp] dms2] eqn:Hset.
        pose proof (set_power_sends_one _ _ _ _ _ Hset) as Hsent2.
        assert (Hsent12 :
          sent dms2
          = sent dms ++ [pack_dms_GetPower; pack_dms_SetPower requested_mode])
          by (rewrite Hsent2, Hsent1; now rewrite <- app_assoc).
        destruct (Z.eqb_spec st2 eQCWWAN_ERR_NONE) as [Hst2 | Hst2].
        -- destruct (Z.eqb_spec (sp_Tlvresult resp) eQCWWAN_ERR_NONE)
             as [Htlv | Htlv]; cbn [negb].
           ++ destruct (mm_dms_get_power_sync dms2)
                as [[[st3 back] hw3] dms3] eqn:Hback.
              pose proof (get_power_sends_one _ _ _ _ _ Hback) as Hsent3.
              assert (Hsent123 :
                sent dms3
                = sent dms ++ [pack_dms_GetPower;
                               pack_dms_SetPower requested_mode;
                               pack_dms_GetPower])
                by (rewrite Hsent3, Hsent12; now rewrite <- app_assoc).
              destruct (Z.eqb_spec st3 eQCWWAN_ERR_NONE) as [Hst3 | Hst3];
                cbn [negb].
              ** destruct (Z.eqb_spec back requested_mode) as [Hb | Hb];
                   cbn [negb]; do 3 eexists; (split; [ reflexivity | ]);
                   repeat split; intros; auto; try contradiction; congruence.
              ** do 3 eexists. split; [ reflexivity | ].
                 repeat split; intros; auto; contradiction.
           ++ do 3 eexists. split; [ reflexivity | ].
              repeat split; intros; auto; contradiction.
        -- do 3 eexists. split; [ reflexivity | ].
           repeat split; intros; auto; contradiction.
  - do 3 eexists. split; [ reflexivity | ].
    repeat split; intros; auto; contradiction.
Qed.

End DmsPowerMore.

(** The hardware-locked modem: success, low power, one request. *)
Lemma set_power_sync_outcomes_witness :
  exists status mode dms',
    Dms.mm_dms_set_power_sync 1 Dms.MM_DMS_OPERATION_MODE_ONLINE
      (Examples.toy_dms Dms.MM_DMS_OPERATION_MODE_LOW_POWER true true)
    = (status, mode, dms')
    /\ (status = eQCWWAN_ERR_NONE ->
        mode = Dms.MM_DMS_OPERATION_MODE_ONLINE
        \/ Dms.sent dms' = [Dms.pack_dms_GetPower]).
Proof.
  destruct (set_power_sync_outcomes 1 Dms.MM_DMS_OPERATION_MODE_ONLINE
              (Examples.toy_dms Dms.MM_DMS_OPERATION_MODE_LOW_POWER true true))
    as (status & mode & dms' & Hrun & _ & Hok & _); [ discriminate | ].
  exists status, mode, dms'. split; [ exact Hrun | ].
  intros Hstatus. destruct (Hok Hstatus) as [Hmode | [_ Hsent]];
    [ left; exact Hmode | right; exact Hsent ].
Defined.

(** ** netlink.c: the enumeration buffer *)

Section NetlinkEnumeration.

Import Netlink NetlinkMore.

Lemma collect_step (seen : list rtnl_addr) (addrs : mm_netlink_addrs)
    (a : rtnl_addr) :
  holds seen addrs ->
  holds (seen ++ filter (fun a => negb (a_scope a =? RT_SCOPE_LINK)) [a])
        (collect_nonlink_addrs a addrs).
Proof.
  intros (Hcount & Hlist & Halloc).
  unfold collect_nonlink_addrs. cbn [filter].
  destruct (a_scope a =? RT_SCOPE_LINK); cbn [negb].
  - rewrite app_nil_r. now repeat split.
  - assert (Hlen : (List.length (addrs_list addrs)
                    = Nat.min 126 (List.length seen))%nat)
      by (rewrite Hlist; apply length_firstn).
    unfold holds. rewrite firstn_app, length_app. cbn [List.length].
    destruct (Z.ltb_spec (allocated addrs) MAX_NETLINK_ADDRS) as [Hlt | Hge];
      cbn [addrs_list count allocated]; unfold MAX_NETLINK_ADDRS in *.
    + assert (Hshort : (List.length seen < 126)%nat) by lia.
      change (Z.to_nat 126) with 126%nat in *.
      rewrite firstn_all2 in Hlist by lia.
      rewrite (firstn_all2 seen) by lia.
      replace (126 - List.length seen)%nat
        with (S (125 - List.length seen)) by lia.
      cbn [firstn]. rewrite firstn_nil.
      rewrite Hlist, length_app. cbn [List.length].
      repeat split; lia.
    + assert (Hfull : (126 <= List.length seen)%nat) by lia.
      change (Z.to_nat 126) with 126%nat in *.
      replace (126 - List.length seen)%nat with 0%nat by lia.
      cbn [firstn]. rewrite app_nil_r.
      repeat split; try assumption; lia.
Qed.

Lemma collect_fold (l : list rtnl_addr) :
  forall seen addrs,
    holds seen addrs ->
    holds (seen ++ filter (fun a => negb (a_scope a =? RT_SCOPE_LINK)) l)
          (fold_left (fun d a => collect_nonlink_addrs a d) l addrs).
Proof.
  induction l as [| a l IH]; intros seen addrs Hinv; cbn [fold_left].
  - cbn [filter]. now rewrite app_nil_r.
  - apply (collect_step seen addrs a) in Hinv.
    apply IH in Hinv. rewrite <- app_assoc in Hinv.
    change (a :: l) with ([a] ++ l). now rewrite filter_app.
Qed.

Lemma dump_wwan_addrs_buffer (mm_nl : mm_netlink) (family : Z) :
  count (dump_wwan_addrs mm_nl family)
  = Z.of_nat (List.length (on_wwan mm_nl family))
  /\ addrs_list (dump_wwan_addrs mm_nl family)
     = firstn 126 (on_wwan mm_nl family)
  /\ allocated (dump_wwan_addrs mm_nl family)
     = Z.of_nat (List.length (addrs_list (dump_wwan_addrs mm_nl family)))
  /\ allocated (dump_wwan_addrs mm_nl family)
     = Z.min (count (dump_wwan_addrs mm_nl family)) MAX_NETLINK_ADDRS.
Proof.
  assert (Hinv : holds (on_wwan mm_nl family) (dump_wwan_addrs mm_nl family)).
  { unfold dump_wwan_addrs, nl_cache_foreach_filter, on_wwan.
    apply (collect_fold _ [] {| addrs_list := []; count := 0; allocated := 0 |}).
    repeat split. }
  destruct Hinv as (Hcount & Hlist & Halloc).
  change (Z.to_nat MAX_NETLINK_ADDRS) with 126%nat in Hlist.
  repeat split; try assumption.
  rewrite Halloc, Hcount, Hlist, length_firstn. unfold MAX_NETLINK_ADDRS. lia.
Qed.

(** X7.  The enumeration never writes past the 126 slots: after a dump,
    [count] is the number of non-link-scope addresses of the family on
    the wwan interface, the buffer holds the first 126 of them in cache
    order, and [allocated] is the smaller of [count] and 126. *)
Theorem dump_keeps_first_126 (mm_nl : mm_netlink) (family : Z) :
  count (dump_wwan_addrs mm_nl family)
  = Z.of_nat (List.length (on_wwan mm_nl family))
  /\ addrs_list (dump_wwan_addrs mm_nl family)
     = firstn 126 (on_wwan mm_nl family)
  /\ allocated (dump_wwan_addrs mm_nl family)
     = Z.of_nat (List.length (addrs_list (dump_wwan_addrs mm_nl family)))
  /\ allocated (dump_wwan_addrs mm_nl family)
     = Z.min (count (dump_wwan_addrs mm_nl family)) MAX_NETLINK_ADDRS.
Proof. exact (dump_wwan_addrs_buffer mm_nl family). Qed.

End NetlinkEnumeration.

(** ** netlink.c: what is submitted to the kernel *)

Section NetlinkRequests.

Import Netlink NetlinkMore.

Lemma remove_stale_submitted (address prefix_length : Z)
    (l : list rtnl_addr) :
  forall status found log (k : recording_kernel),
    exists status' log' k',
      fold_left (remove_stale address prefix_length) l
        (status, found, log, k)
      = (status', found || existsb (is_target address prefix_length) l,
         log', k')
      /\ submitted k'
         = submitted k
           ++ map req_addr_delete
                (filter (fun a => negb (is_target address prefix_length a)) l)
      /\ verdict k' = verdict k
      /\ refilled k' = refilled k.
Proof.
  induction l as [| a l IH]; intros status found log k;
    cbn [fold_left existsb filter map].
  - do 3 eexists. rewrite orb_false_r, app_nil_r. repeat split.
  - unfold remove_stale at 2.
    destruct (is_target address prefix_length a); cbn [negb orb].
    + destruct (IH status true log k) as (s' & l' & k' & Hrun & Hsub & Hv & Hr).
      do 3 eexists. rewrite orb_true_r. cbn [orb] in Hrun.
      split; [ exact Hrun | now repeat split ].
    + cbn [rtnl_addr_delete recording_rtnl submit].
      match goal with
      | |- context [fold_left _ l (?s1, found, ?l1, ?k1)] =>
          destruct (IH s1 found l1 k1) as (s' & l' & k' & Hrun & Hsub & Hv & Hr)
      end.
      do 3 eexists. split; [ exact Hrun | ].
      cbn [submitted verdict refilled] in Hsub, Hv, Hr.
      rewrite Hsub, <- app_assoc. cbn [map app]. now repeat split.
Qed.

(** X8.  EnsureV4ConfigurationIsApplied submits, in this order: one
    delete for every enumerated address that is not the target, in cache
    order and going on after a failed delete; one add of the target if
    and only if no enumerated address is the target; and at most one
    default-route request, which is present whenever the call returns 0.
    The target itself is never deleted. *)
Theorem ensure_v4_requests (mm_nl : mm_netlink)
    (address prefix_length gateway_address : Z) (k : recording_kernel) :
  exists status log k' route,
    mm_netlink_ensure_v4_configuration_is_applied mm_nl address prefix_length
      gateway_address k = (status, log, k')
    /\ submitted k'
       = submitted k
         ++ map req_addr_delete
              (filter (fun a => negb (is_target address prefix_length a))
                 (firstn 126 (on_wwan mm_nl AF_INET)))
         ++ (if existsb (is_target address prefix_length)
                  (firstn 126 (on_wwan mm_nl AF_INET))
             then [] else [req_addr_add address prefix_length])
         ++ route
    /\ (route = [] \/ route = [req_route_add address gateway_address])
    /\ (status = 0 -> route = [req_route_add address gateway_address])
    /\ (route = [] -> status <> 0).
Proof.
  unfold mm_netlink_ensure_v4_configuration_is_applied.
  destruct (dump_wwan_addrs_buffer mm_nl AF_INET) as (_ & Hlist & Halloc & _).
  assert (Hkept :
    firstn (Z.to_nat (allocated (dump_wwan_addrs mm_nl AF_INET)))
      (addrs_list (dump_wwan_addrs mm_nl AF_INET))
    = firstn 126 (on_wwan mm_nl AF_INET)).
  { rewrite Halloc, Nat2Z.id, firstn_all. exact Hlist. }
  rewrite Hkept.
  destruct (allocated (dump_wwan_addrs mm_nl AF_INET)
            <? count (dump_wwan_addrs mm_nl AF_INET));
    match goal with
    | |- context [fold_left _ _ (?s0, false, ?l0, k)] =>
        destruct (remove_stale_submitted address prefix_length
                    (firstn 126 (on_wwan mm_nl AF_INET)) s0 false l0 k)
          as (s1 & l1 & k1 & Hrun & Hsub & _)
    end;
    rewrite Hrun; cbn [orb];
    unfold mm_netlink_add_v4_address, mm_netlink_change_v4_default_gateway;
    cbn [rtnl_addr_add rtnl_route_add recording_rtnl submit];
    destruct (existsb (is_target address prefix_length)
                (firstn 126 (on_wwan mm_nl AF_INET))); cbn [negb];
    match goal with
    | |- context [if negb (nonzero ?s) then _ else _] =>
        destruct (nonzero s) eqn:Hs; cbn [negb];
        [ do 3 eexists; exists []; apply nonzero_true in Hs
        | do 3 eexists; exists [req_route_add address gateway_address] ]
    end;
    (split; [ reflexivity | ]);
    (split;
     [ cbn [submitted]; rewrite ?Hsub; repeat rewrite <- app_assoc;
       cbn [app]; rewrite ?app_nil_r; reflexivity
     | repeat split; auto; try discriminate; intros; contradiction ]).
Qed.

End NetlinkRequests.

Section NetlinkFlush.

Import Netlink NetlinkMore.

Lemma delete_each_submitted (l : list rtnl_addr) :
  forall status log (k : recording_kernel),
    exists status' log' k',
      fold_left delete_each l (status, log, k) = (status', log', k')
      /\ submitted k' = submitted k ++ map req_addr_delete l
      /\ verdict k' = verdict k
      /\ (l = [] -> status' = status)
      /\ (forall l0 a,
            l = l0 ++ [a] ->
            status' = verdict k (submitted k ++ map req_addr_delete l0)
                        (req_addr_delete a)).
Proof.
  induction l as [| a l IH]; intros status log k; cbn [fold_left map].
  - do 3 eexists. split; [ reflexivity | ]. rewrite app_nil_r.
    repeat split; auto.
    intros l0 a Habs. destruct l0; discriminate.
  - unfold delete_each at 2.
    cbn [rtnl_addr_delete recording_rtnl submit].
    match goal with
    | |- context [fold_left _ l (?s1, ?l1, ?k1)] =>
        destruct (IH s1 l1 k1) as (s' & l' & k' & Hrun & Hsub & Hv & Hnil & Hlast)
    end.
    cbn [submitted verdict] in Hsub, Hv, Hlast.
    do 3 eexists. split; [ exact Hrun | ].
    split; [ rewrite Hsub, <- app_assoc; reflexivity | ].
    split; [ exact Hv | ].
    split; [ discriminate | ].
    intros l0 b Hsplit.
    destruct l0 as [| c l0].
    + cbn [app] in Hsplit. injection Hsplit as -> ->.
      rewrite (Hnil eq_refl). cbn [map]. now rewrite app_nil_r.
    + cbn [app] in Hsplit. injection Hsplit as -> ->.
      rewrite (Hlast l0 b eq_refl). cbn [map].
      now rewrite <- app_assoc.
Qed.

(** X9.  FlushAddresses first refills the address cache; if that fails
    it returns the status and deletes nothing.  Otherwise it submits one
    delete for each of the first 126 non-link-scope addresses on the wwan
    interface, v4 before v6, and returns the status of the last delete
    alone: an overflow of the buffer or an earlier failed delete does not
    show in the result.  With nothing to delete it returns 0. *)
Theorem addr_flush_requests (mm_nl : mm_netlink) (k : recording_kernel) :
  exists status log k',
    mm_netlink_addr_flush mm_nl k
    = (status, log,
       {| addr_cache := refilled k (submitted k);
          wwan_ifindex := wwan_ifindex mm_nl |}, k')
    /\ (verdict k (submitted k) req_cache_refill <> 0 ->
        status = verdict k (submitted k) req_cache_refill
        /\ submitted k' = submitted k ++ [req_cache_refill])
    /\ (verdict k (submitted k) req_cache_refill = 0 ->
        forall flushed,
          flushed
          = firstn 126
              (on_wwan {| addr_cache := refilled k (submitted k);
                          wwan_ifindex := wwan_ifindex mm_nl |} AF_INET
               ++ on_wwan {| addr_cache := refilled k (submitted k);
                             wwan_ifindex := wwan_ifindex mm_nl |} AF_INET6) ->
          submitted k'
          = submitted k ++ req_cache_refill :: map req_addr_delete flushed
          /\ (flushed = [] -> status = 0)
          /\ (forall l0 a,
                flushed = l0 ++ [a] ->
                status
                = verdict k
                    (submitted k ++ req_cache_refill :: map req_addr_delete l0)
                    (req_addr_delete a))).
Proof.
  unfold mm_netlink_addr_flush, mm_netlink_reload_address_cache.
  cbn [nl_cache_refill recording_cache submit].
  set (mm_nl1 := {| addr_cache := refilled k (submitted k);
                    wwan_ifindex := wwan_ifindex mm_nl |}).
  destruct (nonzero (verdict k (submitted k) req_cache_refill)) eqn:Hrefill.
  - apply nonzero_true in Hrefill.
    do 3 eexists. split; [ reflexivity | ]. cbn [submitted].
    split; [ intros _; split; reflexivity | intros Habs; contradiction ].
  - apply nonzero_false in Hrefill.
    set (addrs := nl_cache_foreach_filter (addr_cache mm_nl1) AF_INET6
                    (wwan_ifindex mm_nl1) collect_nonlink_addrs
                    (dump_wwan_addrs mm_nl1 AF_INET)).
    assert (Hinv : holds (on_wwan mm_nl1 AF_INET ++ on_wwan mm_nl1 AF_INET6)
                     addrs).
    { unfold addrs, nl_cache_foreach_filter.
      apply collect_fold.
      destruct (dump_wwan_addrs_buffer mm_nl1 AF_INET) as (Hc & Hl & Ha & _).
      repeat split; assumption. }
    destruct Hinv as (Hcount & Hlist & Halloc).
    change (Z.to_nat MAX_NETLINK_ADDRS) with 126%nat in Hlist.
    assert (Hkept :
      firstn (Z.to_nat (allocated addrs)) (addrs_list addrs)
      = firstn 126 (on_wwan mm_nl1 AF_INET ++ on_wwan mm_nl1 AF_INET6)).
    { rewrite Halloc, Nat2Z.id, firstn_all. exact Hlist. }
    rewrite Hkept.
    destruct (Z.ltb_spec (allocated addrs) (count addrs)) as [Hover | Hfit];
      match goal with
      | |- context [fold_left delete_each ?l (?s0, ?l0, ?k0)] =>
          destruct (delete_each_submitted l s0 l0 k0)
            as (s' & l' & k' & Hrun & Hsub & Hv & Hnil & Hlast)
      end;
      rewrite Hrun; cbn [submitted verdict] in Hsub, Hlast;
      do 3 eexists; (split; [ reflexivity | ]);
      (split; [ intros Habs; contradiction | ]);
      intros _ flushed ->;
      (split; [ rewrite Hsub, <- app_assoc; reflexivity | ]);
      (split;
       [ intros Hempty
       | intros l0 a Hsplit; rewrite (Hlast l0 a Hsplit), <- app_assoc;
         reflexivity ]).
    + (* an overflow means at least 126 addresses were kept *)
      exfalso.
      assert (Hlen : List.length
                       (firstn 126 (on_wwan mm_nl1 AF_INET
                                    ++ on_wwan mm_nl1 AF_INET6)) = 0%nat)
        by (rewrite Hempty; reflexivity).
      rewrite length_firstn in Hlen.
      rewrite Hlist, length_firstn in Halloc. lia.
    + rewrite (Hnil Hempty). exact Hrefill.
Qed.

(** Cutting a short list of requests at one of its elements. *)
Ltac each_request Hsplit :=
  match type of Hsplit with
  | _ = ?b ++ _ :: _ =>
      repeat (destruct b as [ | ? b ]; cbn [app] in Hsplit;
              [ injection Hsplit as <- <-
              | injection Hsplit as <- Hsplit ]);
      try (destruct b; discriminate Hsplit)
  end.

(** X10.  mm_apply_ipv4_runtime_settings works through its plan (cache
    refill if asked, address add, default-route request) in order and
    stops at the first request that fails, returning its status: every
    request submitted before it was accepted and nothing is submitted
    after it.  It returns 0 exactly when the whole plan was submitted
    and every request of it was accepted. *)
Theorem apply_ipv4_stops_at_first_failure (mm_nl : mm_netlink)
    (address gateway prefix_length : Z) (refresh : bool)
    (k : recording_kernel) :
  exists status mm_nl' k' done,
    mm_apply_ipv4_runtime_settings mm_nl address gateway prefix_length
      refresh k = (status, mm_nl', k')
    /\ submitted k' = submitted k ++ done
    /\ (status = 0 <->
        done = (if refresh then [req_cache_refill] else [])
               ++ [req_addr_add address prefix_length;
                   req_route_add address gateway]
        /\ forall before r after,
             (if refresh then [req_cache_refill] else [])
             ++ [req_addr_add address prefix_length;
                 req_route_add address gateway]
             = before ++ r :: after ->
             verdict k (submitted k ++ before) r = 0)
    /\ (status <> 0 ->
        exists before r after,
          (if refresh then [req_cache_refill] else [])
          ++ [req_addr_add address prefix_length;
              req_route_add address gateway]
          = before ++ r :: after
          /\ done = before ++ [r]
          /\ status = verdict k (submitted k ++ before) r
          /\ forall accepted r' rest,
               before = accepted ++ r' :: rest ->
               verdict k (submitted k ++ accepted) r' = 0).
Proof.
  unfold mm_apply_ipv4_runtime_settings, mm_netlink_reload_address_cache,
    mm_netlink_add_v4_address, mm_netlink_change_v4_default_gateway.
  cbn [nl_cache_refill recording_cache rtnl_addr_add rtnl_route_add
       recording_rtnl submit].
  unfold eQCWWAN_ERR_NONE.
  destruct refresh.
  - destruct (Z.eqb_spec (verdict k (submitted k) req_cache_refill) 0)
      as [H1 | H1]; cbn [negb submitted verdict].
    + destruct (Z.eqb_spec
                  (verdict k (submitted k ++ [req_cache_refill])
                     (req_addr_add address prefix_length)) 0)
        as [H2 | H2]; cbn [negb submitted verdict].
      * destruct (Z.eqb_spec
                    (verdict k
                       ((submitted k ++ [req_cache_refill])
                        ++ [req_addr_add address prefix_length])
                       (req_route_add address gateway)) 0)
          as [H3 | H3]; cbn [negb submitted verdict];
          pose proof H3 as H3';
          rewrite <- app_assoc in H3'; cbn [app] in H3';
          do 3 eexists;
          exists [req_cache_refill; req_addr_add address prefix_length;
                  req_route_add address gateway];
          (split; [ reflexivity | ]); cbn [submitted];
          (split; [ now rewrite <- !app_assoc | ]).
        -- split; [ split; [ intros _; split; [ reflexivity | ]
                           | reflexivity ]
                  | intros Hnz; contradiction ].
           intros before r after Hsplit. cbn [app] in Hsplit.
           each_request Hsplit; rewrite ?app_nil_r; assumption.
        -- split; [ split; [ intros Hz; contradiction | intros [_ Hall] ] | ].
           ++ exfalso. apply H3'.
              apply (Hall [req_cache_refill;
                           req_addr_add address prefix_length] _ []).
              reflexivity.
           ++ intros _.
              exists [req_cache_refill; req_addr_add address prefix_length],
                     (req_route_add address gateway), [].
              repeat split; [ now rewrite <- app_assoc | ].
              intros accepted r' rest Hsplit.
              each_request Hsplit; rewrite ?app_nil_r; assumption.
      * do 3 eexists.
        exists [req_cache_refill; req_addr_add address prefix_length].
        split; [ reflexivity | ]. cbn [submitted].
        split; [ now rewrite <- !app_assoc | ].
        split; [ split; [ intros Hz; contradiction
                        | intros [Hdone _]; discriminate Hdone ] | ].
        intros _.
        exists [req_cache_refill], (req_addr_add address prefix_length),
               [req_route_add address gateway].
        repeat split.
        intros accepted r' rest Hsplit.
        each_request Hsplit; rewrite ?app_nil_r; assumption.
    + do 3 eexists. exists [req_cache_refill].
      split; [ reflexivity | ]. cbn [submitted].
      split; [ reflexivity | ].
      split; [ split; [ intros Hz; contradiction
                      | intros [Hdone _]; discriminate Hdone ] | ].
      intros _.
      exists [], req_cache_refill,
             [req_addr_add address prefix_length;
              req_route_add address gateway].
      repeat split; [ now rewrite app_nil_r | ].
      intros accepted r' rest Hsplit. destruct accepted; discriminate.
  - cbn [Z.eqb negb].
    destruct (Z.eqb_spec
                (verdict k (submitted k) (req_addr_add address prefix_length)) 0)
      as [H2 | H2]; cbn [negb submitted verdict].
    + destruct (Z.eqb_spec
                  (verdict k
                     (submitted k ++ [req_addr_add address prefix_length])
                     (req_route_add address gateway)) 0)
        as [H3 | H3]; cbn [negb submitted verdict];
        do 3 eexists;
        exists [req_addr_add address prefix_length;
                req_route_add address gateway];
        (split; [ reflexivity | ]); cbn [submitted];
        (split; [ now rewrite <- !app_assoc | ]).
      * split; [ split; [ intros _; split; [ reflexivity | ]
                        | reflexivity ]
               | intros Hnz; contradiction ].
        intros before r after Hsplit. cbn [app] in Hsplit.
        each_request Hsplit; rewrite ?app_nil_r; assumption.
      * split; [ split; [ intros Hz; contradiction | intros [_ Hall] ] | ].
        -- exfalso. apply H3.
           apply (Hall [req_addr_add address prefix_length] _ []).
           reflexivity.
        -- intros _.
           exists [req_addr_add address prefix_length],
                  (req_route_add address gateway), [].
           repeat split.
           intros accepted r' rest Hsplit.
           each_request Hsplit; rewrite ?app_nil_r; assumption.
    + do 3 eexists. exists [req_addr_add address prefix_length].
      split; [ reflexivity | ]. cbn [submitted].
      split; [ reflexivity | ].
      split; [ split; [ intros Hz; contradiction
                      | intros [Hdone _]; discriminate Hdone ] | ].
      intros _.
      exists [], (req_addr_add address prefix_length),
             [req_route_add address gateway].
      repeat split; [ now rewrite app_nil_r | ].
      intros accepted r' rest Hsplit. destruct accepted; discriminate.
Qed.

End NetlinkFlush.

(** ** main.c: reasoning about runs of the main thread *)

Section MainRuns.

Import Main MainMore.

Context {W : Type} `{Host W}.

Variable eQCWWAN_ERR_QMI_NO_EFFECT : Z.

Lemma bind_inv {A B : Type} (c : run A) (k : A -> run B) (st st2 : state W)
    (b : B) :
  bind c k st = Some (b, st2) ->
  exists a st1, c st = Some (a, st1) /\ k a st1 = Some (b, st2).
Proof.
  unfold bind. destruct (c st) as [[a st1] |]; [ | discriminate ].
  intros Hk. now exists a, st1.
Qed.

Lemma invoke_inv (c : call) (st st1 : state W) (r : Z) :
  invoke c st = Some (r, st1) ->
  answer c (world st) = (r, world st1)
  /\ exit_requested st1 = exit_requested st
  /\ trace st1 = trace st ++ [called c r].
Proof.
  unfold invoke. destruct (answer c (world st)) as [r' w].
  intros Heq. injection Heq as <- <-. repeat split.
Qed.

Lemma log_inv (msg : string) (st st1 : state W) (u : unit) :
  log msg st = Some (u, st1) ->
  world st1 = world st
  /\ exit_requested st1 = exit_requested st
  /\ trace st1 = trace st ++ [logged msg].
Proof.
  unfold log. intros Heq. injection Heq as _ <-. repeat split.
Qed.

Lemma request_exit_inv (st st1 : state W) (u : unit) :
  request_exit st = Some (u, st1) ->
  world st1 = world st
  /\ exit_requested st1 = true
  /\ trace st1 = trace st.
Proof.
  unfold request_exit. intros Heq. injection Heq as _ <-. repeat split.
Qed.

Lemma ret_inv {A : Type} (a b : A) (st st1 : state W) :
  ret a st = Some (b, st1) -> b = a /\ st1 = st.
Proof.
  unfold ret. intros Heq. injection Heq as <- <-. split; reflexivity.
Qed.

Lemma observe_inv {A : Type} (f : W -> A) (st st1 : state W) (a : A) :
  observe f st = Some (a, st1) -> a = f (world st) /\ st1 = st.
Proof.
  unfold observe. intros Heq. injection Heq as <- <-. split; reflexivity.
Qed.

Lemma read_exit_requested_inv (st st1 : state W) (b : bool) :
  read_exit_requested st = Some (b, st1) ->
  b = exit_requested st || sigint_handled (world st) /\ st1 = st.
Proof.
  unfold read_exit_requested. intros Heq. injection Heq as <- <-.
  split; reflexivity.
Qed.

Lemma calls_of_app (t u : list event) :
  calls_of (t ++ u) = calls_of t ++ calls_of u.
Proof. unfold calls_of. apply flat_map_app. Qed.

(** Taking a run apart, one step at a time. *)
Ltac run_step :=
  match goal with
  | H : bind _ _ _ = Some _ |- _ =>
      apply bind_inv in H; destruct H as (? & ? & ? & H)
  | H : ret _ _ = Some _ |- _ =>
      apply ret_inv in H; destruct H as [? ?]; subst
  | H : invoke _ _ = Some _ |- _ =>
      apply invoke_inv in H; destruct H as (? & ? & ?)
  | H : log _ _ = Some _ |- _ =>
      apply log_inv in H; destruct H as (? & ? & ?)
  | H : request_exit _ = Some _ |- _ =>
      apply request_exit_inv in H; destruct H as (? & ? & ?)
  | H : observe _ _ = Some _ |- _ =>
      apply observe_inv in H; destruct H as [? ?]; subst
  | H : read_exit_requested _ = Some _ |- _ =>
      apply read_exit_requested_inv in H; destruct H as [? ?]; subst
  | H : still_running _ = Some _ |- _ => discriminate H
  | H : (if ?b then _ else _) _ = Some _ |- _ => destruct b eqn:?
  end.

Ltac run_steps := repeat run_step.

Lemma loop_test_false (st : state W) :
  negb (exit_requested st || sigint_handled (world st))
  && negb (teardown_requested IPV4 (world st))
  && negb (teardown_requested IPV6 (world st)) = false ->
  flag_up (exit_requested st) (world st) = true.
Proof.
  unfold flag_up.
  destruct (exit_requested st), (sigint_handled (world st)),
    (teardown_requested IPV4 (world st)),
    (teardown_requested IPV6 (world st)); intros Htest;
    try reflexivity; discriminate Htest.
Qed.

Lemma monitor_stops (st st' : state W) :
  negb (exit_requested st || sigint_handled (world st))
  && negb (teardown_requested IPV4 (world st))
  && negb (teardown_requested IPV6 (world st)) = false ->
  world st' = world st ->
  exit_requested st' = exit_requested st ->
  trace st'
  = trace st ++ [logged "Stopping the modem-monitor due to external request"] ->
  0 = 0
  /\ exit_requested st' = exit_requested st
  /\ flag_up (exit_requested st') (world st') = true
  /\ exists slept,
       calls_of (trace st') = calls_of (trace st) ++ slept
       /\ Forall (fun e => fst e = sleep 1) slept.
Proof.
  intros Htest Hworld Hexit Htrace.
  split; [ reflexivity | ]. split; [ exact Hexit | ].
  split; [ rewrite Hworld, Hexit; now apply loop_test_false | ].
  exists []. rewrite Htrace, calls_of_app.
  split; [ reflexivity | constructor ].
Qed.

Lemma run_sessions_up_leaves_on_flag (fuel : nat) :
  forall (st st' : state W) (status : Z),
    run_sessions_up fuel st = Some (status, st') ->
    status = 0
    /\ exit_requested st' = exit_requested st
    /\ flag_up (exit_requested st') (world st') = true
    /\ exists slept,
         calls_of (trace st') = calls_of (trace st) ++ slept
         /\ Forall (fun e => fst e = sleep 1) slept.
Proof.
  induction fuel as [| fuel IH]; intros st st' status Hrun;
    cbn [run_sessions_up] in Hrun; run_steps.
  - now apply monitor_stops.
  - match goal with
    | Hrec : run_sessions_up fuel _ = Some _ |- _ =>
        apply IH in Hrec;
        destruct Hrec as (Hs & He & Hflag & slept & Hcalls & Hall)
    end.
    split; [ exact Hs | ]. split; [ congruence | ].
    split; [ exact Hflag | ].
    match goal with
    | Ht : trace _ = trace st ++ [called (sleep 1) ?r] |- _ =>
        exists ((sleep 1, r) :: slept);
        rewrite Hcalls, Ht, calls_of_app, <- app_assoc;
        split; [ reflexivity | constructor; [ reflexivity | exact Hall ] ]
    end.
  - now apply monitor_stops.
Qed.

(** X11.  The monitoring loop returns only with status 0 and only in a
    state where the exit flag or a teardown flag is up; it never touches
    exit_requested itself and calls nothing but [sleep (1)]. *)
Theorem run_sessions_up_returns_on_flag (fuel : nat) :
  forall (st st' : state W) (status : Z),
    run_sessions_up fuel st = Some (status, st') ->
    status = 0
    /\ exit_requested st' = exit_requested st
    /\ flag_up (exit_requested st') (world st') = true
    /\ exists slept,
         calls_of (trace st') = calls_of (trace st) ++ slept
         /\ Forall (fun e => fst e = sleep 1) slept.
Proof. exact (run_sessions_up_leaves_on_flag fuel). Qed.

Lemma loop_test_flag (st : state W) :
  negb (exit_requested st || sigint_handled (world st))
  && negb (teardown_requested IPV4 (world st))
  && negb (teardown_requested IPV6 (world st))
  = negb (flag_up (exit_requested st) (world st)).
Proof.
  unfold flag_up.
  destruct (exit_requested st), (sigint_handled (world st)),
    (teardown_requested IPV4 (world st)),
    (teardown_requested IPV6 (world st)); reflexivity.
Qed.

Lemma run_sessions_up_at_once (fuel : nat) (st : state W) :
  flag_up (exit_requested st) (world st) = true ->
  run_sessions_up fuel st
  = Some (0, {| world := world st;
                exit_requested := exit_requested st;
                trace := trace st
                         ++ [logged "Stopping the modem-monitor due to external request"] |}).
Proof.
  intros Hup.
  destruct fuel; cbn [run_sessions_up];
    unfold bind, read_exit_requested, observe;
    rewrite loop_test_flag, Hup; reflexivity.
Qed.

(** X12.  The monitoring loop does return when a flag comes up in time:
    if a flag is up after [n] sleeps and the loop may take [n] turns or
    more, it returns 0 with exit_requested untouched; with a flag
    already up it returns at once, without sleeping. *)
Theorem run_sessions_up_returns (n : nat) :
  forall (fuel : nat) (st : state W),
    (n <= fuel)%nat ->
    flag_up (exit_requested st) (after_sleeps n (world st)) = true ->
    exists st',
      run_sessions_up fuel st = Some (0, st')
      /\ exit_requested st' = exit_requested st
      /\ (flag_up (exit_requested st) (world st) = true ->
          calls_of (trace st') = calls_of (trace st)).
Proof.
  induction n as [| n IH]; intros fuel st Hfuel Hup;
    destruct (flag_up (exit_requested st) (world st)) eqn:Hnow.
  - rewrite (run_sessions_up_at_once fuel st Hnow).
    eexists. split; [ reflexivity | ]. cbn [exit_requested trace].
    split; [ reflexivity | intros _ ].
    now rewrite calls_of_app, app_nil_r.
  - cbn [after_sleeps] in Hup. congruence.
  - rewrite (run_sessions_up_at_once fuel st Hnow).
    eexists. split; [ reflexivity | ]. cbn [exit_requested trace].
    split; [ reflexivity | intros _ ].
    now rewrite calls_of_app, app_nil_r.
  - destruct fuel as [| fuel]; [ lia | ].
    cbn [run_sessions_up after_sleeps] in *.
    unfold bind at 1, read_exit_requested.
    unfold bind at 1, observe. unfold bind at 1.
    rewrite loop_test_flag, Hnow. cbn [negb].
    unfold bind at 1, invoke.
    destruct (answer (sleep 1) (world st)) as [r w1]. cbn [snd] in Hup.
    match goal with
    | |- context [run_sessions_up fuel ?s1] =>
        destruct (IH fuel s1 ltac:(lia) Hup) as (st' & Hrun & Hexit & _)
    end.
    exists st'. split; [ exact Hrun | ].
    split; [ exact Hexit | discriminate ].
Qed.

(** Turning the tests met along a run into facts about statuses. *)
Ltac norm_tests :=
  unfold eQCWWAN_ERR_NONE in *;
  repeat match goal with
  | H : nonzero _ = true |- _ => apply nonzero_true in H
  | H : nonzero _ = false |- _ => apply nonzero_false in H
  | H : (_ =? _) = true |- _ => apply Z.eqb_eq in H
  | H : (_ =? _) = false |- _ => apply Z.eqb_neq in H
  | H : negb _ = true |- _ => apply negb_true_iff in H
  | H : negb _ = false |- _ => apply negb_false_iff in H
  | H : _ && _ = true |- _ => apply andb_true_iff in H; destruct H
  | H : _ || _ = false |- _ => apply orb_false_iff in H; destruct H
  end.

(** Closing a goal on the flag or the status from the facts of a run. *)
Ltac close_run :=
  norm_tests; intros; subst;
  first [ congruence
        | lia
        | match goal with
          | Himp : _ -> ?s <> _ |- ?s <> _ => apply Himp; congruence
          end ].

Lemma mm_start_session_keeps_exit (session preference : ip_family)
    (profile_id status : Z) (st st' : state W) :
  mm_start_session session profile_id preference st = Some (status, st') ->
  exit_requested st' = exit_requested st.
Proof.
  intros Hrun. unfold mm_start_session in Hrun. run_steps; congruence.
Qed.

Lemma run_up_ipv4_connected_sound (fuel : nat) (st st' : state W)
    (status : Z) :
  exit_requested st = false ->
  run_up_ipv4_connected fuel st = Some (status, st') ->
  exit_requested st' = true -> status <> 0.
Proof.
  intros Hclean Hrun. unfold run_up_ipv4_connected in Hrun. run_steps.
  all: try match goal with
       | Hmon : run_sessions_up _ _ = Some _ |- _ =>
           apply run_sessions_up_leaves_on_flag in Hmon;
           destruct Hmon as (_ & Hmon & _)
       end.
  all: close_run.
Qed.

Lemma run_up_ipv4_stop_sound (status status' : Z) (st st' : state W) :
  (exit_requested st = true -> status <> 0) ->
  run_up_ipv4_stop eQCWWAN_ERR_QMI_NO_EFFECT status st = Some (status', st') ->
  exit_requested st' = true -> status' <> 0.
Proof.
  intros Hsound Hrun. unfold run_up_ipv4_stop in Hrun. run_steps.
  - close_run.
  - intros Hexit. apply Hsound. congruence.
Qed.

Lemma run_up_ipv4_sound (fuel : nat) (st st' : state W) (status : Z) :
  exit_requested st = false ->
  run_up_ipv4 eQCWWAN_ERR_QMI_NO_EFFECT fuel st = Some (status, st') ->
  exit_requested st' = true -> status <> 0.
Proof.
  intros Hclean Hrun. unfold run_up_ipv4 in Hrun. run_steps.
  all: repeat match goal with
       | Hs : mm_start_session _ _ _ _ = Some _ |- _ =>
           apply mm_start_session_keeps_exit in Hs
       end.
  all: try match goal with
       | Hc : run_up_ipv4_connected _ ?s = Some _,
         Hs : run_up_ipv4_stop _ _ _ = Some _ |- _ =>
           assert (Hcl : exit_requested s = false) by congruence;
           pose proof (run_up_ipv4_connected_sound _ _ _ _ Hcl Hc) as Hsound;
           pose proof (run_up_ipv4_stop_sound _ _ _ _ Hsound Hs)
       end.
  all: close_run.
Qed.

Lemma run_up_ipv6_connected_sound (fuel : nat) (st st' : state W)
    (status : Z) :
  exit_requested st = false ->
  run_up_ipv6_connected eQCWWAN_ERR_QMI_NO_EFFECT fuel st
  = Some (status, st') ->
  exit_requested st' = true -> status <> 0.
Proof.
  intros Hclean Hrun. unfold run_up_ipv6_connected in Hrun. run_steps.
  all: try match goal with
       | Hv4 : run_up_ipv4 _ _ ?s = Some _ |- _ =>
           assert (Hcl : exit_requested s = false) by congruence;
           pose proof (run_up_ipv4_sound _ _ _ _ Hcl Hv4)
       end.
  all: close_run.
Qed.

Lemma run_up_ipv6_stop_sound (status status' : Z) (st st' : state W) :
  (exit_requested st = true -> status <> 0) ->
  run_up_ipv6_stop eQCWWAN_ERR_QMI_NO_EFFECT status st = Some (status', st') ->
  exit_requested st' = true -> status' <> 0.
Proof.
  intros Hsound Hrun. unfold run_up_ipv6_stop in Hrun. run_steps.
  - close_run.
  - intros Hexit. apply Hsound. congruence.
Qed.

Lemma run_up_ipv6_sound (fuel : nat) (st st' : state W) (status : Z) :
  exit_requested st = false ->
  run_up_ipv6 eQCWWAN_ERR_QMI_NO_EFFECT fuel st = Some (status, st') ->
  exit_requested st' = true -> status <> 0.
Proof.
  intros Hclean Hrun. unfold run_up_ipv6 in Hrun. run_steps.
  all: repeat match goal with
       | Hs : mm_start_session _ _ _ _ = Some _ |- _ =>
           apply mm_start_session_keeps_exit in Hs
       end.
  all: try match goal with
       | Hc : run_up_ipv6_connected _ _ ?s = Some _,
         Hs : run_up_ipv6_stop _ _ _ = Some _ |- _ =>
           assert (Hcl : exit_requested s = false) by congruence;
           pose proof (run_up_ipv6_connected_sound _ _ _ _ Hcl Hc) as Hsound;
           pose proof (run_up_ipv6_stop_sound _ _ _ _ Hsound Hs)
       end.
  all: close_run.
Qed.

Lemma initialize_stop_services_sound (status status' : Z)
    (st st' : state W) :
  (exit_requested st = true -> status <> 0) ->
  initialize_stop_services status st = Some (status', st') ->
  exit_requested st' = true -> status' <> 0.
Proof.
  intros Hsound Hrun. unfold initialize_stop_services in Hrun. run_steps.
  all: try solve [close_run].
  all: intros Hexit; norm_tests; subst; try assumption;
    apply Hsound; congruence.
Qed.

(** What one turn of the loop hands back: a [break] carries a failure,
    and a turn run to its end carries one whenever the main thread has
    requested the exit. *)
Lemma initialize_cleanup_sound (status : Z) (out : loop_exit)
    (st st' : state W) :
  (exit_requested st = true -> status <> 0) ->
  initialize_cleanup status st = Some (out, st') ->
  match out with
  | loop_break status' => status' <> 0
  | loop_next status' => exit_requested st' = true -> status' <> 0
  end.
Proof.
  intros Hsound Hrun. unfold initialize_cleanup, or_break in Hrun.
  run_steps; cbn beta iota.
  all: try solve [close_run].
  all: match goal with
       | Hs : initialize_stop_services _ ?s = Some _ |- _ =>
           assert (Hin : exit_requested s = true -> status <> 0)
             by (intros Hexit; apply Hsound; congruence);
           pose proof (initialize_stop_services_sound _ _ _ _ Hin Hs) as Hout
       end.
  all: intros Hexit; apply Hout; congruence.
Qed.

Lemma initialize_iteration_sound (fuel : nat) (out : loop_exit)
    (st st' : state W) :
  exit_requested st = false ->
  initialize_iteration eQCWWAN_ERR_QMI_NO_EFFECT fuel st = Some (out, st') ->
  match out with
  | loop_break status' => status' <> 0
  | loop_next status' => exit_requested st' = true -> status' <> 0
  end.
Proof.
  intros Hclean Hrun. unfold initialize_iteration, or_break in Hrun.
  run_steps; cbn beta iota.
  all: try solve [close_run].
  match goal with
  | Hv6 : run_up_ipv6 _ _ ?s = Some _,
    Hc : initialize_cleanup _ _ = Some _ |- _ =>
      assert (Hcl : exit_requested s = false) by congruence;
      pose proof (run_up_ipv6_sound _ _ _ _ Hcl Hv6) as Hsound;
      exact (initialize_cleanup_sound _ _ _ _ Hsound Hc)
  end.
Qed.

Lemma initialize_loop_sound (fuel : nat) :
  forall (status status' : Z) (st st' : state W),
    (exit_requested st = true -> status <> 0) ->
    initialize_loop eQCWWAN_ERR_QMI_NO_EFFECT fuel status st
    = Some (status', st') ->
    status' = 0 ->
    exit_requested st' = false /\ sigint_handled (world st') = true.
Proof.
  assert (Hleave : forall (status : Z) (st : state W),
             (exit_requested st = true -> status <> 0) ->
             exit_requested st || sigint_handled (world st) = true ->
             status = 0 ->
             exit_requested st = false /\ sigint_handled (world st) = true).
  { intros status st Hsound Hstop Hzero.
    destruct (exit_requested st).
    - exfalso. now apply Hsound.
    - split; [ reflexivity | exact Hstop ]. }
  induction fuel as [ | fuel IH ];
    intros status status' st st' Hsound Hrun Hzero;
    cbn [initialize_loop] in Hrun.
  - run_steps. eapply Hleave; eauto.
  - run_step. run_step. run_step.
    + run_step. eapply Hleave; eauto.
    + run_step.
      match goal with
      | Hit : initialize_iteration _ _ ?s = Some _ |- _ =>
          assert (Hcl : exit_requested s = false)
            by (destruct (exit_requested s); [ discriminate | reflexivity ]);
          pose proof (initialize_iteration_sound _ _ _ _ Hcl Hit) as Hturn
      end.
      match type of Hturn with
      | match ?out with loop_break _ => _ | loop_next _ => _ end =>
          destruct out as [ broke | next ]
      end.
      * run_step. contradiction.
      * eapply IH; eauto.
Qed.

(** X13.  [initialize] returns 0 only when the loop was left through its
    [while (!exit_requested)] test with the flag raised by the SIGINT
    handler alone: every [break], and every place where the main thread
    sets [exit_requested] itself, leaves a non-zero status behind. *)
Theorem initialize_success_needs_sigint (fuel : nat) (st st' : state W) :
  exit_requested st = false ->
  initialize eQCWWAN_ERR_QMI_NO_EFFECT fuel st = Some (0, st') ->
  exit_requested st' = false /\ sigint_handled (world st') = true.
Proof.
  intros Hclean Hrun. unfold initialize in Hrun. run_steps.
  all: norm_tests; try congruence.
  eapply initialize_loop_sound; [ | eassumption | reflexivity ].
  intros Hexit. congruence.
Qed.

(** Collecting the calls of a run from the facts on its traces. *)
Ltac calls_norm :=
  repeat first
    [ rewrite calls_of_app
    | match goal with
      | Ht : trace ?s = _ |- context [trace ?s] => rewrite Ht
      | Hc : calls_of (trace ?s) = _ |- context [calls_of (trace ?s)] =>
          rewrite Hc
      end ];
  cbn [calls_of flat_map app]; rewrite <- ?app_assoc; cbn [app].

Lemma mm_start_session_calls (session preference : ip_family)
    (profile_id status : Z) (st st' : state W) :
  mm_start_session session profile_id preference st = Some (status, st') ->
  let family := match preference with IPV4 => AF_INET | IPV6 => AF_INET6 end in
  exists attempt,
    calls_of (trace st') = calls_of (trace st) ++ attempt
    /\ (status = 0 ->
        attempt = [(mm_wds_set_ip_family_preference session preference, 0);
                   (mm_wds_start_data_session session profile_id family, 0)])
    /\ (status <> 0 ->
        attempt = [(mm_wds_set_ip_family_preference session preference, status)]
        \/ attempt
           = [(mm_wds_set_ip_family_preference session preference, 0);
              (mm_wds_start_data_session session profile_id family, status)]).
Proof.
  intros Hrun family. unfold mm_start_session in Hrun. run_steps.
  all: norm_tests; subst.
  all: eexists; split; [ calls_norm; reflexivity | ].
  all: split; intros Hs; try contradiction; try congruence; auto.
Qed.

Lemma sleeps_are_not_lifecycle (slept : list (call * Z)) :
  Forall (fun e => fst e = sleep 1) slept ->
  Forall (fun e => lifecycle IPV4 (fst e) = false
                   /\ lifecycle IPV6 (fst e) = false) slept.
Proof.
  apply Forall_impl. intros [c r] Hc. cbn [fst] in *. subst c.
  split; reflexivity.
Qed.

Lemma run_up_ipv4_connected_calls (fuel : nat) (st st' : state W)
    (status : Z) :
  run_up_ipv4_connected fuel st = Some (status, st') ->
  exists body,
    calls_of (trace st') = calls_of (trace st) ++ body
    /\ Forall (fun e => lifecycle IPV4 (fst e) = false
                        /\ lifecycle IPV6 (fst e) = false) body.
Proof.
  intros Hrun. unfold run_up_ipv4_connected in Hrun. run_steps.
  all: try match goal with
       | Hmon : run_sessions_up _ _ = Some _ |- _ =>
           apply run_sessions_up_leaves_on_flag in Hmon;
           destruct Hmon as (_ & _ & _ & slept & Hmon & Hslept);
           apply sleeps_are_not_lifecycle in Hslept
       end.
  all: eexists; split; [ calls_norm; reflexivity | ].
  all: repeat first [ assumption
                    | apply Forall_nil
                    | apply Forall_cons; [ split; reflexivity | ] ].
Qed.

(** X14.  The life of the IPv4 session object in [run_up_ipv4].  After
    mm_wds_initialize the calls take one of three shapes: initialize
    failed and nothing follows; the session did not start, and
    mm_wds_shutdown follows the failed attempt with no stop in between;
    or the session started, and whatever happens next -- settings,
    services, tunnel, monitoring, any of them failing -- the run ends
    with mm_wds_stop_data_session and then mm_wds_shutdown, with no other
    call on the life of either session in between. *)
Theorem run_up_ipv4_session_lifecycle (fuel : nat) (st st' : state W)
    (status : Z) :
  run_up_ipv4 eQCWWAN_ERR_QMI_NO_EFFECT fuel st = Some (status, st') ->
  exists r rest,
    calls_of (trace st')
    = calls_of (trace st) ++ (mm_wds_initialize IPV4, r) :: rest
    /\ ((r <> 0 /\ rest = [])
        \/ (r = 0 /\ exists s d,
              s <> 0
              /\ (rest = [(mm_wds_set_ip_family_preference IPV4 IPV4, s);
                          (mm_wds_shutdown IPV4, d)]
                  \/ rest = [(mm_wds_set_ip_family_preference IPV4 IPV4, 0);
                             (mm_wds_start_data_session IPV4
                                PROFILE_3GPP_VZWINTERNET AF_INET, s);
                             (mm_wds_shutdown IPV4, d)]))
        \/ (r = 0 /\ exists body c d,
              rest = (mm_wds_set_ip_family_preference IPV4 IPV4, 0)
                     :: (mm_wds_start_data_session IPV4
                           PROFILE_3GPP_VZWINTERNET AF_INET, 0)
                     :: body
                     ++ [(mm_wds_stop_data_session IPV4, c);
                         (mm_wds_shutdown IPV4, d)]
              /\ Forall (fun e => lifecycle IPV4 (fst e) = false
                                  /\ lifecycle IPV6 (fst e) = false) body)).
Proof.
  intros Hrun. unfold run_up_ipv4, run_up_ipv4_stop in Hrun. run_steps.
  all: repeat match goal with
       | Hs : mm_start_session _ _ _ _ = Some _ |- _ =>
           apply mm_start_session_calls in Hs;
           destruct Hs as (attempt & Hs & Hstarted & Hfailed)
       | Hc : run_up_ipv4_connected _ _ = Some _ |- _ =>
           apply run_up_ipv4_connected_calls in Hc;
           destruct Hc as (body & Hc & Hbody)
       end.
  all: norm_tests.
  all: try (rewrite Hstarted in * by assumption).
  all: try match goal with
       | Hne : ?s <> 0, Hf : ?s <> 0 -> _ \/ _ |- _ =>
           destruct (Hf Hne) as [ Hpref | Hstart ];
           [ rewrite Hpref in * | rewrite Hstart in * ]
       end.
  all: eexists _, _; (split; [ calls_norm; reflexivity | ]).
  all: first
    [ left; split; [ assumption | reflexivity ]
    | right; left; split;
      [ assumption
      | eexists _, _;
        (split; [ | first [ left; reflexivity | right; reflexivity ] ]);
        assumption ]
    | right; right; split;
      [ assumption
      | eexists _, _, _; split; [ reflexivity | assumption ] ] ].
Qed.

Lemma run_up_ipv4_calls_not_v6 (fuel : nat) (st st' : state W) (status : Z) :
  run_up_ipv4 eQCWWAN_ERR_QMI_NO_EFFECT fuel st = Some (status, st') ->
  exists new,
    calls_of (trace st') = calls_of (trace st) ++ new
    /\ Forall (fun e => lifecycle IPV6 (fst e) = false) new.
Proof.
  intros Hrun. unfold run_up_ipv4, run_up_ipv4_stop in Hrun. run_steps.
  all: repeat match goal with
       | Hs : mm_start_session _ _ _ _ = Some _ |- _ =>
           apply mm_start_session_calls in Hs;
           destruct Hs as (attempt & Hs & Hstarted & Hfailed)
       | Hc : run_up_ipv4_connected _ _ = Some _ |- _ =>
           apply run_up_ipv4_connected_calls in Hc;
           destruct Hc as (body & Hc & Hbody)
       end.
  all: norm_tests.
  all: try (rewrite Hstarted in * by assumption).
  all: try match goal with
       | Hne : ?s <> 0, Hf : ?s <> 0 -> _ \/ _ |- _ =>
           destruct (Hf Hne) as [ Hpref | Hstart ];
           [ rewrite Hpref in * | rewrite Hstart in * ]
       end.
  all: eexists; (split; [ calls_norm; reflexivity | ]).
  all: repeat first
         [ apply Forall_nil
         | apply Forall_cons; [ reflexivity | ]
         | apply Forall_app; split;
           [ revert Hbody; apply Forall_impl; intros e [_ He]; exact He | ] ].
Qed.

Lemma run_up_ipv6_connected_calls (fuel : nat) (st st' : state W)
    (status : Z) :
  run_up_ipv6_connected eQCWWAN_ERR_QMI_NO_EFFECT fuel st
  = Some (status, st') ->
  exists body,
    calls_of (trace st') = calls_of (trace st) ++ body
    /\ Forall (fun e => lifecycle IPV6 (fst e) = false) body.
Proof.
  intros Hrun. unfold run_up_ipv6_connected in Hrun. run_steps.
  all: try match goal with
       | Hv4 : run_up_ipv4 _ _ _ = Some _ |- _ =>
           apply run_up_ipv4_calls_not_v6 in Hv4;
           destruct Hv4 as (new & Hv4 & Hnew)
       end.
  all: eexists; split; [ calls_norm; reflexivity | ].
  all: repeat first [ assumption
                    | apply Forall_nil
                    | apply Forall_cons; [ reflexivity | ] ].
Qed.

(** X15.  The life of the IPv6 session object in [run_up_ipv6], which
    wraps the whole IPv4 bring-up: once the IPv6 session has started, the
    run ends with mm_wds_stop_data_session and mm_wds_shutdown on it,
    whatever the IPv4 side did in between, and nothing in between touches
    the life of the IPv6 session; a session that did not start is shut
    down without a stop; a failed mm_wds_initialize is followed by
    nothing. *)
Theorem run_up_ipv6_session_lifecycle (fuel : nat) (st st' : state W)
    (status : Z) :
  run_up_ipv6 eQCWWAN_ERR_QMI_NO_EFFECT fuel st = Some (status, st') ->
  exists r rest,
    calls_of (trace st')
    = calls_of (trace st) ++ (mm_wds_initialize IPV6, r) :: rest
    /\ ((r <> 0 /\ rest = [])
        \/ (r = 0 /\ exists s d,
              s <> 0
              /\ (rest = [(mm_wds_set_ip_family_preference IPV6 IPV6, s);
                          (mm_wds_shutdown IPV6, d)]
                  \/ rest = [(mm_wds_set_ip_family_preference IPV6 IPV6, 0);
                             (mm_wds_start_data_session IPV6
                                PROFILE_3GPP_VZWINTERNET AF_INET6, s);
                             (mm_wds_shutdown IPV6, d)]))
        \/ (r = 0 /\ exists body c d,
              rest = (mm_wds_set_ip_family_preference IPV6 IPV6, 0)
                     :: (mm_wds_start_data_session IPV6
                           PROFILE_3GPP_VZWINTERNET AF_INET6, 0)
                     :: body
                     ++ [(mm_wds_stop_data_session IPV6, c);
                         (mm_wds_shutdown IPV6, d)]
              /\ Forall (fun e => lifecycle IPV6 (fst e) = false) body)).
Proof.
  intros Hrun. unfold run_up_ipv6, run_up_ipv6_stop in Hrun. run_steps.
  all: repeat match goal with
       | Hs : mm_start_session _ _ _ _ = Some _ |- _ =>
           apply mm_start_session_calls in Hs;
           destruct Hs as (attempt & Hs & Hstarted & Hfailed)
       | Hc : run_up_ipv6_connected _ _ _ = Some _ |- _ =>
           apply run_up_ipv6_connected_calls in Hc;
           destruct Hc as (body & Hc & Hbody)
       end.
  all: norm_tests.
  all: try (rewrite Hstarted in * by assumption).
  all: try match goal with
       | Hne : ?s <> 0, Hf : ?s <> 0 -> _ \/ _ |- _ =>
           destruct (Hf Hne) as [ Hpref | Hstart ];
           [ rewrite Hpref in * | rewrite Hstart in * ]
       end.
  all: eexists _, _; (split; [ calls_norm; reflexivity | ]).
  all: first
    [ left; split; [ assumption | reflexivity ]
    | right; left; split;
      [ assumption
      | eexists _, _;
        (split; [ | first [ left; reflexivity | right; reflexivity ] ]);
        assumption ]
    | right; right; split;
      [ assumption
      | eexists _, _, _; split; [ reflexivity | assumption ] ] ].
Qed.

Lemma last_app_cons {A : Type} (l m : list A) (a d : A) :
  last (l ++ a :: m) d = last (a :: m) d.
Proof.
  induction l as [ | b l IH ]; [ reflexivity | ].
  cbn [app]. rewrite <- IH. cbn [last].
  destruct (l ++ a :: m) eqn:Hl; [ | reflexivity ].
  destruct l; discriminate Hl.
Qed.

Lemma last_of_Forall {A : Type} (P : A -> Prop) (l : list A) (a d : A) :
  Forall P (a :: l) -> P (last (a :: l) d).
Proof.
  revert a. induction l as [ | b l IH ]; intros a Hall.
  - now inversion Hall.
  - inversion Hall; subst. change (P (last (b :: l) d)). now apply IH.
Qed.

(** The last call of a run, read off the facts on its traces. *)
Ltac last_call :=
  calls_norm; rewrite last_app_cons; cbn [last].

(** X16.  Which failures after a started IPv4 session are fatal: when
    the lines between start and stop leave [exit_requested] set, the
    last call made is mm_apply_ipv4_runtime_settings or one of the two
    StartUnit requests, and its non-zero status is the one returned.
    A failed settings query, a missing address or gateway and every
    tunnel failure leave the flag alone. *)
Theorem run_up_ipv4_fatal_failures (fuel : nat) (st st' : state W)
    (status : Z) (d : call * Z) :
  exit_requested st = false ->
  run_up_ipv4_connected fuel st = Some (status, st') ->
  exit_requested st' = true ->
  status <> 0
  /\ exists c,
       last (calls_of (trace st')) d = (c, status)
       /\ (c = mm_apply_ipv4_runtime_settings false
           \/ c = mm_sdbus_manage_service "StartUnit" "unbound.service"
           \/ c = mm_sdbus_manage_service "StartUnit" "chrony.service").
Proof.
  intros Hclean Hrun Hexit. unfold run_up_ipv4_connected in Hrun. run_steps.
  all: try match goal with
       | Hmon : run_sessions_up _ _ = Some _ |- _ =>
           apply run_sessions_up_leaves_on_flag in Hmon;
           destruct Hmon as (_ & Hmon & _)
       end.
  all: try congruence.
  all: norm_tests; (split; [ assumption | ]).
  all: eexists; (split; [ last_call; reflexivity | ]); auto.
Qed.

(** X17.  Tunnel failures after a started IPv4 session.  When the run
    between start and stop ends on mm_exec_wireguard_setconf, on
    mm_netlink_ensure_wg0_interface_state (true) or on
    mm_netlink_ensure_wg0_routes_are_applied, that call failed and
    [exit_requested] is left as it was; the status returned is the
    failure of the first two, but 0 when it was the routes that failed,
    because the result of the third operand is never assigned. *)
Theorem run_up_ipv4_tunnel_failures (fuel : nat) (st st' : state W)
    (status r : Z) (c : call) (d : call * Z) :
  run_up_ipv4_connected fuel st = Some (status, st') ->
  last (calls_of (trace st')) d = (c, r) ->
  c = mm_exec_wireguard_setconf
  \/ c = mm_netlink_ensure_wg0_interface_state true
  \/ c = mm_netlink_ensure_wg0_routes_are_applied ->
  r <> 0
  /\ exit_requested st' = exit_requested st
  /\ (c <> mm_netlink_ensure_wg0_routes_are_applied -> status = r)
  /\ (c = mm_netlink_ensure_wg0_routes_are_applied -> status = 0).
Proof.
  intros Hrun Hlast Hc. unfold run_up_ipv4_connected in Hrun. run_steps.
  all: try match goal with
       | Hmon : run_sessions_up _ _ = Some _ |- _ =>
           apply run_sessions_up_leaves_on_flag in Hmon;
           destruct Hmon as (_ & Hexit & _ & slept & Hmon & Hslept)
       end.
  all: revert Hlast; last_call.
  all: try (intros Hlast; injection Hlast as <- <-;
            destruct Hc as [ Hc | [ Hc | Hc ] ]; discriminate Hc).
  all: try (intros Hlast; injection Hlast as <- <-; norm_tests;
            repeat split; try congruence;
            intros Hroutes; congruence).
  destruct slept as [ | nap slept ]; intros Hlast.
  - injection Hlast as <- <-.
    destruct Hc as [ Hc | [ Hc | Hc ] ]; discriminate Hc.
  - apply (last_of_Forall _ _ _ d) in Hslept.
    change (last (nap :: slept) d = (c, r)) in Hlast.
    rewrite Hlast in Hslept. cbn [fst] in Hslept. subst c.
    destruct Hc as [ Hc | [ Hc | Hc ] ]; discriminate Hc.
Qed.

Lemma initialize_cleanup_calls (status : Z) (out : loop_exit)
    (st st' : state W) :
  initialize_cleanup status st = Some (out, st') ->
  exists first rest,
    calls_of (trace st') = calls_of (trace st) ++ first :: rest
    /\ Forall (fun e => forall mode, fst e <> mm_dms_set_power_sync mode)
         (first :: rest).
Proof.
  intros Hrun.
  unfold initialize_cleanup, or_break, initialize_stop_services in Hrun.
  run_steps.
  all: eexists _, _; (split; [ calls_norm; reflexivity | ]).
  all: repeat first [ apply Forall_nil
                    | apply Forall_cons; [ intros mode; discriminate | ] ].
Qed.

(** X18.  A turn of the outer loop that ends on mm_dms_set_power_sync.
    The turn made the seven calls of the prelude and nothing else: the
    loop is left by [break] with the failure, or with -1 when the call
    succeeded but the modem is not online; in both cases the DMS service
    object initialised one call earlier is not shut down, nothing sleeps,
    and [exit_requested] is not set. *)
Theorem power_failure_breaks_without_dms_shutdown (fuel : nat)
    (st st' : state W) (out : loop_exit) (mode r : Z) (d : call * Z) :
  initialize_iteration eQCWWAN_ERR_QMI_NO_EFFECT fuel st = Some (out, st') ->
  last (calls_of (trace st')) d = (mm_dms_set_power_sync mode, r) ->
  calls_of (trace st')
  = calls_of (trace st)
    ++ [(mm_netlink_reload_link_cache, 0);
        (mm_sdbus_manage_service "StopUnit" "chrony.service", 0);
        (mm_sdbus_manage_service "StopUnit" "unbound.service", 0);
        (mm_netlink_ensure_wwan_interface_state true, 0);
        (mm_netlink_addr_flush, 0);
        (mm_dms_initialize, 0);
        (mm_dms_set_power_sync Dms.MM_DMS_OPERATION_MODE_ONLINE, r)]
  /\ exit_requested st' = exit_requested st
  /\ (r <> 0 -> out = loop_break r)
  /\ (r = 0 ->
      out = loop_break (-1)
      /\ resulting_mode (world st') <> Dms.MM_DMS_OPERATION_MODE_ONLINE).
Proof.
  intros Hrun Hlast. unfold initialize_iteration, or_break in Hrun. run_steps.
  all: try match goal with
       | Hc : initialize_cleanup _ _ = Some _ |- _ =>
           apply initialize_cleanup_calls in Hc;
           destruct Hc as (first & rest & Hc & Hrest)
       end.
  all: revert Hlast; last_call.
  all: try (intros Hlast; discriminate Hlast).
  all: try (intros Hlast; injection Hlast as <- <-; norm_tests; subst;
            repeat split; try congruence; try (intros; congruence)).
  intros Hlast. exfalso.
  apply (last_of_Forall _ _ _ d) in Hrest.
  change (last (first :: rest) d = (mm_dms_set_power_sync mode, r)) in Hlast.
  rewrite Hlast in Hrest. exact (Hrest mode eq_refl).
Qed.

End MainRuns.

(** *** Runs on the scripted host *)

Section MainRunsExamples.

Import Main MainMore Examples.

(** Two sleeps, then SIGINT. *)
Lemma run_sessions_up_returns_on_flag_witness :
  let st := script [0; 0] false true in
  match run_sessions_up 3 st with
  | Some (status, st') =>
      status = 0
      /\ exit_requested st' = exit_requested st
      /\ flag_up (exit_requested st') (world st') = true
      /\ exists slept,
           calls_of (trace st') = calls_of (trace st) ++ slept
           /\ Forall (fun e => fst e = sleep 1) slept
  | None => False
  end.
Proof.
  cbv zeta.
  destruct (run_sessions_up 3 (script [0; 0] false true))
    as [ [ status st' ] | ] eqn:Hrun;
    [ | vm_compute in Hrun; discriminate Hrun ].
  exact (run_sessions_up_returns_on_flag 3 _ _ _ Hrun).
Defined.

(** Two sleeps, then SIGINT, with fuel for three turns. *)
Lemma run_sessions_up_returns_witness :
  let st := script [0; 0] false true in
  (2 <= 3)%nat
  /\ flag_up (exit_requested st) (after_sleeps 2 (world st)) = true
  /\ exists st',
       run_sessions_up 3 st = Some (0, st')
       /\ exit_requested st' = exit_requested st
       /\ (flag_up (exit_requested st) (world st) = true ->
           calls_of (trace st') = calls_of (trace st)).
Proof.
  cbv zeta. split; [ lia | split; [ reflexivity | ] ].
  apply (run_sessions_up_returns 2 3 (script [0; 0] false true));
    [ lia | reflexivity ].
Defined.

(** One whole turn with both sessions up, ended by SIGINT while
    monitoring. *)
Lemma initialize_success_needs_sigint_witness :
  let st := script (repeat 0 30) false true in
  exit_requested st = false
  /\ match initialize no_effect 8 st with
     | Some (0, st') =>
         exit_requested st' = false /\ sigint_handled (world st') = true
     | _ => False
     end.
Proof.
  cbv zeta. split; [ reflexivity | ].
  destruct (initialize no_effect 8 (script (repeat 0 30) false true))
    as [ [ [ | p | p ] st' ] | ] eqn:Hrun;
    try (vm_compute in Hrun; discriminate Hrun).
  apply (initialize_success_needs_sigint no_effect 8
           (script (repeat 0 30) false true) st');
    [ reflexivity | exact Hrun ].
Defined.

(** The wg setconf fails with 9 after the IPv4 session has started. *)
Lemma run_up_ipv4_session_lifecycle_witness :
  let st := script [0; 0; 0; 0; 0; 0; 9] false false in
  match run_up_ipv4 no_effect 0 st with
  | Some (status, st') =>
      exists r rest,
        calls_of (trace st')
        = calls_of (trace st) ++ (mm_wds_initialize IPV4, r) :: rest
        /\ ((r <> 0 /\ rest = [])
            \/ (r = 0 /\ exists s d,
                  s <> 0
                  /\ (rest = [(mm_wds_set_ip_family_preference IPV4 IPV4, s);
                              (mm_wds_shutdown IPV4, d)]
                      \/ rest
                         = [(mm_wds_set_ip_family_preference IPV4 IPV4, 0);
                            (mm_wds_start_data_session IPV4
                               PROFILE_3GPP_VZWINTERNET AF_INET, s);
                            (mm_wds_shutdown IPV4, d)]))
            \/ (r = 0 /\ exists body c d,
                  rest = (mm_wds_set_ip_family_preference IPV4 IPV4, 0)
                         :: (mm_wds_start_data_session IPV4
                               PROFILE_3GPP_VZWINTERNET AF_INET, 0)
                         :: body
                         ++ [(mm_wds_stop_data_session IPV4, c);
                             (mm_wds_shutdown IPV4, d)]
                  /\ Forall (fun e => lifecycle IPV4 (fst e) = false
                                      /\ lifecycle IPV6 (fst e) = false)
                       body))
  | None => False
  end.
Proof.
  cbv zeta.
  destruct (run_up_ipv4 no_effect 0
              (script [0; 0; 0; 0; 0; 0; 9] false false))
    as [ [ status st' ] | ] eqn:Hrun;
    [ | vm_compute in Hrun; discriminate Hrun ].
  exact (run_up_ipv4_session_lifecycle no_effect 0 _ _ _ Hrun).
Defined.

(** The IPv4 start is refused with 1014 inside a started IPv6 session. *)
Lemma run_up_ipv6_session_lifecycle_witness :
  let st := script [0; 0; 0; 0; 0; 0; 0; 1014] false false in
  match run_up_ipv6 no_effect 0 st with
  | Some (status, st') =>
      exists r rest,
        calls_of (trace st')
        = calls_of (trace st) ++ (mm_wds_initialize IPV6, r) :: rest
        /\ ((r <> 0 /\ rest = [])
            \/ (r = 0 /\ exists s d,
                  s <> 0
                  /\ (rest = [(mm_wds_set_ip_family_preference IPV6 IPV6, s);
                              (mm_wds_shutdown IPV6, d)]
                      \/ rest
                         = [(mm_wds_set_ip_family_preference IPV6 IPV6, 0);
                            (mm_wds_start_data_session IPV6
                               PROFILE_3GPP_VZWINTERNET AF_INET6, s);
                            (mm_wds_shutdown IPV6, d)]))
            \/ (r = 0 /\ exists body c d,
                  rest = (mm_wds_set_ip_family_preference IPV6 IPV6, 0)
                         :: (mm_wds_start_data_session IPV6
                               PROFILE_3GPP_VZWINTERNET AF_INET6, 0)
                         :: body
                         ++ [(mm_wds_stop_data_session IPV6, c);
                             (mm_wds_shutdown IPV6, d)]
                  /\ Forall (fun e => lifecycle IPV6 (fst e) = false) body))
  | None => False
  end.
Proof.
  cbv zeta.
  destruct (run_up_ipv6 no_effect 0
              (script [0; 0; 0; 0; 0; 0; 0; 1014] false false))
    as [ [ status st' ] | ] eqn:Hrun;
    [ | vm_compute in Hrun; discriminate Hrun ].
  exact (run_up_ipv6_session_lifecycle no_effect 0 _ _ _ Hrun).
Defined.

(** Starting unbound.service fails with 5. *)
Lemma run_up_ipv4_fatal_failures_witness :
  let st := script [0; 0; 5] false false in
  exit_requested st = false
  /\ match run_up_ipv4_connected 0 st with
     | Some (status, st') =>
         exit_requested st' = true
         /\ status <> 0
         /\ exists c,
              last (calls_of (trace st')) (sleep 0, 0) = (c, status)
              /\ (c = mm_apply_ipv4_runtime_settings false
                  \/ c = mm_sdbus_manage_service "StartUnit" "unbound.service"
                  \/ c = mm_sdbus_manage_service "StartUnit" "chrony.service")
     | None => False
     end.
Proof.
  cbv zeta. split; [ reflexivity | ].
  destruct (run_up_ipv4_connected 0 (script [0; 0; 5] false false))
    as [ [ status st' ] | ] eqn:Hrun;
    [ | vm_compute in Hrun; discriminate Hrun ].
  assert (Hexit : exit_requested st' = true).
  { pose proof Hrun as Hval. vm_compute in Hval.
    injection Hval as _ <-. reflexivity. }
  split; [ exact Hexit | ].
  apply (run_up_ipv4_fatal_failures 0 (script [0; 0; 5] false false) st'
           status (sleep 0, 0));
    [ reflexivity | exact Hrun | exact Hexit ].
Defined.

(** Applying the wg0 routes fails with 3. *)
Lemma run_up_ipv4_tunnel_failures_witness :
  let st := script [0; 0; 0; 0; 0; 3] false false in
  match run_up_ipv4_connected 0 st with
  | Some (status, st') =>
      last (calls_of (trace st')) (sleep 0, 0)
      = (mm_netlink_ensure_wg0_routes_are_applied, 3)
      /\ 3 <> 0
      /\ exit_requested st' = exit_requested st
      /\ (mm_netlink_ensure_wg0_routes_are_applied
          <> mm_netlink_ensure_wg0_routes_are_applied -> status = 3)
      /\ (mm_netlink_ensure_wg0_routes_are_applied
          = mm_netlink_ensure_wg0_routes_are_applied -> status = 0)
  | None => False
  end.
Proof.
  cbv zeta.
  destruct (run_up_ipv4_connected 0 (script [0; 0; 0; 0; 0; 3] false false))
    as [ [ status st' ] | ] eqn:Hrun;
    [ | vm_compute in Hrun; discriminate Hrun ].
  assert (Hlast : last (calls_of (trace st')) (sleep 0, 0)
                  = (mm_netlink_ensure_wg0_routes_are_applied, 3)).
  { pose proof Hrun as Hval. vm_compute in Hval.
    injection Hval as _ <-. reflexivity. }
  split; [ exact Hlast | ].
  exact (run_up_ipv4_tunnel_failures 0 _ _ _ _ _ _ Hrun Hlast
           (or_intror (or_intror eq_refl))).
Defined.

(** The modem accepts the request but stays in low-power mode. *)
Lemma power_failure_breaks_without_dms_shutdown_witness :
  let st := {| world := {| replies := []; mode_out := 1; present := true;
                           down := false; interrupt_at_end := false |};
               exit_requested := false;
               trace := [] |} in
  match initialize_iteration no_effect 0 st with
  | Some (out, st') =>
      last (calls_of (trace st')) (sleep 0, 0)
      = (mm_dms_set_power_sync Dms.MM_DMS_OPERATION_MODE_ONLINE, 0)
      /\ calls_of (trace st')
         = calls_of (trace st)
           ++ [(mm_netlink_reload_link_cache, 0);
               (mm_sdbus_manage_service "StopUnit" "chrony.service", 0);
               (mm_sdbus_manage_service "StopUnit" "unbound.service", 0);
               (mm_netlink_ensure_wwan_interface_state true, 0);
               (mm_netlink_addr_flush, 0);
               (mm_dms_initialize, 0);
               (mm_dms_set_power_sync Dms.MM_DMS_OPERATION_MODE_ONLINE, 0)]
      /\ exit_requested st' = exit_requested st
      /\ (0 <> 0 -> out = loop_break 0)
      /\ (0 = 0 ->
          out = loop_break (-1)
          /\ resulting_mode (world st') <> Dms.MM_DMS_OPERATION_MODE_ONLINE)
  | None => False
  end.
Proof.
  cbv zeta.
  destruct (initialize_iteration no_effect 0 _)
    as [ [ out st' ] | ] eqn:Hrun;
    [ | vm_compute in Hrun; discriminate Hrun ].
  assert (Hlast : last (calls_of (trace st')) (sleep 0, 0)
                  = (mm_dms_set_power_sync Dms.MM_DMS_OPERATION_MODE_ONLINE,
                     0)).
  { pose proof Hrun as Hval. vm_compute in Hval.
    injection Hval as _ <-. reflexivity. }
  split; [ exact Hlast | ].
  exact (power_failure_breaks_without_dms_shutdown no_effect 0 _ _ _ _ _ _
           Hrun Hlast).
Defined.

End MainRunsExamples.

(** ** Service objects *)

Section QmiServices.

Import Qmi.

Context {M : Type} `{QmiStack M}.

Variable eQCWWAN_ERR_QMI_NO_MEMORY : Z.

(** Running one request on the traced stack. *)
Lemma noted_run {A : Type} (r : request) (f : M -> A * M) (t : traced M) :
  noted r f t = (fst (f (fst t)), (snd (f (fst t)), snd t ++ [r])).
Proof. unfold noted. destruct (f (fst t)); reflexivity. Qed.

Ltac trace_requests :=
  cbn [traced_stack CtlService_InitializeRegularServiceEx
       CtlService_ShutDownRegularService send_GetModelID malloc_succeeds
       send_GetAutoconnect send_SetAutoconnect send_SLQSStartDataSession
       send_SLQSStopDataSession] in *;
  rewrite ?noted_run in *; cbn [fst snd] in *.

(** X19.  [mm_dms_shutdown] always asks for both service objects to be
    shut down, the SWI DMS one first, whatever the first answer is; it
    returns 0 exactly when both answers are 0, and the answer for the DMS
    object when both fail.  The cached model id is dropped exactly when
    [deallocate_cached_fields] is set. *)
Theorem dms_shutdown_releases_both (dms : mm_dms_service)
    (deallocate_cached_fields : bool) (t : traced M) :
  let swi := CtlService_ShutDownRegularService eSWIDMS (fst t) in
  let dms_answer := CtlService_ShutDownRegularService eDMS (snd swi) in
  let '(status, dms', t') :=
    mm_dms_shutdown dms deallocate_cached_fields t in
  snd t' = snd t ++ [ShutDownRegularService eSWIDMS;
                      ShutDownRegularService eDMS]
  /\ (status = 0 <-> fst swi = 0 /\ fst dms_answer = 0)
  /\ (fst dms_answer <> 0 -> status = fst dms_answer)
  /\ model_id dms'
     = if deallocate_cached_fields then None else model_id dms.
Proof.
  unfold mm_dms_shutdown. trace_requests.
  set (s1 := fst (CtlService_ShutDownRegularService eSWIDMS (fst t))).
  set (s2 := fst (CtlService_ShutDownRegularService eDMS _)).
  unfold eQCWWAN_ERR_NONE. rewrite <- app_assoc.
  destruct (Z.eqb_spec s2 0) as [ Hs2 | Hs2 ]; cbn [negb app];
    repeat split; try tauto; try lia;
    destruct deallocate_cached_fields; reflexivity.
Qed.

Lemma noted_inv {A : Type} (r : request) (f : M -> A * M)
    (t t1 : traced M) (a : A) :
  noted r f t = (a, t1) ->
  f (fst t) = (a, fst t1) /\ snd t1 = snd t ++ [r].
Proof.
  unfold noted. destruct (f (fst t)) as [a' m]. intros Heq.
  injection Heq as <- <-. split; reflexivity.
Qed.

(** Taking a run on the traced stack apart, one request at a time. *)
Ltac qmi_step :=
  match goal with
  | E : noted _ _ _ = (_, _) |- _ =>
      apply noted_inv in E; destruct E as [? ?]
  | Hrun : context [match ?e with | pair _ _ => _ end] |- _ =>
      destruct e eqn:?
  | Hrun : context [if ?c then _ else _] |- _ => destruct c eqn:?
  | Hrun : context [match ?e with Some _ => _ | None => _ end] |- _ =>
      destruct e eqn:?
  | Hrun : (_, _) = (_, _) |- _ => injection Hrun as ? ?; subst
  end.

Ltac qmi_steps :=
  cbn [traced_stack CtlService_InitializeRegularServiceEx
       CtlService_ShutDownRegularService send_GetModelID malloc_succeeds
       send_GetAutoconnect send_SetAutoconnect send_SLQSStartDataSession
       send_SLQSStopDataSession] in *;
  repeat qmi_step.

(** Turning the tests met along a run into facts about statuses. *)
Ltac status_facts :=
  unfold eQCWWAN_ERR_NONE in *;
  repeat match goal with
  | Ht : (_ =? _) = true |- _ => apply Z.eqb_eq in Ht
  | Ht : (_ =? _) = false |- _ => apply Z.eqb_neq in Ht
  | Ht : negb _ = true |- _ => apply negb_true_iff in Ht
  | Ht : negb _ = false |- _ => apply negb_false_iff in Ht
  | Ht : _ && _ = true |- _ => apply andb_true_iff in Ht; destruct Ht
  end.

(** Collecting the requests of a run from the facts on its steps. *)
Ltac requests_norm :=
  repeat match goal with
         | Hs : snd ?x = _ |- context [snd ?x] => rewrite Hs
         end;
  rewrite <- ?app_assoc; cbn [app].



(** X21.  The model id is asked for once.  With a model id cached,
    [mm_dms_initialize] never sends GetModelID and never allocates, and
    it keeps the cached id whatever its outcome; [mm_dms_shutdown] keeps
    the id unless told to deallocate.  So the turns of the outer loop,
    which shut down with [deallocate_cached_fields] unset until an exit
    is requested, query the modem for its model only in the first. *)
Theorem model_id_is_cached (dms dms' : mm_dms_service) (id : string)
    (t t' : traced M) (status : Z) :
  model_id dms = Some id ->
  mm_dms_initialize eQCWWAN_ERR_QMI_NO_MEMORY dms t = (status, dms', t') ->
  model_id dms' = Some id
  /\ (exists done,
        snd t' = snd t ++ done
        /\ Forall (fun r => r <> pack_dms_GetModelID
                            /\ forall size, r <> malloc size) done)
  /\ forall u, model_id (snd (fst (mm_dms_shutdown dms' false u))) = Some id.
Proof.
  intros Hid Hrun. unfold mm_dms_initialize in Hrun. rewrite Hid in Hrun.
  qmi_steps.
  all: (split; [ assumption | split ]).
  all: try (eexists; split; [ requests_norm; reflexivity | ];
            repeat first [ apply Forall_nil
                         | apply Forall_cons;
                           [ split; [ | intros size ]; discriminate | ] ]).
  all: intros u; unfold mm_dms_shutdown;
    repeat match goal with
           | |- context [match ?e with | pair _ _ => _ end] => destruct e
           end; assumption.
Qed.

(** X22.  A model id appears only after a complete query: when
    [mm_dms_initialize] starts without one and leaves one behind, it
    returned 0, the modem answered GetModelID with status 0, result 0
    and TLV 1 present, the id is the string of that answer, and the
    buffer asked of the allocator has room for it and its terminator. *)
Theorem model_id_comes_from_the_modem (dms dms' : mm_dms_service)
    (id : string) (t t' : traced M) (status : Z) :
  model_id dms = None ->
  mm_dms_initialize eQCWWAN_ERR_QMI_NO_MEMORY dms t = (status, dms', t') ->
  model_id dms' = Some id ->
  status = 0
  /\ snd t' = snd t ++ [InitializeRegularServiceEx eSWIDMS;
                         InitializeRegularServiceEx eDMS;
                         pack_dms_GetModelID;
                         malloc (Z.of_nat (String.length id) + 1)]
  /\ exists m resp m',
       send_GetModelID m = (0, resp, m')
       /\ gm_Tlvresult resp = 0
       /\ swi_uint256_get_bit (gm_ParamPresenceMask resp) 1 = true
       /\ modelid resp = id.
Proof.
  intros Hnone Hrun Hid.
  unfold mm_dms_initialize, dms_get_model_sync in Hrun.
  rewrite Hnone in Hrun. qmi_steps.
  all: cbn [model_id] in Hid; try congruence.
  all: status_facts; try lia.
  all: injection Hid as <-;
    (split; [ lia | split; [ requests_norm; reflexivity | ] ]).
  all: match goal with
       | Hsend : send_GetModelID ?m = (?s, ?resp, ?m') |- _ =>
           exists m, resp, m'; replace s with 0 in Hsend by lia;
           repeat split; assumption
       end.
Qed.


(** X23.  [mm_wds_set_autoconnect_settings] asked for two real
    settings.  It sends GetAutoconnect and then at most one
    SetAutoconnect, carrying the two requested values.  When it returns
    0 without having sent SetAutoconnect, the modem reported exactly the
    requested pair: TLV 1 present with the requested setting, and a roam
    setting pointer holding the requested one.  With a modem that
    reports no roam setting, a return of 0 therefore always comes after
    a SetAutoconnect. *)
Theorem set_autoconnect_writes_unless_current (setting roam status : Z)
    (t t' : traced M) :
  setting <> MM_WDS_AUTOCONNECT_SETTING_INVALID ->
  roam <> MM_WDS_AUTOCONNECT_ROAM_SETTING_INVALID ->
  mm_wds_set_autoconnect_settings setting roam t = (status, t') ->
  (snd t' = snd t ++ [pack_wds_GetAutoconnect]
   \/ snd t' = snd t ++ [pack_wds_GetAutoconnect;
                          pack_wds_SetAutoconnect setting roam])
  /\ (status = 0 ->
      snd t' = snd t ++ [pack_wds_GetAutoconnect] ->
      let resp := snd (fst (send_GetAutoconnect (fst t))) in
      swi_uint256_get_bit (ga_ParamPresenceMask resp) 1 = true
      /\ autoconnect_setting resp = setting
      /\ pAutoconnect_roam_setting resp = Some roam).
Proof.
  intros Hsetting Hroam Hrun.
  unfold mm_wds_set_autoconnect_settings, mm_wds_get_autoconnect_settings
    in Hrun.
  unfold MM_WDS_AUTOCONNECT_SETTING_INVALID,
    MM_WDS_AUTOCONNECT_ROAM_SETTING_INVALID in *.
  qmi_steps.
  all: status_facts; try lia.
  all: match goal with
       | Hs : send_GetAutoconnect _ = _ |- _ => rewrite Hs
       end; cbn [fst snd].
  all: (split;
        [ requests_norm; first [ left; reflexivity | right; reflexivity ]
        | intros Hzero; requests_norm; intros Honly ]).
  all: try (apply app_inv_head in Honly; discriminate Honly).
  all: try lia.
  all: repeat split; try assumption; try congruence; try lia.
Qed.

(** X24.  The failure reasons of [mm_wds_start_data_session] are
    never reported together with a failure.  Whenever the function
    returns a non-zero status, [*reason_present] and
    [*verbose_reason_present] are both false, because the two TLVs are
    only looked at on the path that returns 0; and a return of 0 means
    the answer had result 0 and carried the session id TLV.  In either
    case one StartDataSession request was sent and the profile and the
    family are recorded in the session. *)
Theorem start_failure_carries_no_reason (session : Wds.mm_wds_session)
    (profile family : Z) (t t' : traced M) (result : start_result) :
  mm_wds_start_data_session session profile family t = (result, t') ->
  snd t' = snd t ++ [pack_wds_SLQSStartDataSession profile]
  /\ Wds.profile (st_session result) = profile
  /\ Wds.family (st_session result) = family
  /\ (st_status result <> 0 ->
      reason_present result = false
      /\ verbose_reason_present result = false)
  /\ (st_status result = 0 ->
      let resp := snd (fst (send_SLQSStartDataSession profile (fst t))) in
      sd_Tlvresult resp = 0
      /\ swi_uint256_get_bit (sd_ParamPresenceMask resp) 1 = true
      /\ Wds.session_id (st_session result) = stored (psid resp)).
Proof.
  intros Hrun. unfold mm_wds_start_data_session in Hrun. qmi_steps.
  all: status_facts.
  all: match goal with
       | Hs : send_SLQSStartDataSession _ _ = _ |- _ => rewrite Hs
       end; cbn [fst snd st_status st_session reason_present
                 verbose_reason_present Wds.profile Wds.family
                 Wds.session_id].
  all: repeat split; try assumption; try lia; try congruence.
Qed.

(** X25.  Stopping what was started.  [mm_wds_stop_data_session] on the
    session left by [mm_wds_start_data_session] sends the session id the
    start answer stored, or 0 when it stored none; it returns 0 exactly
    when the request went through and the modem's result is 0. *)
Theorem stop_sends_the_started_session_id (session : Wds.mm_wds_session)
    (profile family status : Z) (t t1 t2 : traced M)
    (result : start_result) :
  mm_wds_start_data_session session profile family t = (result, t1) ->
  mm_wds_stop_data_session (st_session result) t1 = (status, t2) ->
  let resp := snd (fst (send_SLQSStartDataSession profile (fst t))) in
  let answer := fst (send_SLQSStopDataSession (stored (psid resp)) (fst t1)) in
  snd t2 = snd t ++ [pack_wds_SLQSStartDataSession profile;
                     pack_wds_SLQSStopDataSession (stored (psid resp))]
  /\ (status = 0 <-> fst answer = 0 /\ snd answer = 0).
Proof.
  intros Hstart Hstop.
  unfold mm_wds_start_data_session in Hstart.
  unfold mm_wds_stop_data_session in Hstop. qmi_steps.
  all: status_facts.
  all: repeat match goal with
       | Hs : send_SLQSStartDataSession _ _ = _ |- _ => rewrite Hs; clear Hs
       end; cbn [fst snd st_session Wds.session_id] in *.
  all: repeat match goal with
       | Hs : send_SLQSStopDataSession _ _ = _ |- _ => rewrite Hs; clear Hs
       end; cbn [fst snd].
  all: (split; [ requests_norm; reflexivity | ]).
  all: split; [ intros Hzero | intros [ Hsent Hres ] ];
    repeat split; try assumption; try lia; try congruence.
Qed.

(** X26.  What [mm_exec_wireguard_setconf] hands to its caller.  In the
    parent ([fork] did not return 0) the call returns a value between -1
    and 255, and it returns 0 exactly when the child was created, waited
    for, and left through [exit] with code 0.  The child never returns:
    it becomes wg, or exits with 255 when [execl] comes back. *)
Theorem wireguard_setconf_result (child waited wstatus : Z)
    (execl_returned : bool) :
  (child <> 0 ->
   exists v,
     mm_exec_wireguard_setconf child execl_returned waited wstatus = returns v
     /\ -1 <= v <= 255
     /\ (v = 0 <->
         0 < child /\ 0 <= waited
         /\ WIFEXITED wstatus = true /\ WEXITSTATUS wstatus = 0))
  /\ (child = 0 ->
      forall v,
        mm_exec_wireguard_setconf child execl_returned waited wstatus
        <> returns v).
Proof.
  unfold mm_exec_wireguard_setconf. split.
  - intros Hchild.
    assert (Hrange : 0 <= WEXITSTATUS wstatus <= 255).
    { unfold WEXITSTATUS. rewrite Z.shiftr_land.
      change (Z.shiftr 0xff00 8) with (Z.ones 8).
      rewrite Z.land_ones by lia.
      pose proof (Z.mod_pos_bound (Z.shiftr wstatus 8) (2 ^ 8)) as Hmod.
      lia. }
    destruct (Z.eqb_spec child 0) as [ | _ ]; [ contradiction | ].
    destruct (Z.ltb_spec child 0) as [ Hfail | Hforked ].
    { exists 1. repeat split; try lia. }
    destruct (Z.ltb_spec waited 0) as [ Hwait | Hwaited ].
    { exists (-1). repeat split; try lia. }
    destruct (WIFEXITED wstatus) eqn:Hexited; cbn [negb].
    + exists (WEXITSTATUS wstatus). repeat split; try lia; tauto.
    + exists (-1). repeat split; try lia.
  - intros ->. cbn. destruct execl_returned; intros v; discriminate.
Qed.


End QmiServices.

(** *** Runs on the scripted vendor stack *)

Section QmiServicesExamples.

Import Qmi QmiExamples.


(** The second service object cannot be initialised; the id is kept. *)
Lemma model_id_is_cached_witness :
  let dms := {| model_id := Some "EM7565" |} in
  let t := fresh [0; 7] in
  model_id dms = Some "EM7565"
  /\ let '(status, dms', t') := mm_dms_initialize no_memory dms t in
     model_id dms' = Some "EM7565"
     /\ (exists done,
           snd t' = snd t ++ done
           /\ Forall (fun r => r <> pack_dms_GetModelID
                               /\ forall size, r <> malloc size) done)
     /\ forall u,
          model_id (snd (fst (mm_dms_shutdown dms' false u)))
          = Some "EM7565".
Proof.
  cbv zeta. split; [ reflexivity | ].
  destruct (mm_dms_initialize no_memory {| model_id := Some "EM7565" |}
              (fresh [0; 7])) as [ [ status dms' ] t' ] eqn:Hrun.
  apply (model_id_is_cached no_memory {| model_id := Some "EM7565" |} dms'
           "EM7565" (fresh [0; 7]) t' status);
    [ reflexivity | exact Hrun ].
Defined.

(** Everything succeeds and the model id is fetched. *)
Lemma model_id_comes_from_the_modem_witness :
  let dms := {| model_id := None |} in
  let t := fresh [] in
  model_id dms = None
  /\ let '(status, dms', t') := mm_dms_initialize no_memory dms t in
     model_id dms' = Some "EM7565"
     /\ status = 0
     /\ snd t' = snd t ++ [InitializeRegularServiceEx eSWIDMS;
                            InitializeRegularServiceEx eDMS;
                            pack_dms_GetModelID;
                            malloc (Z.of_nat (String.length "EM7565") + 1)].
Proof.
  cbv zeta. split; [ reflexivity | ].
  destruct (mm_dms_initialize no_memory {| model_id := None |} (fresh []))
    as [ [ status dms' ] t' ] eqn:Hrun.
  assert (Hid : model_id dms' = Some "EM7565").
  { pose proof Hrun as Hval. vm_compute in Hval.
    injection Hval as _ <- _. reflexivity. }
  split; [ exact Hid | ].
  destruct (model_id_comes_from_the_modem no_memory {| model_id := None |}
              dms' "EM7565" (fresh []) t' status (eq_refl None) Hrun Hid)
    as (Hstatus & Hrequests & _).
  split; [ exact Hstatus | exact Hrequests ].
Defined.

(** The modem reports autoconnect enabled: the settings are written. *)
Lemma set_autoconnect_writes_unless_current_witness :
  let t := fresh [] in
  MM_WDS_AUTOCONNECT_SETTING_DISABLED <> MM_WDS_AUTOCONNECT_SETTING_INVALID
  /\ MM_WDS_AUTOCONNECT_ROAM_SETTING_HOME_ONLY
     <> MM_WDS_AUTOCONNECT_ROAM_SETTING_INVALID
  /\ let '(status, t') :=
       mm_wds_set_autoconnect_settings MM_WDS_AUTOCONNECT_SETTING_DISABLED
         MM_WDS_AUTOCONNECT_ROAM_SETTING_HOME_ONLY t in
     status = 0
     /\ (snd t' = snd t ++ [pack_wds_GetAutoconnect]
         \/ snd t' = snd t ++ [pack_wds_GetAutoconnect;
                                pack_wds_SetAutoconnect
                                  MM_WDS_AUTOCONNECT_SETTING_DISABLED
                                  MM_WDS_AUTOCONNECT_ROAM_SETTING_HOME_ONLY]).
Proof.
  cbv zeta. split; [ discriminate | split; [ discriminate | ] ].
  destruct (mm_wds_set_autoconnect_settings
              MM_WDS_AUTOCONNECT_SETTING_DISABLED
              MM_WDS_AUTOCONNECT_ROAM_SETTING_HOME_ONLY (fresh []))
    as [ status t' ] eqn:Hrun.
  split.
  - pose proof Hrun as Hval. vm_compute in Hval.
    injection Hval as <- _. reflexivity.
  - refine (proj1 (set_autoconnect_writes_unless_current _ _ _ _ _ _ _ Hrun));
      discriminate.
Defined.

(** The start request is refused with 1014. *)
Lemma start_failure_carries_no_reason_witness :
  let t := fresh [1014] in
  let '(result, t') :=
    mm_wds_start_data_session blank_session 3 AF_INET t in
  st_status result = 1014
  /\ snd t' = snd t ++ [pack_wds_SLQSStartDataSession 3]
  /\ Wds.profile (st_session result) = 3
  /\ Wds.family (st_session result) = AF_INET
  /\ (st_status result <> 0 ->
      reason_present result = false
      /\ verbose_reason_present result = false).
Proof.
  cbv zeta.
  destruct (mm_wds_start_data_session blank_session 3 AF_INET
              (fresh [1014])) as [ result t' ] eqn:Hrun.
  split.
  - pose proof Hrun as Hval. vm_compute in Hval.
    injection Hval as <- _. reflexivity.
  - destruct (start_failure_carries_no_reason _ _ _ _ _ _ Hrun)
      as (Hsent & Hprofile & Hfamily & Hfailed & _).
    repeat split; try assumption; apply Hfailed; assumption.
Defined.

(** A session is started and then stopped. *)
Lemma stop_sends_the_started_session_id_witness :
  let t := fresh [] in
  let '(result, t1) :=
    mm_wds_start_data_session blank_session 3 AF_INET t in
  let '(status, t2) := mm_wds_stop_data_session (st_session result) t1 in
  status = 0
  /\ snd t2 = snd t ++ [pack_wds_SLQSStartDataSession 3;
                        pack_wds_SLQSStopDataSession 7].
Proof.
  cbv zeta.
  destruct (mm_wds_start_data_session blank_session 3 AF_INET (fresh []))
    as [ result t1 ] eqn:Hstart.
  destruct (mm_wds_stop_data_session (st_session result) t1)
    as [ status t2 ] eqn:Hstop.
  pose proof Hstart as Hval. vm_compute in Hval. injection Hval as <- <-.
  destruct (stop_sends_the_started_session_id _ _ _ _ _ _ _ _ Hstart Hstop)
    as [ Hsent Hstatus ].
  split.
  - apply Hstatus. split; reflexivity.
  - exact Hsent.
Defined.


End QmiServicesExamples.

(** ** The objects behind struct mm_netlink *)

Section NetlinkObjects.

Import NetlinkSetup.

Context {L : Type} `{Libnl L}.

(** Taking a setup function apart along the answers of libnl. *)
Ltac setup_step :=
  match goal with
  | Hrun : (_, _) = (_, _) |- _ =>
      first [ discriminate Hrun | injection Hrun as ? ?; subst ]
  | Hrun : match ?e with | pair _ _ => _ end = _ |- _ => destruct e eqn:?
  | Hrun : (if ?c then _ else _) = _ |- _ => destruct c eqn:?
  | Hrun : match ?e with Some _ => _ | None => _ end = _ |- _ =>
      destruct e eqn:?
  end.

Ltac setup_steps :=
  repeat (unfold then_release in *; setup_step; cbn [negb app] in * ).

Lemma allocate_ipv4_addrs_cases (l l' : L) (status : Z)
    (events : list event) :
  allocate_ipv4_addrs l = (status, events, l') ->
  (status = 0
   /\ events = [stored default_route_addr4; stored gateway_addr4;
                stored nl_wwan_addr4; stored default_route4;
                stored wwan_addr4])
  \/ (status = -1
      /\ In events
           [ [];
             [stored default_route_addr4; released default_route_addr4];
             [stored default_route_addr4; stored gateway_addr4;
              released gateway_addr4; released default_route_addr4];
             [stored default_route_addr4; stored gateway_addr4;
              stored nl_wwan_addr4;
              released nl_wwan_addr4; released gateway_addr4;
              released default_route_addr4];
             [stored default_route_addr4; stored gateway_addr4;
              stored nl_wwan_addr4; stored default_route4;
              released default_route4; released nl_wwan_addr4;
              released gateway_addr4; released default_route_addr4];
             [stored default_route_addr4; stored gateway_addr4;
              stored nl_wwan_addr4; stored default_route4;
              stored wwan_addr4;
              released default_route4; released nl_wwan_addr4;
              released gateway_addr4; released default_route_addr4] ]).
Proof.
  intros Hrun. unfold allocate_ipv4_addrs in Hrun. setup_steps.
  all: first [ left; split; reflexivity
             | right; split; [ reflexivity | cbn [In]; tauto ] ].
Qed.

Lemma allocate_ipv6_addrs_cases (l l' : L) (status : Z)
    (events : list event) :
  allocate_ipv6_addrs l = (status, events, l') ->
  (status = 0
   /\ events = [stored default_route_addr6; stored gateway_addr6;
                stored nl_wwan_addr6; stored default_route6;
                stored wwan_addr6])
  \/ (status = -1
      /\ In events
           [ [];
             [stored default_route_addr6; released default_route_addr6];
             [stored default_route_addr6; stored gateway_addr6;
              released gateway_addr6; released default_route_addr6];
             [stored default_route_addr6; stored gateway_addr6;
              stored nl_wwan_addr6;
              released nl_wwan_addr6; released gateway_addr6;
              released default_route_addr6];
             [stored default_route_addr6; stored gateway_addr6;
              stored nl_wwan_addr6; stored default_route6;
              released default_route6; released nl_wwan_addr6;
              released gateway_addr6; released default_route_addr6];
             [stored default_route_addr6; stored gateway_addr6;
              stored nl_wwan_addr6; stored default_route6;
              stored wwan_addr6;
              released default_route6; released nl_wwan_addr6;
              released gateway_addr6; released default_route_addr6] ]).
Proof.
  intros Hrun. unfold allocate_ipv6_addrs in Hrun. setup_steps.
  all: first [ left; split; reflexivity
             | right; split; [ reflexivity | cbn [In]; tauto ] ].
Qed.

Lemma allocate_wg0_resources_cases (l l' : L) (status : Z)
    (events : list event) :
  allocate_wg0_resources l = (status, events, l') ->
  (status = 0
   /\ events = [stored wg0_gateway_address; stored wg0_self_address;
                stored wg0_tgt_address; stored wg0_tgt_route;
                stored wg0_tgt_nexthop])
  \/ (status = -1
      /\ In events
           [ [];
             [stored wg0_gateway_address];
             [stored wg0_gateway_address; stored wg0_self_address];
             [stored wg0_gateway_address; stored wg0_self_address;
              stored wg0_tgt_address;
              released wg0_tgt_address; released wg0_self_address;
              released wg0_gateway_address];
             [stored wg0_gateway_address; stored wg0_self_address;
              stored wg0_tgt_address; stored wg0_tgt_route;
              released wg0_tgt_route; released wg0_tgt_address;
              released wg0_self_address; released wg0_gateway_address] ]).
Proof.
  intros Hrun. unfold allocate_wg0_resources in Hrun. setup_steps.
  all: first [ left; split; reflexivity
             | right; split; [ reflexivity | cbn [In]; tauto ] ].
Qed.


(** Going through the members of a finite list of cases. *)
Ltac each_case Hin :=
  cbn [In] in Hin;
  repeat match type of Hin with
         | _ \/ _ => destruct Hin as [ Hin | Hin ]
         end;
  [ subst .. | contradiction ].

(** X28.  What the three allocators of src/netlink.c leave behind.  On
    success each has stored its five objects and released none.  On
    failure, [allocate_ipv4_addrs] and [allocate_ipv6_addrs] have
    released everything they stored, except the address object
    ([wwan_addr4], [wwan_addr6]) when [rtnl_addr_set_local] is what
    failed; [allocate_wg0_resources] has released everything when the
    route or the next hop could not be allocated, but keeps the gateway
    address when the second [nl_addr_build] fails, and the gateway and
    self addresses when the third one fails. *)
Theorem allocators_release_on_failure (l l' : L) (status : Z)
    (events : list event) :
  (allocate_ipv4_addrs l = (status, events, l') ->
   (status = 0
    /\ outstanding events
       = [default_route_addr4; gateway_addr4; nl_wwan_addr4;
          default_route4; wwan_addr4])
   \/ (status = -1
       /\ ((outstanding events = [] /\ ~ In (stored wwan_addr4) events)
           \/ (outstanding events = [wwan_addr4]
               /\ In (stored wwan_addr4) events))))
  /\ (allocate_ipv6_addrs l = (status, events, l') ->
      (status = 0
       /\ outstanding events
          = [default_route_addr6; gateway_addr6; nl_wwan_addr6;
             default_route6; wwan_addr6])
      \/ (status = -1
          /\ ((outstanding events = [] /\ ~ In (stored wwan_addr6) events)
              \/ (outstanding events = [wwan_addr6]
                  /\ In (stored wwan_addr6) events))))
  /\ (allocate_wg0_resources l = (status, events, l') ->
      (status = 0
       /\ outstanding events
          = [wg0_gateway_address; wg0_self_address; wg0_tgt_address;
             wg0_tgt_route; wg0_tgt_nexthop])
      \/ (status = -1
          /\ ((outstanding events = []
               /\ (events = [] \/ In (stored wg0_tgt_address) events))
              \/ (outstanding events = [wg0_gateway_address]
                  /\ events = [stored wg0_gateway_address])
              \/ (outstanding events
                  = [wg0_gateway_address; wg0_self_address]
                  /\ events = [stored wg0_gateway_address;
                               stored wg0_self_address])))).
Proof.
  split; [ | split ]; intros Hrun.
  - apply allocate_ipv4_addrs_cases in Hrun.
    destruct Hrun as [ [ -> -> ] | [ -> Hin ] ];
      [ left; split; reflexivity | right; split; [ reflexivity | ] ].
    each_case Hin;
      first [ left; split; [ reflexivity | cbn [In]; intuition discriminate ]
            | right; split; [ reflexivity | cbn [In]; tauto ] ].
  - apply allocate_ipv6_addrs_cases in Hrun.
    destruct Hrun as [ [ -> -> ] | [ -> Hin ] ];
      [ left; split; reflexivity | right; split; [ reflexivity | ] ].
    each_case Hin;
      first [ left; split; [ reflexivity | cbn [In]; intuition discriminate ]
            | right; split; [ reflexivity | cbn [In]; tauto ] ].
  - apply allocate_wg0_resources_cases in Hrun.
    destruct Hrun as [ [ -> -> ] | [ -> Hin ] ];
      [ left; split; reflexivity | right; split; [ reflexivity | ] ].
    each_case Hin;
      first [ left; split; [ reflexivity | cbn [In]; tauto ]
            | right; left; split; reflexivity
            | right; right; split; reflexivity ].
Qed.


End NetlinkObjects.

(** *** Runs on the scripted libnl *)

Section NetlinkObjectsExamples.

Import NetlinkSetup SetupExamples.


End NetlinkObjectsExamples.

(** ** The program around the supervisor *)

Section ProgramRuns.

Import Program.

Context {S : Type} `{Machine S}.









End ProgramRuns.

(** *** A run of [main] on the scripted machine *)

Section ProgramRunsExamples.

Import Program SetupExamples.


End ProgramRunsExamples.
